(** * Human-in-the-loop protocol of the agent orchestrator

    A shallow embedding of the response parsers, the pending-request broker
    ([HumanLoopService]), the agent-side dispatch ([AgentService]) and the
    development workflow ([DevelopmentWorkflow]) of the JavaScript sources,
    together with the properties the specification states about them.

    Conventions.
    - A JavaScript string is the list of its code units.  The development
      covers the code units below 256 (Latin-1), carried by [ascii]; on that
      range [trim], [toLowerCase] and the regular-expression class [\s] are
      exactly the functions given here.
    - [Date.now()] is an explicit argument [now], in milliseconds.
    - A JavaScript [Map] is an association list in insertion order.
    - Calls that leave the process (issue tracker, git, agent, test runner)
      are recorded in a trace of events; their outcome is read from an
      explicit environment. *)

From Stdlib Require Import List Ascii String ZArith NArith Lia Bool Arith.
From Stdlib Require Import DecimalString DecimalN DecimalFacts.
Import ListNotations.

(* ================================================================== *)
(** * JavaScript strings *)

Module JsString.

Definition jsstring := list ascii.

(** A string literal as a list of code units. *)
Definition js (s : string) : jsstring := list_ascii_of_string s.
Arguments js s%_string.

Definition unitCode (c : ascii) : N := N_of_ascii c.

Definition LF : ascii := ascii_of_N 10.
Definition SPACE : ascii := ascii_of_N 32.
Definition COLON : ascii := ascii_of_N 58.

Fixpoint str_eqb (a b : jsstring) : bool :=
  match a, b with
  | [], [] => true
  | x :: a', y :: b' => Ascii.eqb x y && str_eqb a' b'
  | _, _ => false
  end.

(** ECMAScript WhiteSpace and LineTerminator code points below 256:
    TAB, LF, VT, FF, CR, SP and NBSP. *)
Definition isWhiteSpace (c : ascii) : bool :=
  let n := unitCode c in
  ((9 <=? n) && (n <=? 13) || (n =? 32) || (n =? 160))%N.

Fixpoint dropWhile (p : ascii -> bool) (s : jsstring) : jsstring :=
  match s with
  | [] => []
  | c :: s' => if p c then dropWhile p s' else s
  end.

Definition trimStart (s : jsstring) : jsstring := dropWhile isWhiteSpace s.
Definition trimEnd (s : jsstring) : jsstring :=
  rev (dropWhile isWhiteSpace (rev s)).

(** [String.prototype.trim] *)
Definition trim (s : jsstring) : jsstring := trimEnd (trimStart s).

(** [String.prototype.startsWith] *)
Fixpoint startsWith (s p : jsstring) : bool :=
  match p, s with
  | [], _ => true
  | _ :: _, [] => false
  | y :: p', x :: s' => Ascii.eqb x y && startsWith s' p'
  end.

(** [String.prototype.includes] *)
Fixpoint includes (s p : jsstring) : bool :=
  startsWith s p ||
  match s with
  | [] => false
  | _ :: s' => includes s' p
  end.

(** [String.prototype.indexOf]: the first position, or -1. *)
Fixpoint indexOf (s p : jsstring) : Z :=
  if startsWith s p then 0%Z
  else match s with
       | [] => (-1)%Z
       | _ :: s' => let i := indexOf s' p in
                    if (i <? 0)%Z then (-1)%Z else (i + 1)%Z
       end.

(** [String.prototype.substring] with one argument: a negative start is
    taken as 0, a start past the end gives the empty string. *)
Definition substring (s : jsstring) (start : Z) : jsstring :=
  skipn (Z.to_nat (Z.max 0 start)) s.

(** [String.prototype.split] on a single code unit: never empty. *)
Fixpoint split (sep : ascii) (s : jsstring) : list jsstring :=
  match s with
  | [] => [[]]
  | c :: s' =>
      if Ascii.eqb c sep then [] :: split sep s'
      else match split sep s' with
           | [] => [[c]]
           | l :: ls => (c :: l) :: ls
           end
  end.

(** [String.prototype.toLowerCase] on the code units below 256: A-Z and
    the accented capitals 0xC0-0xDE other than the multiplication sign
    0xD7 move up by 0x20. *)
Definition lowerUnit (c : ascii) : ascii :=
  let n := unitCode c in
  if ((65 <=? n) && (n <=? 90) ||
      (192 <=? n) && (n <=? 222) && negb (n =? 215))%N
  then ascii_of_N (n + 32) else c.

Definition toLowerCase (s : jsstring) : jsstring := map lowerUnit s.

Definition isUpperAZ (c : ascii) : bool :=
  let n := unitCode c in ((65 <=? n) && (n <=? 90))%N.

(** The regular expression [/^[A-Z]+:/] used as a test. *)
Definition matchesUpperColon (s : jsstring) : bool :=
  match s with
  | [] => false
  | c :: s' =>
      isUpperAZ c &&
      match dropWhile isUpperAZ s' with
      | d :: _ => Ascii.eqb d COLON
      | [] => false
      end
  end.

(** Truthiness of a string: non-empty. *)
Definition truthyStr (s : jsstring) : bool :=
  match s with [] => false | _ => true end.

(** [String.prototype.replace] with a string pattern: the first occurrence
    only. *)
Fixpoint replaceFirst (s pat repl : jsstring) : jsstring :=
  if startsWith s pat then repl ++ skipn (List.length pat) s
  else match s with
       | [] => []
       | c :: s' => c :: replaceFirst s' pat repl
       end.

(** [Array.prototype.join] *)
Fixpoint join (sep : jsstring) (l : list jsstring) : jsstring :=
  match l with
  | [] => []
  | [x] => x
  | x :: l' => x ++ sep ++ join sep l'
  end.

(** Comparison under the [i] flag against a pattern of ASCII letters and
    punctuation: a code unit of 128 or more never canonicalizes to an
    ASCII one, so only the two ASCII cases of a letter match it. *)
Definition startsWithIgnoreCase (s p : jsstring) : bool :=
  startsWith (toLowerCase s) (toLowerCase p).

(** Decimal rendering of a non-negative integer, as in a template
    literal. *)
Definition decimal (n : N) : jsstring :=
  js (NilZero.string_of_uint (N.to_uint n)).

End JsString.
Import JsString.

(* ================================================================== *)
(** * The response parsers *)

Module Parser.

Inductive ResponseType :=
  | decision | code | guidance | approval | question | general.

(** The string the source stores in the [type] field. *)
Definition typeName (t : ResponseType) : jsstring :=
  match t with
  | decision => js "decision"
  | code => js "code"
  | guidance => js "guidance"
  | approval => js "approval"
  | question => js "question"
  | general => js "general"
  end.

(** The object returned by [HumanLoopService.parseHumanResponse];
    [feedback] and [approved] exist on approvals only. *)
Record ParsedResponse := mkParsed {
  type : ResponseType;
  content : jsstring;
  feedback : option jsstring;
  approved : option bool;
  raw : jsstring
}.

(** The body of the [for] loop of [extractStructuredContent], with the
    loop variables [content] and [capturing] as accumulators; [break]
    returns the content collected so far. *)
Fixpoint extractLoop (prefix : jsstring) (lines : list jsstring)
    (content : jsstring) (capturing : bool) : jsstring :=
  match lines with
  | [] => content
  | line :: rest =>
      if startsWith (trim line) prefix then
        extractLoop prefix rest
          (trim (substring line
                   (indexOf line prefix + Z.of_nat (List.length prefix))))
          true
      else if capturing && matchesUpperColon (trim line) then content
      else if capturing && truthyStr (trim line) then
        extractLoop prefix rest (content ++ js " " ++ trim line) capturing
      else extractLoop prefix rest content capturing
  end.

(** [HumanLoopService.extractStructuredContent] *)
Definition extractStructuredContent (text prefix : jsstring) : jsstring :=
  trim (extractLoop prefix (split LF text) [] false).

(** [HumanLoopService.parseHumanResponse] *)
Definition parseHumanResponse (responseText : jsstring) : ParsedResponse :=
  let text := trim responseText in
  if includes text (js "DECISION:") then
    mkParsed decision (extractStructuredContent text (js "DECISION:"))
             None None text
  else if includes text (js "CODE:") then
    mkParsed code (extractStructuredContent text (js "CODE:"))
             None None text
  else if includes text (js "GUIDANCE:") then
    mkParsed guidance (extractStructuredContent text (js "GUIDANCE:"))
             None None text
  else if includes text (js "APPROVAL:") then
    let approval_text := extractStructuredContent text (js "APPROVAL:") in
    let feedback_text := extractStructuredContent text (js "FEEDBACK:") in
    mkParsed approval approval_text (Some feedback_text)
             (Some (includes (toLowerCase approval_text) (js "yes")))
             text
  else if includes text (js "QUESTION:") then
    mkParsed question (extractStructuredContent text (js "QUESTION:"))
             None None text
  else
    mkParsed general text None None text.

(** A comment as [GiteaClient.parseHumanResponse] reads it. *)
Record Comment := mkComment {
  body : jsstring;
  user_login : jsstring;
  created_at : jsstring
}.

Record GiteaResponse := mkGiteaResponse {
  g_type : ResponseType;
  g_content : jsstring;
  g_approved : option bool;
  g_author : jsstring;
  g_timestamp : jsstring
}.

(** One iteration of the loop of [GiteaClient.parseHumanResponse]. *)
Definition giteaParseComment (comment : Comment) : GiteaResponse :=
  let body := trim (body comment) in
  if startsWith body (js "DECISION:") then
    mkGiteaResponse decision (trim (substring body 9)) None
                    (user_login comment) (created_at comment)
  else if startsWith body (js "CODE:") then
    mkGiteaResponse code (trim (substring body 5)) None
                    (user_login comment) (created_at comment)
  else if startsWith body (js "GUIDANCE:") then
    mkGiteaResponse guidance (trim (substring body 9)) None
                    (user_login comment) (created_at comment)
  else if startsWith body (js "APPROVAL:") then
    let approval_text := trim (substring body 9) in
    mkGiteaResponse approval approval_text
                    (Some (includes (toLowerCase approval_text) (js "yes")))
                    (user_login comment) (created_at comment)
  else
    mkGiteaResponse general body None
                    (user_login comment) (created_at comment).

(** [GiteaClient.parseHumanResponse] *)
Definition giteaParseHumanResponse (comments : list Comment)
  : list GiteaResponse :=
  map giteaParseComment comments.

(** ** [AgentService.parseVerification]

    The three regular expressions are run by hand.  Each is searched from
    the left; [\s*] is greedy and gives characters back only when what
    follows cannot match otherwise. *)

(** [/APPROVAL:\s*(Yes|No)/i] at the start of [s]: the captured group,
    lower-cased, when the pattern matches there. *)
Definition approvalAt (s : jsstring) : option jsstring :=
  if startsWithIgnoreCase s (js "APPROVAL:") then
    let r := dropWhile isWhiteSpace (skipn 9 s) in
    if startsWithIgnoreCase r (js "Yes") then Some (js "yes")
    else if startsWithIgnoreCase r (js "No") then Some (js "no")
    else None
  else None.

(** Leftmost match of [/APPROVAL:\s*(Yes|No)/i]. *)
Fixpoint approvalMatch (s : jsstring) : option jsstring :=
  match approvalAt s with
  | Some g => Some g
  | None => match s with
            | [] => None
            | _ :: s' => approvalMatch s'
            end
  end.

(** The lazy group [(.+?)] followed by the lookahead [(?=PROCEED:|$)]:
    at least one code unit, then as few as possible. *)
Fixpoint lazyUntilProceed (s : jsstring) : jsstring :=
  match s with
  | [] => []
  | c :: s' =>
      c :: match s' with
           | [] => []
           | _ => if startsWithIgnoreCase s' (js "PROCEED:") then []
                  else lazyUntilProceed s'
           end
  end.

(** What follows a matched keyword: [\s*] then a group that needs one
    code unit.  When only white space is left, [\s*] gives its last code
    unit back to the group. *)
Definition afterKeyword (r : jsstring) : option jsstring :=
  match dropWhile isWhiteSpace r with
  | (_ :: _) as r' => Some r'
  | [] => match rev r with
          | [] => None
          | c :: _ => Some [c]
          end
  end.

(** Leftmost match of [/FEEDBACK:\s*(.+?)(?=PROCEED:|$)/is]. *)
Fixpoint feedbackMatch (s : jsstring) : option jsstring :=
  match (if startsWithIgnoreCase s (js "FEEDBACK:")
         then afterKeyword (skipn 9 s) else None) with
  | Some r => Some (lazyUntilProceed r)
  | None => match s with
            | [] => None
            | _ :: s' => feedbackMatch s'
            end
  end.

(** Leftmost match of [/PROCEED:\s*(.+?)$/is]. *)
Fixpoint proceedMatch (s : jsstring) : option jsstring :=
  match (if startsWithIgnoreCase s (js "PROCEED:")
         then afterKeyword (skipn 8 s) else None) with
  | Some r => Some r
  | None => match s with
            | [] => None
            | _ :: s' => proceedMatch s'
            end
  end.

Record Verification := mkVerification {
  v_approved : bool;
  v_feedback : jsstring;
  v_instructions : jsstring
}.

(** [AgentService.parseVerification] *)
Definition parseVerification (content : jsstring) : Verification :=
  mkVerification
    (match approvalMatch content with
     | Some g => str_eqb g (js "yes")
     | None => false
     end)
    (match feedbackMatch content with
     | Some g => trim g
     | None => []
     end)
    (match proceedMatch content with
     | Some g => trim g
     | None => []
     end).

End Parser.
Import Parser.

(* ================================================================== *)
(** * Runtime: data, events, state and the effect monad *)

Module Runtime.

(** ** [Map] in insertion order *)
Section JsMap.
Context {V : Type}.

Definition Map := list (jsstring * V).

Fixpoint map_get (k : jsstring) (m : Map) : option V :=
  match m with
  | [] => None
  | (k', v) :: m' => if str_eqb k' k then Some v else map_get k m'
  end.

(** [Map.prototype.set]: an existing key keeps its place. *)
Fixpoint map_set (k : jsstring) (v : V) (m : Map) : Map :=
  match m with
  | [] => [(k, v)]
  | (k', v') :: m' =>
      if str_eqb k' k then (k', v) :: m' else (k', v') :: map_set k v m'
  end.

Fixpoint map_delete (k : jsstring) (m : Map) : Map :=
  match m with
  | [] => []
  | (k', v') :: m' =>
      if str_eqb k' k then m' else (k', v') :: map_delete k m'
  end.

Definition map_keys (m : Map) : list jsstring := map fst m.
Definition map_values (m : Map) : list V := map snd m.
End JsMap.
Arguments Map V : clear implicits.

(** ** Data *)

Record Repository := mkRepository {
  url : option jsstring;
  branch : option jsstring;
  owner : option jsstring;
  name : option jsstring
}.

(** The result of [extractRepositoryInfo]; a part missing from the URL is
    [undefined]. *)
Record RepoInfo := mkRepoInfo {
  info_owner : option jsstring;
  info_name : option jsstring
}.

Record Task := mkTask {
  task_id : jsstring;
  description : jsstring;
  additionalContext : option jsstring;
  repository : option Repository;
  metadata_repository : option RepoInfo;
  sourceIssue : option N;
  task_branch : option jsstring;
  task_pullRequest : option N
}.

Record Issue := mkIssue { number : N }.

(** The context object handed to [requestHumanInput]; the fields that
    only feed the issue body are left out. *)
Record Context := mkContext {
  agentId : jsstring;
  ctx_question : option jsstring;
  ctx_urgency : option jsstring;
  ctx_repository : option Repository;
  ctx_metadata_repository : option RepoInfo
}.

Inductive Status := pending | responded | cancelled.

Definition status_eqb (a b : Status) : bool :=
  match a, b with
  | pending, pending | responded, responded | cancelled, cancelled => true
  | _, _ => false
  end.

Record Request := mkRequest {
  id : jsstring;
  taskId : jsstring;
  req_agentId : jsstring;
  issue : Issue;
  context : Context;
  createdAt : Z;
  status : Status;
  response : option ParsedResponse;
  respondedAt : option Z;
  cancelledAt : option Z;
  cancellationReason : option jsstring
}.

Record Plan := mkPlan {
  approach : jsstring;
  files : jsstring;
  steps : jsstring;
  testing : jsstring;
  risks : jsstring;
  outcome : jsstring;
  fullPlan : jsstring
}.

Record HistoryEntry := mkHistoryEntry {
  role : jsstring;
  h_content : jsstring;
  timestamp : Z;
  isHumanResponse : bool
}.

(** [agent.context.devContainer], as far as it is read: it is there or
    not. *)
Record DevContainerRef := mkDevContainerRef {
  dc_id : jsstring;
  dc_workspacePath : jsstring
}.

Record Agent := mkAgent {
  agent_id : jsstring;
  agent_type : jsstring;
  agent_status : jsstring;
  conversationHistory : list HistoryEntry;
  clarificationAnswers : option jsstring;
  verificationResponse : option Verification;
  implementationPlan : option Plan;
  currentTask : option Task;
  workingDirectory : option jsstring;
  containerId : option jsstring;
  devContainer : option DevContainerRef
}.

(** The [params] object of a git operation.  The workflow passes
    [repository], [branchName], [baseBranch], [branch] and [message];
    an action of the agent may also pass [files]. *)
Record GitArgs := mkGitParams {
  git_repository : option jsstring;
  git_branchName : option jsstring;
  git_baseBranch : option jsstring;
  git_branch : option jsstring;
  git_message : option jsstring;
  git_files : option (list jsstring)
}.

Definition mkGitArgs (repository branchName baseBranch branch
    message : option jsstring) : GitArgs :=
  mkGitParams repository branchName baseBranch branch message None.

(** An action parsed from the reply of the model: [type] and [data].
    [data] is [None] when the JSON value is [null], whose properties
    cannot be read; a field is [None] when the value does not have it.
    The fields that are there are taken to be strings, [params] an
    object and [files] an array of strings. *)
Record ActionData := mkActionData {
  ad_path : option jsstring;
  ad_content : option jsstring;
  ad_command : option jsstring;
  ad_operation : option jsstring;
  ad_params : option GitArgs;
  ad_pattern : option jsstring;
  ad_testCommand : option jsstring;
  ad_packageManager : option jsstring
}.

Record Action := mkAction {
  a_type : jsstring;
  a_data : option ActionData
}.

(** An entry of the [results] of [executeActions]: the action and
    whether it succeeded; what it returned is never read. *)
Record ActionOutcome := mkActionOutcome {
  ao_action : Action;
  ao_succeeded : bool
}.

(** The value [executeWithImplementation] resolves to.  It has no
    [branch], no [changes] and no [testResults]. *)
Record Implementation := mkImplementation {
  message : jsstring;
  actions : list Action;
  results : list ActionOutcome;
  modifiedFiles : list (option jsstring);
  summary : jsstring
}.

Record TestResults := mkTestResults {
  exitCode : Z;
  output : option jsstring;
  error : option jsstring
}.

Record PullRequest := mkPullRequest {
  pr_number : N;
  pr_title : jsstring;
  html_url : jsstring
}.

Record ReviewComment := mkReviewComment {
  rc_body : jsstring;
  rc_user : jsstring
}.

(** ** Events

    Template literals are kept as constructors holding the values they
    interpolate. *)

Inductive Prompt :=
  | AnalysisPrompt (description : jsstring) (additionalContext : jsstring)
  | PlanningPrompt (description additionalContext : jsstring)
                   (url : option jsstring)
  | ImplementationPrompt (description fullPlan : jsstring)
  | FixPrompt (output error : option jsstring)
  | FeedbackPrompt (comments : list ReviewComment)
  | RevisionPrompt (originalPlan feedback : jsstring).

Inductive CommentText :=
  | ConfirmationComment (typeUpper content : jsstring)
  | ClosingComment (resolution : jsstring) (at_ : Z)
  | CancellationComment (reason : jsstring) (at_ : Z)
  | PullRequestCreatedComment (pr : PullRequest) (branchName : jsstring)
                              (summary : jsstring)
  | ReviewReplyComment.

Inductive IssueBody :=
  | ClarificationRequest (t : Task) (questions : list jsstring)
  | VerificationRequest (t : Task) (p : Plan).

Inductive TaskMetadata :=
  | ClarificationMeta (clarificationIssue : N) (questions : list jsstring)
  | VerificationMeta (verificationIssue : N) (implementationPlan : Plan)
  | ReviewMeta (pullRequest : N) (pullRequestUrl : jsstring).

(** The JSON body of a request [GiteaClient] posts; a field is [None]
    when its value is [undefined]. *)
Inductive GiteaPayload :=
  | IssuePayload (title : option jsstring) (body : option IssueBody)
                 (labels assignees : list jsstring)
  | PullRequestPayload (title body head base : option jsstring)
  | LabelsPayload (labels : list jsstring)
  | CommentPayload (body : CommentText)
  | ReviewPayload (body : CommentText).

(** The outgoing calls: the requests of [mcpClient], the requests
    [GiteaClient] posts (path under /api/v1 and body), the command
    [executeInContainer] hands to the shell, a query to the model, and
    the request of [updateTaskStatus]. *)
Inductive Event :=
  | McpCreateGiteaIssue (owner name : option jsstring) (title : jsstring)
                        (labels : list jsstring)
  | McpAddGiteaComment (owner name : option jsstring) (issueNumber : N)
                       (text : CommentText)
  | McpGitOperation (op : option jsstring) (args : GitArgs)
  | McpExecuteCommand (command : option jsstring) (cwd : option jsstring)
  | McpReadFile (path : option jsstring)
  | McpWriteFile (path content : option jsstring)
  | McpSearchCode (pattern : option jsstring) (path : option jsstring)
  | ContainerExec (execCommand : jsstring) (cwd : jsstring) (timeout : N)
  | GiteaPost (path : jsstring) (payload : GiteaPayload)
  | LlmQuery (provider : jsstring) (history : list HistoryEntry)
             (prompt : Prompt)
  | PatchTaskStatus (task : jsstring) (status : jsstring)
                    (metadata : TaskMetadata).

Inductive Error :=
  | JsError (message : jsstring)
  | TypeError
  | ExternalError (message : jsstring).

Inductive Outcome (A : Type) :=
  | Ok (a : A)
  | Throw (e : Error).
Arguments Ok {A} a.
Arguments Throw {A} e.

(** What running a command in a child process gives: its output, or the
    error of a non-zero exit, a time-out or a failed start, with its
    [code] when that is a number. *)
Inductive ExecAnswer :=
  | ExecDone (stdout stderr : jsstring)
  | ExecFailed (errorCode : option Z) (message : jsstring).

(** An entry of [DevContainerService.activeContainers], as far as it is
    read. *)
Record ContainerInfo := mkContainerInfo { workspacePath : jsstring }.

(** ** The outside world

    Each oracle answers one kind of outgoing call; it sees the trace up to
    and including the call it answers.  [activeContainers] is the
    registry of [DevContainerService], which nothing below changes.
    [extractSection], [parseAnswers] and [parseActions] stand for the
    three helpers of the same names, which search a text with a regular
    expression ([parseActions] also reads JSON, and drops what is not
    JSON): each is a function of its argument alone, makes no call and
    never throws, and the properties below hold whatever it returns. *)
Record Env := mkEnv {
  mcp_createGiteaIssue : list Event -> Outcome Issue;
  mcp_addGiteaComment : list Event -> Outcome unit;
  mcp_gitOperation : list Event -> Outcome unit;
  mcp_executeCommand : list Event -> Outcome TestResults;
  mcp_readFile : list Event -> Outcome unit;
  mcp_writeFile : list Event -> Outcome unit;
  mcp_searchCode : list Event -> Outcome unit;
  child_exec : list Event -> ExecAnswer;
  activeContainers : Map ContainerInfo;
  gitea_createIssue : list Event -> Outcome Issue;
  gitea_createPullRequest : list Event -> Outcome PullRequest;
  gitea_addLabels : list Event -> Outcome unit;
  gitea_createComment : list Event -> Outcome unit;
  llm_create : list Event -> Outcome jsstring;
  axios_patch : list Event -> Outcome unit;
  extractSection : jsstring -> jsstring -> jsstring;
  parseAnswers : jsstring -> jsstring;
  parseActions : jsstring -> list Action
}.

(** ** State and monad *)

Record State := mkState {
  pendingRequests : Map Request;
  activeAgents : Map Agent;
  trace : list Event
}.

Definition M (A : Type) : Type := State -> Outcome A * State.

Definition ret {A} (a : A) : M A := fun st => (Ok a, st).

Definition bind {A B} (m : M A) (f : A -> M B) : M B :=
  fun st =>
    match m st with
    | (Ok a, st') => f a st'
    | (Throw e, st') => (Throw e, st')
    end.

Definition throw {A} (e : Error) : M A := fun st => (Throw e, st).

(** [try { m } catch (error) { h error }] *)
Definition tryCatch {A} (m : M A) (h : Error -> M A) : M A :=
  fun st =>
    match m st with
    | (Ok a, st') => (Ok a, st')
    | (Throw e, st') => h e st'
    end.

(** An outgoing call: recorded, then answered by its oracle. *)
Definition external {A} (ev : Event) (oracle : list Event -> Outcome A)
  : M A :=
  fun st =>
    let tr := trace st ++ [ev] in
    (oracle tr, mkState (pendingRequests st) (activeAgents st) tr).

Definition getPending : M (Map Request) :=
  fun st => (Ok (pendingRequests st), st).

Definition putPending (m : Map Request) : M unit :=
  fun st => (Ok tt, mkState m (activeAgents st) (trace st)).

Definition getAgents : M (Map Agent) :=
  fun st => (Ok (activeAgents st), st).

Definition putAgents (m : Map Agent) : M unit :=
  fun st => (Ok tt, mkState (pendingRequests st) m (trace st)).

(** Reading a property of an object that may be [undefined]. *)
Definition deref {A} (o : option A) : M A :=
  match o with
  | Some a => ret a
  | None => throw TypeError
  end.

Declare Scope js_scope.
Delimit Scope js_scope with js.
Notation "x <- m ;; k" := (bind m (fun x => k))
  (at level 61, m at next level, right associativity) : js_scope.
Notation "m ;;; k" := (bind m (fun _ => k))
  (at level 61, right associativity) : js_scope.

(** [a || b] on optional strings: the first truthy one. *)
Definition orElse (a : option jsstring) (b : jsstring) : jsstring :=
  match a with
  | Some s => if truthyStr s then s else b
  | None => b
  end.

Definition orElseOpt (a b : option jsstring) : option jsstring :=
  match a with
  | Some s => if truthyStr s then Some s else b
  | None => b
  end.

(** What a template literal makes of a string that may be
    [undefined]. *)
Definition template (a : option jsstring) : jsstring :=
  match a with
  | Some s => s
  | None => js "undefined"
  end.

(** A number as a caller may hand it over: a whole number, or [NaN].
    An infinity is not told apart from [NaN]: both give an Invalid Date
    below. *)
Inductive JsNumber :=
  | Num (z : Z)
  | NaN.
Bind Scope Z_scope with JsNumber.
Coercion Num : Z >-> JsNumber.

(** [Date.now() - hours * 60 * 60 * 1000] *)
Definition hoursBefore (now : Z) (hours : JsNumber) : JsNumber :=
  match hours with
  | Num h => Num (now - h * 60 * 60 * 1000)
  | NaN => NaN
  end.

(** [new Date(value)]: the time value of the date, or [None] for an
    Invalid Date, which a value that is [NaN] or further than
    8.64e15 ms from the epoch gives. *)
Definition newDate (value : JsNumber) : option Z :=
  match value with
  | Num v => if (Z.abs v <=? 8640000000000000)%Z then Some v else None
  | NaN => None
  end.

(** [a < b] between a date and a date that may be invalid: every
    comparison with an Invalid Date is false. *)
Definition dateBefore (a : Z) (b : option Z) : bool :=
  match b with
  | Some t => (a <? t)%Z
  | None => false
  end.

Definition QUOTE : ascii := ascii_of_N 34.
Definition APOSTROPHE : ascii := ascii_of_N 39.

Definition quoted (s : jsstring) : jsstring := QUOTE :: s ++ [QUOTE].

End Runtime.
Import Runtime.
Local Open Scope js_scope.

(* ================================================================== *)
(** * The configuration *)

Module Config.

(** The top-level keys of the object [config/index.js] exports. *)
Definition sections : list jsstring :=
  [ js "server"; js "mcp"; js "gitea"; js "ai"; js "agents";
    js "devContainers"; js "logging"; js "security"; js "database";
    js "redis"; js "monitoring"; js "backup"; js "paths" ].

(** [config[key]] is an object rather than [undefined]. *)
Definition hasSection (key : jsstring) : bool :=
  existsb (str_eqb key) sections.

End Config.

(* ================================================================== *)
(** * [GiteaClient]: the requests it posts *)

Module GiteaClient.

(** An argument as a template literal sees it: a string, a number,
    [undefined], or an object that is not a string. *)
Inductive Arg :=
  | ArgString (s : jsstring)
  | ArgNumber (n : N)
  | ArgUndefined
  | ArgObject.

Definition interpolate (a : Arg) : jsstring :=
  match a with
  | ArgString s => s
  | ArgNumber n => decimal n
  | ArgUndefined => js "undefined"
  | ArgObject => js "[object Object]"
  end.

Definition ofOption (o : option jsstring) : Arg :=
  match o with
  | Some s => ArgString s
  | None => ArgUndefined
  end.

Definition repoPath (owner repo : Arg) : jsstring :=
  js "/repos/" ++ interpolate owner ++ js "/" ++ interpolate repo.

Section WithEnv.
Variable env : Env.

(** [createIssue(owner, repo, title, body, labels = [], assignees = [])];
    its [catch] logs and throws again. *)
Definition createIssue (owner repo : Arg) (title : option jsstring)
    (body : option IssueBody) (labels assignees : list jsstring)
  : M Issue :=
  external (GiteaPost (repoPath owner repo ++ js "/issues")
                      (IssuePayload title body labels assignees))
           (gitea_createIssue env).

(** [addLabelsToPullRequest] *)
Definition addLabelsToPullRequest (owner repo : Arg) (prNumber : N)
    (labels : list jsstring) : M unit :=
  external (GiteaPost (repoPath owner repo ++ js "/issues/" ++
                       decimal prNumber ++ js "/labels")
                      (LabelsPayload labels))
           (gitea_addLabels env).

(** [createPullRequest(owner, repo, title, body, head, base,
    labels = [])] *)
Definition createPullRequest (owner repo : Arg)
    (title body head base : option jsstring) (labels : list jsstring)
  : M PullRequest :=
  response <-
    external (GiteaPost (repoPath owner repo ++ js "/pulls")
                        (PullRequestPayload title body head base))
             (gitea_createPullRequest env) ;;
  (if 0 <? List.length labels
   then addLabelsToPullRequest owner repo (pr_number response) labels
   else ret tt) ;;;
  ret response.

(** [createIssueComment(owner, repo, issueNumber, body)] *)
Definition createIssueComment (owner repo : Arg) (issueNumber : N)
    (body : CommentText) : M unit :=
  external (GiteaPost (repoPath owner repo ++ js "/issues/" ++
                       decimal issueNumber ++ js "/comments")
                      (CommentPayload body))
           (gitea_createComment env).

(** [createPullRequestComment(owner, repo, prNumber, body)] *)
Definition createPullRequestComment (owner repo : Arg) (prNumber : N)
    (body : CommentText) : M unit :=
  external (GiteaPost (repoPath owner repo ++ js "/pulls/" ++
                       decimal prNumber ++ js "/reviews")
                      (ReviewPayload body))
           (gitea_createComment env).

End WithEnv.

End GiteaClient.

(* ================================================================== *)
(** * [DevContainerService]: running a command in a container *)

Module ContainerService.

(** What [executeInContainer] resolves to, as far as it is read. *)
Record ExecResult := mkExecResult {
  er_stdout : jsstring;
  er_stderr : jsstring;
  er_exitCode : Z
}.

Definition inRepository (command : jsstring) : jsstring :=
  js "cd /workspace/repository && " ++ command.

Section WithEnv.
Variable env : Env.

(** [executeInContainer(containerId, command, options = {})]: whatever
    is thrown inside, an unknown container included, is turned into a
    result with [exitCode: error.code || 1]; it never throws. *)
Definition executeInContainer (containerId : option jsstring)
    (command : jsstring) (timeout : option N) : M ExecResult :=
  match match containerId with
        | Some c => map_get c (activeContainers env)
        | None => None
        end with
  | None =>
      ret (mkExecResult []
             (js "Container " ++ template containerId ++ js " not found")
             1)
  | Some containerInfo =>
      answer <-
        external
          (ContainerExec
             (js "devcontainer exec --workspace-folder " ++
              quoted (workspacePath containerInfo) ++ js " -- " ++ command)
             (workspacePath containerInfo)
             (match timeout with
              | Some t => if (t =? 0)%N then 60000%N else t
              | None => 60000%N
              end))
          (fun tr => Ok (child_exec env tr)) ;;
      ret (match answer with
           | ExecDone out err => mkExecResult out err 0
           | ExecFailed errorCode msg =>
               mkExecResult [] msg
                 (match errorCode with
                  | Some c => if (c =? 0)%Z then 1%Z else c
                  | None => 1%Z
                  end)
           end)
  end.

(** [runTests(containerId, testCommand = 'npm test')] *)
Definition runTests (containerId : option jsstring)
    (testCommand : option jsstring) : M ExecResult :=
  executeInContainer containerId
    (inRepository (match testCommand with
                   | Some c => c
                   | None => js "npm test"
                   end))
    (Some 180000%N).

(** [installDependencies(containerId, packageManager = 'npm')] *)
Definition installDependencies (containerId : option jsstring)
    (packageManager : option jsstring) : M ExecResult :=
  let packageManager :=
    match packageManager with Some p => p | None => js "npm" end in
  installCommand <-
    (if str_eqb packageManager (js "npm")
     then ret (inRepository (js "npm install"))
     else if str_eqb packageManager (js "yarn")
     then ret (inRepository (js "yarn install"))
     else if str_eqb packageManager (js "pip")
     then ret (inRepository (js "pip install -r requirements.txt"))
     else if str_eqb packageManager (js "cargo")
     then ret (inRepository (js "cargo build"))
     else if str_eqb packageManager (js "maven")
     then ret (inRepository (js "mvn install"))
     else if str_eqb packageManager (js "gradle")
     then ret (inRepository (js "./gradlew build"))
     else throw (JsError (js "Unsupported package manager: " ++
                          packageManager))) ;;
  executeInContainer containerId installCommand (Some 300000%N).

End WithEnv.

End ContainerService.

(* ================================================================== *)
(** * [AgentService]: querying the model and carrying out its actions *)

Module AgentCapability.

Import ContainerService.

(** [content.replace(/'/g, ...)]: every apostrophe becomes the five
    code units that close the quotes, give one and open them again. *)
Definition escapeForShell (content : jsstring) : jsstring :=
  flat_map (fun c => if Ascii.eqb c APOSTROPHE
                     then [APOSTROPHE; QUOTE; APOSTROPHE; QUOTE; APOSTROPHE]
                     else [c])
           content.

Definition isOperation (operation : option jsstring) (name : jsstring)
  : bool :=
  match operation with
  | Some o => str_eqb o name
  | None => false
  end.

(** [agent.context.containerId && agent.context.devContainer] *)
Definition useDevContainer (agent : Agent) : bool :=
  match containerId agent, devContainer agent with
  | Some c, Some _ => truthyStr c
  | _, _ => false
  end.

(** [extractModifiedFiles]: the paths of the [WRITE_FILE] actions that
    succeeded; such an action has a [data], or reading its [path] would
    have made it fail. *)
Definition extractModifiedFiles (results : list ActionOutcome)
  : list (option jsstring) :=
  map (fun r => match a_data (ao_action r) with
                | Some d => ad_path d
                | None => None
                end)
      (filter (fun r => str_eqb (a_type (ao_action r)) (js "WRITE_FILE") &&
                        ao_succeeded r)
              results).

(** [generateSummary] *)
Definition generateSummary (response : jsstring)
    (results : list ActionOutcome) : jsstring :=
  js "Completed " ++
  decimal (N.of_nat (List.length (filter ao_succeeded results))) ++
  js "/" ++ decimal (N.of_nat (List.length results)) ++
  js " actions successfully. " ++ firstn 200 response ++ js "...".

Section WithEnv.
Variable env : Env.

(** [queryAgent]: the provider is chosen by the agent's type. *)
Definition queryAgent (agent : Agent) (prompt : Prompt) : M jsstring :=
  if str_eqb (agent_type agent) (js "claude") then
    external (LlmQuery (js "claude") (conversationHistory agent) prompt)
             (llm_create env)
  else if str_eqb (agent_type agent) (js "openai") then
    external (LlmQuery (js "openai") (conversationHistory agent) prompt)
             (llm_create env)
  else throw (JsError (js "Unknown agent type: " ++ agent_type agent)).

Definition failUnlessZero (what : jsstring) (result : ExecResult)
  : M unit :=
  if (er_exitCode result =? 0)%Z then ret tt
  else throw (JsError (what ++ er_stderr result)).

(** [readFileInContainer] *)
Definition readFileInContainer (agent : Agent) (filePath : option jsstring)
  : M unit :=
  result <-
    executeInContainer env (containerId agent)
      (js "cat " ++ quoted (js "/workspace/repository/" ++
                            template filePath))
      None ;;
  failUnlessZero (js "Failed to read file: ") result.

(** [writeFileInContainer]; [content.replace] on [undefined] raises a
    TypeError. *)
Definition writeFileInContainer (agent : Agent)
    (filePath content : option jsstring) : M unit :=
  content <- deref content ;;
  result <-
    executeInContainer env (containerId agent)
      (js "echo " ++ APOSTROPHE :: escapeForShell content ++
       APOSTROPHE :: js " > " ++
       quoted (js "/workspace/repository/" ++ template filePath))
      None ;;
  failUnlessZero (js "Failed to write file: ") result.

(** [executeCommandInContainer] *)
Definition executeCommandInContainer (agent : Agent)
    (command : option jsstring) : M unit :=
  executeInContainer env (containerId agent)
    (inRepository (template command)) None ;;;
  ret tt.

(** [executeGitInContainer]; every case but [status] reads a property
    of [params]. *)
Definition executeGitInContainer (agent : Agent)
    (operation : option jsstring) (params : option GitArgs) : M unit :=
  gitCommand <-
    (if isOperation operation (js "add") then
       params <- deref params ;;
       ret (js "git add " ++
            match git_files params with
            | Some files => join (js " ") files
            | None => js "."
            end)
     else if isOperation operation (js "commit") then
       params <- deref params ;;
       ret (js "git commit -m " ++ quoted (template (git_message params)))
     else if isOperation operation (js "push") then
       params <- deref params ;;
       ret (js "git push origin " ++
            orElse (git_branch params) (js "HEAD"))
     else if isOperation operation (js "checkout") then
       params <- deref params ;;
       ret (js "git checkout " ++ template (git_branch params))
     else if isOperation operation (js "create_branch") then
       params <- deref params ;;
       ret (js "git checkout -b " ++ template (git_branchName params))
     else if isOperation operation (js "status") then
       ret (js "git status --porcelain")
     else throw (JsError (js "Unknown git operation: " ++
                          template operation))) ;;
  executeInContainer env (containerId agent) (inRepository gitCommand)
                     None ;;;
  ret tt.

(** [searchCodeInContainer] *)
Definition searchCodeInContainer (agent : Agent)
    (pattern : option jsstring) : M unit :=
  executeInContainer env (containerId agent)
    (inRepository
       (js "grep -r " ++ quoted (template pattern) ++
        js " --include=" ++ quoted (js "*.js") ++
        js " --include=" ++ quoted (js "*.ts") ++
        js " --include=" ++ quoted (js "*.py") ++
        js " --include=" ++ quoted (js "*.go") ++
        js " --include=" ++ quoted (js "*.rs") ++
        js " --include=" ++ quoted (js "*.java") ++ js " . || true"))
    None ;;;
  ret tt.

(** The body of the [switch] of [executeActions] for one action.
    Reading a property of [action.data] raises a TypeError when the data
    is [null]. *)
Definition performAction (agent : Agent) (action : Action) : M unit :=
  let type := a_type action in
  if str_eqb type (js "READ_FILE") then
    data <- deref (a_data action) ;;
    if useDevContainer agent
    then readFileInContainer agent (ad_path data)
    else external (McpReadFile (ad_path data)) (mcp_readFile env)
  else if str_eqb type (js "WRITE_FILE") then
    data <- deref (a_data action) ;;
    if useDevContainer agent
    then writeFileInContainer agent (ad_path data) (ad_content data)
    else external (McpWriteFile (ad_path data) (ad_content data))
                  (mcp_writeFile env)
  else if str_eqb type (js "EXECUTE_COMMAND") then
    data <- deref (a_data action) ;;
    if useDevContainer agent
    then executeCommandInContainer agent (ad_command data)
    else external (McpExecuteCommand (ad_command data)
                                     (workingDirectory agent))
                  (mcp_executeCommand env) ;;;
         ret tt
  else if str_eqb type (js "GIT_OPERATION") then
    data <- deref (a_data action) ;;
    if useDevContainer agent
    then executeGitInContainer agent (ad_operation data) (ad_params data)
    else external (McpGitOperation (ad_operation data)
                     (match ad_params data with
                      | Some params => params
                      | None => mkGitParams None None None None None None
                      end))
                  (mcp_gitOperation env)
  else if str_eqb type (js "SEARCH_CODE") then
    data <- deref (a_data action) ;;
    if useDevContainer agent
    then searchCodeInContainer agent (ad_pattern data)
    else external (McpSearchCode (ad_pattern data)
                                 (workingDirectory agent))
                  (mcp_searchCode env)
  else if str_eqb type (js "RUN_TESTS") then
    data <- deref (a_data action) ;;
    if useDevContainer agent
    then ContainerService.runTests env (containerId agent)
           (ad_testCommand data) ;;;
         ret tt
    else external (McpExecuteCommand
                     (Some (orElse (ad_testCommand data) (js "npm test")))
                     (workingDirectory agent))
                  (mcp_executeCommand env) ;;;
         ret tt
  else if str_eqb type (js "INSTALL_DEPENDENCIES") then
    if useDevContainer agent
    then data <- deref (a_data action) ;;
         installDependencies env (containerId agent)
           (ad_packageManager data) ;;;
         ret tt
    else external (McpExecuteCommand (Some (js "npm install"))
                                     (workingDirectory agent))
                  (mcp_executeCommand env) ;;;
         ret tt
  else if str_eqb type (js "REQUEST_HUMAN_INPUT") then ret tt
  else throw (JsError (js "Unknown action type: " ++ type)).

(** [executeActions]: every action is tried, a failure is recorded and
    the loop goes on. *)
Fixpoint executeActions (agent : Agent) (actions : list Action)
  : M (list ActionOutcome) :=
  match actions with
  | [] => ret []
  | action :: rest =>
      result <-
        tryCatch (performAction agent action ;;;
                  ret (mkActionOutcome action true))
                 (fun _ => ret (mkActionOutcome action false)) ;;
      results <- executeActions agent rest ;;
      ret (result :: results)
  end.

(** [executeWithImplementation] *)
Definition executeWithImplementation (agent : Agent) (prompt : Prompt)
  : M Implementation :=
  response <- queryAgent agent prompt ;;
  let actions := parseActions env response in
  results <- executeActions agent actions ;;
  ret (mkImplementation response actions results
                        (extractModifiedFiles results)
                        (generateSummary response results)).

End WithEnv.

End AgentCapability.
Import AgentCapability.

(* ================================================================== *)
(** * [DevelopmentWorkflow] *)

Module DevelopmentWorkflow.

(** The value of an expression built with [&&] and [||] from strings and
    comparisons. *)
Inductive JsVal :=
  | VBool (b : bool)
  | VStr (s : jsstring).

Definition truthy (v : JsVal) : bool :=
  match v with
  | VBool b => b
  | VStr s => truthyStr s
  end.

Definition js_and (a : JsVal) (b : JsVal) : JsVal :=
  if truthy a then b else a.

Definition js_or (a : JsVal) (b : JsVal) : JsVal :=
  if truthy a then a else b.

Definition complexityIndicators : list jsstring :=
  [ js "architecture"; js "database"; js "api"; js "security";
    js "performance"; js "breaking change"; js "migration";
    js "refactor"; js "integration" ].

(** [shouldVerifyOutcome]: the value returned, before the caller tests
    its truthiness. *)
Definition shouldVerifyOutcome (plan : Plan) (task : Task) : JsVal :=
  let isComplex :=
    existsb (fun indicator =>
               includes (toLowerCase (description task)) indicator ||
               includes (toLowerCase (fullPlan plan)) indicator)
            complexityIndicators in
  let hasRisks :=
    js_and (VStr (risks plan))
           (VBool (50 <? List.length (risks plan))) in
  let multipleFiles :=
    js_and (VStr (files plan))
           (VBool (3 <? List.length (split LF (files plan)))) in
  js_or (js_or (VBool isComplex) hasRisks) multipleFiles.

Definition isDigit (c : ascii) : bool :=
  let n := unitCode c in ((48 <=? n) && (n <=? 57))%N.

(** [/^\d+\./] used as a test. *)
Definition matchesNumbered (s : jsstring) : bool :=
  match s with
  | [] => false
  | c :: s' =>
      isDigit c &&
      match dropWhile isDigit s' with
      | d :: _ => Ascii.eqb d (ascii_of_N 46)
      | [] => false
      end
  end.

(** [parseQuestions] *)
Definition parseQuestions (response : jsstring) : list jsstring :=
  let questions :=
    filter (fun trimmed => includes trimmed (js "?") ||
                           matchesNumbered trimmed)
           (map trim (split LF response)) in
  match questions with
  | [] => [response]
  | _ => questions
  end.

Definition isLowerAlnumOrSpace (c : ascii) : bool :=
  let n := unitCode c in
  ((97 <=? n) && (n <=? 122))%N || isDigit c || isWhiteSpace c.

(** [replace(/\s+/g, '-')]: every maximal run of white space becomes one
    dash; [inRun] tells that the previous code unit was white space. *)
Fixpoint dashRunsFrom (inRun : bool) (s : jsstring) : jsstring :=
  match s with
  | [] => []
  | c :: s' =>
      if isWhiteSpace c then
        if inRun then dashRunsFrom true s'
        else ascii_of_N 45 :: dashRunsFrom true s'
      else c :: dashRunsFrom false s'
  end.

Definition dashRuns (s : jsstring) : jsstring := dashRunsFrom false s.

Definition containsFix (task : Task) : bool :=
  includes (toLowerCase (description task)) (js "fix").

(** [generateBranchName] *)
Definition generateBranchName (now : N) (task : Task) : jsstring :=
  let prefix := if containsFix task then js "bugfix" else js "feature" in
  let description :=
    firstn 50
      (dashRuns (filter isLowerAlnumOrSpace
                        (toLowerCase (description task)))) in
  let stamp := decimal now in
  let timestamp := skipn (List.length stamp - 6) stamp in
  prefix ++ js "/" ++ description ++ js "-" ++ timestamp.

(** [files.some(f => f.includes(...) || ...)]: the files are looked at in
    order up to the first that holds a keyword; one that is [undefined]
    raises a TypeError when it is reached. *)
Fixpoint someIncludes (keywords : list jsstring)
    (files : list (option jsstring)) : M bool :=
  match files with
  | [] => ret false
  | None :: _ => throw TypeError
  | Some f :: rest =>
      if existsb (includes f) keywords then ret true
      else someIncludes keywords rest
  end.

(** [extractScope]; [implementation.modifiedFiles] is an array, so the
    test on it succeeds. *)
Definition extractScope (implementation : Implementation)
  : M (option jsstring) :=
  let files := modifiedFiles implementation in
  auth <- someIncludes [js "auth"] files ;;
  if auth then ret (Some (js "auth")) else
  api <- someIncludes [js "api"] files ;;
  if api then ret (Some (js "api")) else
  ui <- someIncludes [js "ui"; js "component"] files ;;
  if ui then ret (Some (js "ui")) else
  db <- someIncludes [js "db"; js "model"] files ;;
  if db then ret (Some (js "db")) else ret None.

(** [generateCommitMessage] *)
Definition generateCommitMessage (task : Task)
    (implementation : Implementation) : M jsstring :=
  let type := if containsFix task then js "fix" else js "feat" in
  scope <- extractScope implementation ;;
  let description :=
    if 50 <? List.length (description task)
    then firstn 47 (description task) ++ js "..."
    else description task in
  ret (type ++
       match scope with
       | Some sc => js "(" ++ sc ++ js ")"
       | None => []
       end ++ js ": " ++ description ++ [LF; LF] ++
       orElse (Some (summary implementation)) [] ++ [LF; LF] ++
       js "Resolves: #" ++
       match sourceIssue task with
       | Some n => if (n =? 0)%N then js "N/A" else decimal n
       | None => js "N/A"
       end).

(** [generatePRTitle] *)
Definition generatePRTitle (task : Task) : jsstring :=
  (if containsFix task then js "Fix:" else js "Feature:") ++
  js " " ++ description task.

Record WorkflowResult := mkWorkflowResult {
  wr_status : jsstring;
  wr_step : jsstring;
  wr_pullRequest : option PullRequest;
  wr_branch : option jsstring
}.

(** What [runTests] resolves to: the results of the run, or the
    [no_tests] object of its [catch] branch. *)
Inductive TestReport :=
  | Ran (r : TestResults)
  | NoTests.

(** [DevelopmentWorkflow] has no method [continueAfterClarification] and
    no method [continueAfterVerification]: calling either raises a
    TypeError. *)
Definition continueAfterClarification {A : Type} : M A := throw TypeError.
Definition continueAfterVerification {A : Type} : M A := throw TypeError.

Section WithEnv.
Variable env : Env.

Definition gitOperation (op : jsstring) (args : GitArgs) : M unit :=
  external (McpGitOperation (Some op) args) (mcp_gitOperation env).

(** [updateTaskStatus]: the URL is read from [config.agentOrchestrator],
    which the configuration does not have, so building it raises a
    TypeError before anything is sent; whatever is thrown is logged and
    dropped. *)
Definition updateTaskStatus (taskId status : jsstring)
    (metadata : TaskMetadata) : M unit :=
  tryCatch (if Config.hasSection (js "agentOrchestrator")
            then external (PatchTaskStatus taskId status metadata)
                          (axios_patch env)
            else throw TypeError)
           (fun _ => ret tt).

(** [analyzeRequirements]: [None] is the [null] of clear requirements. *)
Definition analyzeRequirements (agent : Agent) (task : Task)
  : M (option (list jsstring)) :=
  response <- queryAgent env agent
                (AnalysisPrompt (description task)
                   (orElse (additionalContext task)
                           (js "None provided"))) ;;
  if includes response (js "REQUIREMENTS_CLEAR") then ret None
  else ret (Some (parseQuestions response)).

(** [requestClarification].  Owner, repository, title, body and labels
    are put into one object, and that object is the only argument of
    [giteaClient.createIssue]: the client takes it for [owner] and finds
    the other parameters [undefined]. *)
Definition requestClarification (agent : Agent) (task : Task)
    (questions : list jsstring) : M unit :=
  repo <- deref (repository task) ;;
  clarificationIssue <-
    GiteaClient.createIssue env GiteaClient.ArgObject
      GiteaClient.ArgUndefined None None [] [] ;;
  updateTaskStatus (task_id task) (js "awaiting_clarification")
    (ClarificationMeta (number clarificationIssue) questions).

(** [parseImplementationPlan] *)
Definition parseImplementationPlan (response : jsstring) : Plan :=
  mkPlan (extractSection env response (js "approach"))
         (extractSection env response (js "files"))
         (extractSection env response (js "steps"))
         (extractSection env response (js "testing"))
         (extractSection env response (js "risks"))
         (extractSection env response (js "outcome"))
         response.

(** [createImplementationPlan] *)
Definition createImplementationPlan (agent : Agent) (task : Task)
  : M Plan :=
  repo <- deref (repository task) ;;
  response <- queryAgent env agent
                (PlanningPrompt (description task)
                   (orElse (additionalContext task) (js "None"))
                   (url repo)) ;;
  ret (parseImplementationPlan response).

(** [requestOutcomeVerification]; [giteaClient.createIssue] is called
    with one object here too. *)
Definition requestOutcomeVerification (agent : Agent) (task : Task)
    (plan : Plan) : M unit :=
  repo <- deref (repository task) ;;
  verificationIssue <-
    GiteaClient.createIssue env GiteaClient.ArgObject
      GiteaClient.ArgUndefined None None [] [] ;;
  updateTaskStatus (task_id task) (js "awaiting_verification")
    (VerificationMeta (number verificationIssue) plan).

(** [createFeatureBranch]; its [catch] logs and throws again. *)
Definition createFeatureBranch (now : N) (agent : Agent) (task : Task)
  : M jsstring :=
  let branchName := generateBranchName now task in
  repo <- deref (repository task) ;;
  gitOperation (js "create_branch")
    (mkGitArgs (url repo) (Some branchName)
               (Some (orElse (branch repo) (js "main"))) None None) ;;;
  ret branchName.

(** [commitChanges]; the implementation has no [branch], so the push
    names none. *)
Definition commitChanges (task : Task) (implementation : Implementation)
  : M unit :=
  commitMessage <- generateCommitMessage task implementation ;;
  repo <- deref (repository task) ;;
  gitOperation (js "add_all")
    (mkGitArgs (url repo) None None None None) ;;;
  gitOperation (js "commit")
    (mkGitArgs (url repo) None None None (Some commitMessage)) ;;;
  gitOperation (js "push")
    (mkGitArgs (url repo) None None None None).

(** [implementChanges]; the parsed plan has no [branch] field, so the
    branch checked out is [task.branch]. *)
Definition implementChanges (agent : Agent) (task : Task) (plan : Plan)
  : M Implementation :=
  repo <- deref (repository task) ;;
  gitOperation (js "checkout")
    (mkGitArgs (url repo) None None (task_branch task) None) ;;;
  implementation <-
    executeWithImplementation env agent
      (ImplementationPrompt (description task) (fullPlan plan)) ;;
  commitChanges task implementation ;;;
  ret implementation.

(** [fixFailingTests] *)
Definition fixFailingTests (agent : Agent) (task : Task)
    (testResults : TestResults) : M unit :=
  repo <- deref (repository task) ;;
  executeWithImplementation env agent
    (FixPrompt (output testResults) (error testResults)) ;;;
  gitOperation (js "add_all")
    (mkGitArgs (url repo) None None None None) ;;;
  gitOperation (js "commit")
    (mkGitArgs (url repo) None None None
       (Some (js "fix: Update tests to match implementation changes"))).

(** [runTests] *)
Definition runTests (agent : Agent) (task : Task) : M TestReport :=
  tryCatch
    (testResults <-
       external (McpExecuteCommand (Some (js "npm test"))
                                   (workingDirectory agent))
                (mcp_executeCommand env) ;;
     (if (exitCode testResults =? 0)%Z then ret tt
      else fixFailingTests agent task testResults) ;;;
     ret (Ran testResults))
    (fun _ => ret NoTests).

(** [createPullRequest]; [giteaClient.createPullRequest] is called with
    one object, which the client takes for [owner]; the comment on the
    source issue is posted with the four arguments the client expects. *)
Definition createPullRequest (agent : Agent) (task : Task)
    (implementation : Implementation) (branchName : jsstring)
  : M PullRequest :=
  repo <- deref (repository task) ;;
  pullRequest <-
    GiteaClient.createPullRequest env GiteaClient.ArgObject
      GiteaClient.ArgUndefined None None None None [] ;;
  match sourceIssue task with
  | Some n =>
      GiteaClient.createIssueComment env
        (GiteaClient.ofOption (owner repo))
        (GiteaClient.ofOption (name repo)) n
        (PullRequestCreatedComment pullRequest branchName
           (orElse (Some (summary implementation))
              (js "Implementation completed according to requirements")))
  | None => ret tt
  end ;;;
  ret pullRequest.

(** [notifyForReview] *)
Definition notifyForReview (agent : Agent) (task : Task)
    (pullRequest : PullRequest) : M unit :=
  updateTaskStatus (task_id task) (js "awaiting_review")
    (ReviewMeta (pr_number pullRequest) (html_url pullRequest)).

(** [respondToReviewComments]: one reply per review comment. *)
Fixpoint respondToReviewComments (task : Task)
    (reviewComments : list ReviewComment) : M unit :=
  match reviewComments with
  | [] => ret tt
  | _ :: rest =>
      repo <- deref (repository task) ;;
      prNumber <- deref (task_pullRequest task) ;;
      GiteaClient.createPullRequestComment env
        (GiteaClient.ofOption (owner repo))
        (GiteaClient.ofOption (name repo)) prNumber
        ReviewReplyComment ;;;
      respondToReviewComments task rest
  end.

(** [handleReviewFeedback]; [task] is [agent.currentTask] and
    [reviewComments] a field of the response, either may be
    [undefined]. *)
Definition handleReviewFeedback (agent : Agent) (task : option Task)
    (reviewComments : option (list ReviewComment)) : M Implementation :=
  task <- deref task ;;
  reviewComments <- deref reviewComments ;;
  repo <- deref (repository task) ;;
  response <- executeWithImplementation env agent
                (FeedbackPrompt reviewComments) ;;
  commitChanges task
    (mkImplementation (message response) (actions response)
                      (results response) (modifiedFiles response)
                      (js "Address review feedback")) ;;;
  respondToReviewComments task reviewComments ;;;
  ret response.

(** [executeWorkflow]; its [catch] logs and throws again. *)
Definition executeWorkflow (now : N) (agent : Agent) (task : Task)
  : M WorkflowResult :=
  clarificationNeeded <- analyzeRequirements agent task ;;
  match clarificationNeeded with
  | Some questions =>
      requestClarification agent task questions ;;;
      ret (mkWorkflowResult (js "awaiting_clarification")
                            (js "requirements_analysis") None None)
  | None =>
      implementationPlan <- createImplementationPlan agent task ;;
      if truthy (shouldVerifyOutcome implementationPlan task) then
        requestOutcomeVerification agent task implementationPlan ;;;
        ret (mkWorkflowResult (js "awaiting_verification")
                              (js "outcome_verification") None None)
      else
        branchName <- createFeatureBranch now agent task ;;
        implementation <- implementChanges agent task
                            implementationPlan ;;
        testResults <- runTests agent task ;;
        pullRequest <- createPullRequest agent task implementation
                         branchName ;;
        notifyForReview agent task pullRequest ;;;
        ret (mkWorkflowResult (js "awaiting_review")
                              (js "pull_request_created")
                              (Some pullRequest) (Some branchName))
  end.

End WithEnv.

End DevelopmentWorkflow.
Import DevelopmentWorkflow.

(* ================================================================== *)
(** * [AgentService]: what it does with a human response *)

Module AgentService.

(** The response object handed to [processHumanResponse]. *)
Record AgentResponse := mkAgentResponse {
  r_type : jsstring;
  r_content : jsstring;
  r_reviewComments : option (list ReviewComment)
}.

Definition pushHistory (e : HistoryEntry) (a : Agent) : Agent :=
  mkAgent (agent_id a) (agent_type a) (agent_status a)
          (conversationHistory a ++ [e]) (clarificationAnswers a)
          (verificationResponse a) (implementationPlan a)
          (currentTask a) (workingDirectory a)
          (containerId a) (devContainer a).

Definition setStatus (s : jsstring) (a : Agent) : Agent :=
  mkAgent (agent_id a) (agent_type a) s
          (conversationHistory a) (clarificationAnswers a)
          (verificationResponse a) (implementationPlan a)
          (currentTask a) (workingDirectory a)
          (containerId a) (devContainer a).

Definition setClarificationAnswers (x : jsstring) (a : Agent) : Agent :=
  mkAgent (agent_id a) (agent_type a) (agent_status a)
          (conversationHistory a) (Some x)
          (verificationResponse a) (implementationPlan a)
          (currentTask a) (workingDirectory a)
          (containerId a) (devContainer a).

Definition setVerificationResponse (v : Verification) (a : Agent) : Agent :=
  mkAgent (agent_id a) (agent_type a) (agent_status a)
          (conversationHistory a) (clarificationAnswers a)
          (Some v) (implementationPlan a)
          (currentTask a) (workingDirectory a)
          (containerId a) (devContainer a).

Definition setImplementationPlan (p : Plan) (a : Agent) : Agent :=
  mkAgent (agent_id a) (agent_type a) (agent_status a)
          (conversationHistory a) (clarificationAnswers a)
          (verificationResponse a) (Some p)
          (currentTask a) (workingDirectory a)
          (containerId a) (devContainer a).

(** An assignment to a field of the agent stored under [key]: the object
    in [activeAgents] changes, and the changed object is returned. *)
Definition mutateAgent (key : jsstring) (a : Agent) (f : Agent -> Agent)
  : M Agent :=
  agents <- getAgents ;;
  putAgents (map_set key (f a) agents) ;;;
  ret (f a).

Section WithEnv.
Variable env : Env.

(** [processClarificationResponse] *)
Definition processClarificationResponse (key : jsstring) (agent : Agent)
    (response : AgentResponse) : M Agent :=
  let answers := parseAnswers env (r_content response) in
  agent <- mutateAgent key agent (setClarificationAnswers answers) ;;
  (continueAfterClarification : M unit) ;;;
  ret agent.

(** [reviseImplementationPlan]; [AgentService] has no method
    [parseImplementationPlan], so calling it raises a [TypeError]. *)
Definition reviseImplementationPlan (key : jsstring) (agent : Agent)
    (feedback : jsstring) : M Agent :=
  revisedPlan <-
    queryAgent env agent
      (RevisionPrompt
         (orElse (option_map fullPlan (implementationPlan agent))
                 (js "N/A"))
         feedback) ;;
  plan <- (throw TypeError : M Plan) ;;
  agent <- mutateAgent key agent (setImplementationPlan plan) ;;
  task <- deref (currentTask agent) ;;
  requestOutcomeVerification env agent task plan ;;;
  ret agent.

(** [processVerificationResponse] *)
Definition processVerificationResponse (key : jsstring) (agent : Agent)
    (response : AgentResponse) : M Agent :=
  let verification := parseVerification (r_content response) in
  agent <- mutateAgent key agent (setVerificationResponse verification) ;;
  if v_approved verification then
    (continueAfterVerification : M unit) ;;;
    ret agent
  else
    reviseImplementationPlan key agent (v_feedback verification).

(** [processReviewFeedback] *)
Definition processReviewFeedback (key : jsstring) (agent : Agent)
    (response : AgentResponse) : M Agent :=
  handleReviewFeedback env agent (currentTask agent)
                       (r_reviewComments response) ;;;
  ret agent.

(** [processHumanResponse] *)
Definition processHumanResponse (now : Z) (agentId : jsstring)
    (response : AgentResponse) : M Agent :=
  agents <- getAgents ;;
  match map_get agentId agents with
  | None => throw (JsError (js "Agent not found: " ++ agentId))
  | Some agent =>
      agent <- mutateAgent agentId agent
                 (pushHistory
                    (mkHistoryEntry (js "user")
                       (js "Human response: " ++ r_content response)
                       now true)) ;;
      agent <-
        (if str_eqb (r_type response) (js "clarification") then
           processClarificationResponse agentId agent response
         else if str_eqb (r_type response) (js "verification") then
           processVerificationResponse agentId agent response
         else if str_eqb (r_type response) (js "review_feedback") then
           processReviewFeedback agentId agent response
         else ret agent) ;;
      mutateAgent agentId agent (setStatus (js "working"))
  end.

End WithEnv.

End AgentService.

(* ================================================================== *)
(** * [HumanLoopService]: the pending-request broker *)

Module HumanLoopService.

Record ResponseData := mkResponseData {
  rd_taskId : jsstring;
  rd_agentId : jsstring;
  rd_issueNumber : N;
  rd_comment_body : jsstring;
  rd_repository : option RepoInfo
}.

(** [extractRepositoryInfo] on an object with the optional fields
    [repository] and [metadata.repository]. *)
Definition extractRepositoryInfo (repository : option Repository)
    (metadata_repository : option RepoInfo) : M RepoInfo :=
  match match repository with
        | Some r => match url r with
                    | Some u => if truthyStr u then Some u else None
                    | None => None
                    end
        | None => None
        end with
  | Some u =>
      let urlParts :=
        split (ascii_of_N 47) (replaceFirst u (js ".git") []) in
      match rev urlParts with
      | n :: o :: _ => ret (mkRepoInfo (Some o) (Some n))
      | [n] => ret (mkRepoInfo None (Some n))
      | [] => ret (mkRepoInfo None None)
      end
  | None =>
      match metadata_repository with
      | Some info => ret info
      | None =>
          throw (JsError
            (js "Unable to extract repository information from task"))
      end
  end.

(** [toUpperCase] as applied to the six type names, which are lower-case
    ASCII. *)
Definition upperAscii (s : jsstring) : jsstring :=
  map (fun c => let n := unitCode c in
                if ((97 <=? n) && (n <=? 122))%N
                then ascii_of_N (n - 32) else c) s.

(** [findPendingRequest]: the first entry, in insertion order, of the
    task and agent that is still pending; returned with its key. *)
Fixpoint findPendingRequest (m : Map Request) (taskId_ agentId_ : jsstring)
  : option (jsstring * Request) :=
  match m with
  | [] => None
  | (requestId, request) :: m' =>
      if str_eqb (taskId request) taskId_ &&
         str_eqb (req_agentId request) agentId_ &&
         status_eqb (status request) pending
      then Some (requestId, request)
      else findPendingRequest m' taskId_ agentId_
  end.

Definition markResponded (p : ParsedResponse) (now : Z) (r : Request)
  : Request :=
  mkRequest (id r) (taskId r) (req_agentId r) (issue r) (context r)
            (createdAt r) responded (Some p) (Some now)
            (cancelledAt r) (cancellationReason r).

Definition markCancelled (reason : jsstring) (now : Z) (r : Request)
  : Request :=
  mkRequest (id r) (taskId r) (req_agentId r) (issue r) (context r)
            (createdAt r) cancelled (response r) (respondedAt r)
            (Some now) (Some reason).

Section WithEnv.
Variable env : Env.

(** [createHumanInputIssue]; its [catch] logs and throws again. *)
Definition createHumanInputIssue (task : Task) (context : Context)
  : M Issue :=
  repositoryInfo <- extractRepositoryInfo (repository task)
                      (metadata_repository task) ;;
  external
    (McpCreateGiteaIssue (info_owner repositoryInfo)
       (info_name repositoryInfo)
       (js "[AI Agent] Human Input Required: " ++
        orElse (ctx_question context) (description task))
       [js "ai-agent"; js "human-input-required";
        js "priority-" ++ orElse (ctx_urgency context) (js "medium")])
    (mcp_createGiteaIssue env).

(** [requestHumanInput]; its [catch] logs and throws again. *)
Definition requestHumanInput (now : N) (task : Task) (context : Context)
  : M Issue :=
  issue <- createHumanInputIssue task context ;;
  let requestId := task_id task ++ js "_" ++ decimal now in
  requests <- getPending ;;
  putPending
    (map_set requestId
       (mkRequest requestId (task_id task) (agentId context) issue
                  context (Z.of_N now) pending None None None None)
       requests) ;;;
  ret issue.

(** [addConfirmationComment]: a failure is logged and dropped. *)
Definition addConfirmationComment (repository : option RepoInfo)
    (issueNumber : N) (parsedResponse : ParsedResponse) : M unit :=
  tryCatch
    (repo <- deref repository ;;
     external
       (McpAddGiteaComment (info_owner repo) (info_name repo)
          issueNumber
          (ConfirmationComment
             (upperAscii (typeName (type parsedResponse)))
             (content parsedResponse)))
       (mcp_addGiteaComment env))
    (fun _ => ret tt).

(** [processHumanResponse]; [None] is the [null] returned when no
    pending request is found; its [catch] logs and throws again. *)
Definition processHumanResponse (now : Z) (responseData : ResponseData)
  : M (option ParsedResponse) :=
  requests <- getPending ;;
  match findPendingRequest requests (rd_taskId responseData)
                           (rd_agentId responseData) with
  | None => ret None
  | Some (key, pendingRequest) =>
      let parsedResponse :=
        parseHumanResponse (rd_comment_body responseData) in
      putPending
        (map_set key (markResponded parsedResponse now pendingRequest)
                 requests) ;;;
      AgentService.processHumanResponse env now
        (rd_agentId responseData)
        (AgentService.mkAgentResponse
           (typeName (type parsedResponse))
           (content parsedResponse) None) ;;;
      addConfirmationComment (rd_repository responseData)
        (rd_issueNumber responseData) parsedResponse ;;;
      requests' <- getPending ;;
      putPending (map_delete (id pendingRequest) requests') ;;;
      ret (Some parsedResponse)
  end.

(** [cancelPendingRequest] *)
Definition cancelPendingRequest (now : Z) (requestId : jsstring)
    (reason : jsstring) : M unit :=
  requests <- getPending ;;
  match map_get requestId requests with
  | None => throw (JsError (js "Pending request not found: " ++
                            requestId))
  | Some request =>
      putPending (map_set requestId (markCancelled reason now request)
                          requests) ;;;
      tryCatch
        (repositoryInfo <-
           extractRepositoryInfo
             (Some (match ctx_repository (context request) with
                    | Some r => r
                    | None => mkRepository None None None None
                    end))
             (ctx_metadata_repository (context request)) ;;
         external
           (McpAddGiteaComment (info_owner repositoryInfo)
              (info_name repositoryInfo) (number (issue request))
              (CancellationComment reason now))
           (mcp_addGiteaComment env))
        (fun _ => ret tt) ;;;
      requests' <- getPending ;;
      putPending (map_delete requestId requests')
  end.

(** The second loop of [cleanupOldRequests]. *)
Fixpoint cancelAll (now : Z) (requestsToCleanup : list jsstring)
  : M unit :=
  match requestsToCleanup with
  | [] => ret tt
  | requestId :: rest =>
      tryCatch
        (cancelPendingRequest now requestId
           (js "timeout - no response received"))
        (fun _ => ret tt) ;;;
      cancelAll now rest
  end.

(** [cleanupOldRequests(maxAgeHours = 24)] *)
Definition cleanupOldRequests (now : Z) (maxAgeHours : JsNumber)
  : M unit :=
  let cutoffTime := newDate (hoursBefore now maxAgeHours) in
  requests <- getPending ;;
  let requestsToCleanup :=
    map fst
      (filter (fun kr => dateBefore (createdAt (snd kr)) cutoffTime &&
                         status_eqb (status (snd kr)) pending)
              requests) in
  cancelAll now requestsToCleanup.

End WithEnv.

End HumanLoopService.

(* ================================================================== *)
(** * Vocabulary of the properties *)

Module Props.

(** [s] contains [kw] up to the case of its letters. *)
Definition containsIgnoringCase (s kw : jsstring) : Prop :=
  exists a m b, s = a ++ m ++ b /\ toLowerCase m = toLowerCase kw.

(** The verification policy in the words of the specification: a risk
    keyword in the description or in the plan text, a risks section
    longer than the threshold, or more than three lines of files. *)
Definition verificationRequired (plan : Plan) (task : Task) : Prop :=
  (exists kw, In kw complexityIndicators /\
              (containsIgnoringCase (description task) kw \/
               containsIgnoringCase (fullPlan plan) kw)) \/
  50 < List.length (risks plan) \/
  3 < List.length (split LF (files plan)).

(** The five prefixes that decide the type, in the order they are
    tried. *)
Definition typePrefixes : list (ResponseType * jsstring) :=
  [ (decision, js "DECISION:"); (code, js "CODE:");
    (guidance, js "GUIDANCE:"); (approval, js "APPROVAL:");
    (question, js "QUESTION:") ].

(** No type-deciding prefix occurs in [s]. *)
Definition noPrefix (s : jsstring) : Prop :=
  forall t p, In (t, p) typePrefixes -> includes s p = false.

(** No recognized structured prefix in the words of the specification,
    which looks for line-leading prefixes whatever the case of their
    letters: no line of the text, once trimmed, starts with one of the
    five prefixes up to case. *)
Definition noLeadingPrefix (s : jsstring) : Prop :=
  forall line t p,
    In line (split LF s) -> In (t, p) typePrefixes ->
    startsWithIgnoreCase (trim line) p = false.

(** Position of a type in the order of priority. *)
Definition rank (t : ResponseType) : nat :=
  match t with
  | decision => 0 | code => 1 | guidance => 2
  | approval => 3 | question => 4 | general => 5
  end.

(** The entries of the task and agent that are still pending. *)
Definition isPendingFor (taskId_ agentId_ : jsstring)
    (kr : jsstring * Request) : bool :=
  str_eqb (taskId (snd kr)) taskId_ &&
  str_eqb (req_agentId (snd kr)) agentId_ &&
  status_eqb (status (snd kr)) pending.

Definition pendingFor (m : Map Request) (taskId_ agentId_ : jsstring)
  : list (jsstring * Request) :=
  filter (isPendingFor taskId_ agentId_) m.

(** What every store built by [requestHumanInput] satisfies: keys are
    distinct and each request is stored under its own [id]. *)
Definition wf_store (m : Map Request) : Prop :=
  NoDup (map_keys m) /\ Forall (fun kr => id (snd kr) = fst kr) m.

(** The requests [cleanupOldRequests] selects: still pending and
    created before the cut-off, when the cut-off is a valid date. *)
Definition isStale (now : Z) (maxAgeHours : JsNumber)
    (kr : jsstring * Request) : bool :=
  dateBefore (createdAt (snd kr)) (newDate (hoursBefore now maxAgeHours)) &&
  status_eqb (status (snd kr)) pending.

(** The repository a request's context names, as [cancelPendingRequest]
    and [closeHumanInputIssue] look for it. *)
Definition contextRepository (c : Context) : Outcome RepoInfo :=
  fst (HumanLoopService.extractRepositoryInfo
         (Some (match ctx_repository c with
                | Some r => r
                | None => mkRepository None None None None
                end))
         (ctx_metadata_repository c) (mkState [] [] [])).

(** The notice a cancellation tries to post: none when the context of
    the request names no repository. *)
Definition cancellationNotice (reason : jsstring) (now : Z) (r : Request)
  : list Event :=
  match contextRepository (context r) with
  | Ok info =>
      [McpAddGiteaComment (info_owner info) (info_name info)
         (number (issue r)) (CancellationComment reason now)]
  | Throw _ => []
  end.

Definition timeoutReason : jsstring := js "timeout - no response received".


Definition isTaskUpdate (e : Event) : bool :=
  match e with
  | PatchTaskStatus _ _ _ => true
  | _ => false
  end.

Definition isBranchCreation (e : Event) : bool :=
  match e with
  | McpGitOperation (Some op) _ => str_eqb op (js "create_branch")
  | _ => false
  end.

Definition isIssueCreation (e : Event) : bool :=
  match e with
  | McpCreateGiteaIssue _ _ _ _ => true
  | _ => false
  end.

(** The cancellation notice of the sweep. *)
Definition isTimeoutNotice (e : Event) : Prop :=
  exists o n i t,
    e = McpAddGiteaComment o n i
          (CancellationComment (js "timeout - no response received") t).

(** The acknowledgement posted after a reply has been parsed. *)
Definition isConfirmation (e : Event) : Prop :=
  exists o n i t c, e = McpAddGiteaComment o n i (ConfirmationComment t c).

(** The events of the workflow engine and of an agent at work: every
    outgoing call but the issues and comments of the human-loop
    service. *)
Definition isWorkflowEvent (e : Event) : bool :=
  match e with
  | McpCreateGiteaIssue _ _ _ _ | McpAddGiteaComment _ _ _ _ => false
  | _ => true
  end.

(** The first prefix of [ps], in order, that occurs in [text]. *)
Fixpoint firstPrefix (ps : list (ResponseType * jsstring)) (text : jsstring)
  : option (ResponseType * jsstring) :=
  match ps with
  | [] => None
  | (t, p) :: ps' =>
      if includes text p then Some (t, p) else firstPrefix ps' text
  end.

(** A pattern whose first and last code units are not white space. *)
Definition solid (p : jsstring) : bool :=
  match p, rev p with
  | c :: _, d :: _ => negb (isWhiteSpace c) && negb (isWhiteSpace d)
  | _, _ => false
  end.

(** The history entry and the status [AgentService.processHumanResponse]
    leaves on the agent when the type is not one it dispatches on. *)
Definition resumed (now : Z) (content : jsstring) (a : Agent) : Agent :=
  AgentService.setStatus (js "working")
    (AgentService.pushHistory
       (mkHistoryEntry (js "user") (js "Human response: " ++ content)
                       now true) a).

(** The state after the acknowledgement has been attempted. *)
Definition acknowledged (data : HumanLoopService.ResponseData) (p : ParsedResponse)
    (tr : list Event) : list Event :=
  match HumanLoopService.rd_repository data with
  | Some repo =>
      tr ++ [McpAddGiteaComment (info_owner repo) (info_name repo)
               (HumanLoopService.rd_issueNumber data)
               (ConfirmationComment (HumanLoopService.upperAscii (typeName (type p)))
                                    (content p))]
  | None => tr
  end.

(** The key, the record and the outgoing call of one
    [requestHumanInput]. *)
Definition requestId (now : N) (task : Task) : jsstring :=
  task_id task ++ js "_" ++ decimal now.

Definition newRequest (now : N) (task : Task) (ctx : Context)
    (issue : Issue) : Request :=
  mkRequest (requestId now task) (task_id task) (agentId ctx) issue ctx
            (Z.of_N now) pending None None None None.

Definition issueEvent (task : Task) (ctx : Context) (info : RepoInfo)
  : Event :=
  McpCreateGiteaIssue (info_owner info) (info_name info)
    (js "[AI Agent] Human Input Required: " ++
     orElse (ctx_question ctx) (description task))
    [js "ai-agent"; js "human-input-required";
     js "priority-" ++ orElse (ctx_urgency ctx) (js "medium")].

(** The request [giteaClient.createIssue] posts when the workflow
    hands it one object: the path is made of the object and of
    [undefined], and the body has no title, no text and no labels.  It
    is the same for every task and every plan. *)
Definition optionsIssueRequest : Event :=
  GiteaPost (js "/repos/[object Object]/undefined/issues")
            (IssuePayload None None [] []).

(** The request the verification asks for in the words of the workflow:
    an issue in the repository of the task, with its title, the plan
    and the labels. *)
Definition verificationIssueEvent (task : Task) (plan : Plan)
    (repo : Repository) : Event :=
  GiteaPost (GiteaClient.repoPath (GiteaClient.ofOption (owner repo))
                                  (GiteaClient.ofOption (name repo)) ++
             js "/issues")
    (IssuePayload
       (Some (js "[AI Agent] Implementation Plan Verification: " ++
              description task))
       (Some (VerificationRequest task plan))
       [js "ai-agent"; js "verification-needed"; js "implementation-plan"]
       []).

Definition awaitingVerification : WorkflowResult :=
  mkWorkflowResult (js "awaiting_verification") (js "outcome_verification")
                   None None.

(** A state that differs from [st] by its trace only. *)
Definition withTrace (st : State) (tr : list Event) : State :=
  mkState (pendingRequests st) (activeAgents st) tr.

(** The query [queryAgent] sends for an agent of a known type. *)
Definition modelQuery (agent : Agent) (prompt : Prompt) : Event :=
  LlmQuery (agent_type agent) (conversationHistory agent) prompt.

(** The test run of [runTests], the state it leaves, and the commit
    that follows the fix. *)
Definition testRunEvent (agent : Agent) : Event :=
  McpExecuteCommand (Some (js "npm test")) (workingDirectory agent).


Definition fixCommitEvents (repo : Repository) : list Event :=
  [ McpGitOperation (Some (js "add_all"))
      (mkGitArgs (url repo) None None None None);
    McpGitOperation (Some (js "commit"))
      (mkGitArgs (url repo) None None None
         (Some (js "fix: Update tests to match implementation changes"))) ].

Definition fixPrompt (results : TestResults) : Prompt :=
  FixPrompt (output results) (error results).


End Props.
Import Props.

(* ================================================================== *)
(** * A concrete world, for the examples *)

Module Examples.

Definition nl : string := String (ascii_of_N 10) EmptyString.

(** Every collaborator answers; issues are numbered by the length of
    the trace, the test command exits with [exit]. *)
Definition okEnv (exit : Z) : Env :=
  mkEnv (fun tr => Ok (mkIssue (N.of_nat (List.length tr))))
        (fun _ => Ok tt)
        (fun _ => Ok tt)
        (fun _ => Ok (mkTestResults exit (Some (js "1 failing")) None))
        (fun _ => Ok tt)
        (fun _ => Ok tt)
        (fun _ => Ok tt)
        (fun _ => ExecDone [] [])
        []
        (fun tr => Ok (mkIssue (N.of_nat (List.length tr))))
        (fun _ => Ok (mkPullRequest 5 (js "Feature") (js "http://pr/5")))
        (fun _ => Ok tt)
        (fun _ => Ok tt)
        (fun _ => Ok (js "REQUIREMENTS_CLEAR"))
        (fun _ => Ok tt)
        (fun _ _ => [])
        (fun s => s)
        (fun _ => []).

Definition shop : Repository :=
  mkRepository (Some (js "http://git/acme/shop.git")) None
               (Some (js "acme")) (Some (js "shop")).

Definition shopInfo : RepoInfo :=
  mkRepoInfo (Some (js "acme")) (Some (js "shop")).

Definition securityTask : Task :=
  mkTask (js "t1") (js "Add security headers") None (Some shop)
         None None None None.

Definition footerTask : Task :=
  mkTask (js "t2") (js "Add a footer") None (Some shop)
         None None None None.

Definition agentA : Agent :=
  mkAgent (js "a1") (js "claude") (js "awaiting_human_input") [] None None
          None (Some securityTask) None None None.

Definition ctxA : Context :=
  mkContext (js "a1") (Some (js "Proceed?")) None (Some shop) None.

Definition st0 : State := mkState [] [(js "a1", agentA)] [].

(** One request, made at time 1000. *)
Definition st1 : State :=
  snd (HumanLoopService.requestHumanInput (okEnv 0) 1000 securityTask
         ctxA st0).

(** The same request made again, at time 2000. *)
Definition st2 : State :=
  snd (HumanLoopService.requestHumanInput (okEnv 0) 2000 securityTask
         ctxA st1).

Definition reply (text : jsstring) : HumanLoopService.ResponseData :=
  HumanLoopService.mkResponseData (js "t1") (js "a1") 1 text
                                  (Some shopInfo).

End Examples.

(* ================================================================== *)
(** * More of [HumanLoopService]: closing and looking up requests *)

Module HumanLoopOps.

Import HumanLoopService.

(** [getPendingRequest]: [None] is [undefined]. *)
Definition getPendingRequest (requestId : jsstring) : M (option Request) :=
  requests <- getPending ;;
  ret (map_get requestId requests).

(** [listPendingRequests] *)
Definition listPendingRequests : M (list Request) :=
  requests <- getPending ;;
  ret (map_values requests).

(** [getOldestPendingRequest]; [reduce] without an initial value starts
    from the first pending request. *)
Definition getOldestPendingRequest (requests : list Request)
  : option Request :=
  match filter (fun r => status_eqb (status r) pending) requests with
  | [] => None
  | first :: rest =>
      Some (fold_left
              (fun oldest request =>
                 if (createdAt request <? createdAt oldest)%Z
                 then request else oldest)
              rest first)
  end.

Section WithEnv.
Variable env : Env.

(** [closeHumanInputIssue]; whatever is thrown inside is logged and
    dropped. *)
Definition closeHumanInputIssue (now : Z) (taskId_ agentId_ : jsstring)
    (resolution : jsstring) : M unit :=
  tryCatch
    (requests <- getPending ;;
     match findPendingRequest requests taskId_ agentId_ with
     | None => ret tt
     | Some (_, pendingRequest) =>
         repositoryInfo <-
           extractRepositoryInfo
             (Some (match ctx_repository (context pendingRequest) with
                    | Some r => r
                    | None => mkRepository None None None None
                    end))
             (ctx_metadata_repository (context pendingRequest)) ;;
         external
           (McpAddGiteaComment (info_owner repositoryInfo)
              (info_name repositoryInfo) (number (issue pendingRequest))
              (ClosingComment resolution now))
           (mcp_addGiteaComment env) ;;;
         requests' <- getPending ;;
         putPending (map_delete (id pendingRequest) requests')
     end)
    (fun _ => ret tt).

End WithEnv.

End HumanLoopOps.

(* ================================================================== *)
(** * More of [AgentService]: when and how it asks a human *)

Module AgentHelpers.

(** An entry of the [results] array of [executeActions], as far as it is
    read here. *)
Record ActionResult := mkActionResult { ar_status : jsstring }.

(** [String.prototype.split] on a regular expression that matches one or
    more code units of a class: every maximal run separates; [inRun]
    tells that the previous code unit was a separator. *)
Fixpoint splitRunsFrom (isSep : ascii -> bool) (inRun : bool) (s : jsstring)
  : list jsstring :=
  match s with
  | [] => [[]]
  | c :: s' =>
      if isSep c then
        if inRun then splitRunsFrom isSep true s'
        else [] :: splitRunsFrom isSep true s'
      else match splitRunsFrom isSep false s' with
           | l :: ls => (c :: l) :: ls
           | [] => [[c]]
           end
  end.

Definition splitRuns (isSep : ascii -> bool) (s : jsstring) : list jsstring :=
  splitRunsFrom isSep false s.

(** The class [[.!?]]. *)
Definition isSentenceEnd (c : ascii) : bool :=
  let n := unitCode c in ((n =? 46) || (n =? 33) || (n =? 63))%N.

Definition defaultQuestion : jsstring :=
  js "Agent needs guidance on how to proceed.".

(** [extractQuestion] *)
Definition extractQuestion (message : jsstring) : jsstring :=
  let sentences := splitRuns isSentenceEnd message in
  let questions :=
    filter (fun s => includes s (js "?") ||
                     includes (toLowerCase s) (js "should"))
           sentences in
  if truthyStr (join (js " ") questions) then join (js " ") questions
  else defaultQuestion.

Definition failedActions (results : list ActionResult) : list ActionResult :=
  filter (fun r => str_eqb (ar_status r) (js "failed")) results.

Definition uncertaintyIndicators : list jsstring :=
  [ js "not sure"; js "unclear"; js "need clarification"; js "should I";
    js "which approach"; js "need guidance" ].

(** [requiresHumanInput] *)
Definition requiresHumanInput (message : jsstring)
    (results : list ActionResult) : bool :=
  if includes message (js "REQUEST_HUMAN_INPUT") ||
     includes message (js "human input") then true
  else if 0 <? List.length (failedActions results) then true
  else existsb (fun indicator => includes (toLowerCase message) indicator)
               uncertaintyIndicators.

Definition urgencyKeywords : list jsstring :=
  [ js "urgent"; js "critical"; js "blocking"; js "error"; js "failed" ].

(** [assessUrgency] *)
Definition assessUrgency (message : jsstring) (results : list ActionResult)
  : jsstring :=
  if 0 <? List.length (failedActions results) then js "high"
  else if existsb (fun keyword => includes (toLowerCase message) keyword)
                  urgencyKeywords
  then js "high"
  else js "medium".

Definition stopWords : list jsstring :=
  [ js "the"; js "a"; js "an"; js "and"; js "or"; js "but"; js "in";
    js "on"; js "at"; js "to"; js "for"; js "of"; js "with"; js "by" ].

(** [extractKeywords] *)
Definition extractKeywords (description : jsstring) : list jsstring :=
  let words := splitRuns isWhiteSpace (toLowerCase description) in
  filter (fun word => negb (existsb (str_eqb word) stopWords) &&
                      (2 <? List.length word))
         words.

Section WithEnv.
Variable env : Env.

(** [AgentService.requestHumanInput]; the context it builds has neither
    [repository] nor [metadata]. *)
Definition requestHumanInput (now : N) (agent : Agent) (task : Task)
    (message : jsstring) (results : list ActionResult) : M unit :=
  let context :=
    mkContext (agent_id agent) (Some (extractQuestion message))
              (Some (assessUrgency message results)) None None in
  HumanLoopService.requestHumanInput env now task context ;;;
  ret tt.

End WithEnv.

End AgentHelpers.

(* ================================================================== *)
(** * [DevContainerService]: what a repository needs *)

Module DevContainer.

(** The analysis object; each field is an array that is only pushed
    to. *)
Record Analysis := mkAnalysis {
  languages : list jsstring;
  frameworks : list jsstring;
  packageManagers : list jsstring;
  databases : list jsstring;
  tools : list jsstring
}.

(** What an [if (c) array.push(...)] adds. *)
Definition pushIf (c : bool) (items : list jsstring) : list jsstring :=
  if c then items else [].

(** The tests [analyzeRepository] makes on the lower-cased URL. *)
Definition isNode (repoName : jsstring) : bool :=
  includes repoName (js "node") || includes repoName (js "js") ||
  includes repoName (js "react") || includes repoName (js "vue").

Definition isPython (repoName : jsstring) : bool :=
  includes repoName (js "python") || includes repoName (js "django") ||
  includes repoName (js "flask").

Definition isGo (repoName : jsstring) : bool :=
  includes repoName (js "go") || includes repoName (js "golang").

Definition isJava (repoName : jsstring) : bool :=
  includes repoName (js "java") || includes repoName (js "spring").

(** What is pushed to each array, in the order of the source. *)
Definition detectedLanguages (repoName : jsstring) : list jsstring :=
  pushIf (isNode repoName) [js "javascript"; js "typescript"] ++
  pushIf (isPython repoName) [js "python"] ++
  pushIf (isGo repoName) [js "go"] ++
  pushIf (includes repoName (js "rust")) [js "rust"] ++
  pushIf (isJava repoName) [js "java"].

Definition detectedFrameworks (repoName : jsstring) : list jsstring :=
  pushIf (isNode repoName && includes repoName (js "react")) [js "react"] ++
  pushIf (isNode repoName && includes repoName (js "vue")) [js "vue"] ++
  pushIf (isNode repoName && includes repoName (js "next")) [js "nextjs"] ++
  pushIf (isPython repoName && includes repoName (js "django"))
         [js "django"] ++
  pushIf (isPython repoName && includes repoName (js "flask"))
         [js "flask"] ++
  pushIf (isJava repoName && includes repoName (js "spring"))
         [js "spring"].

Definition detectedPackageManagers (repoName : jsstring) : list jsstring :=
  pushIf (isNode repoName) [js "npm"] ++
  pushIf (isPython repoName) [js "pip"] ++
  pushIf (includes repoName (js "rust")) [js "cargo"] ++
  pushIf (isJava repoName) [js "maven"].

Definition detectedTools (repoName : jsstring) : list jsstring :=
  pushIf (includes repoName (js "docker")) [js "docker"] ++
  pushIf (includes repoName (js "k8s") ||
          includes repoName (js "kubernetes")) [js "kubernetes"].

(** [analyzeRepository].  Reading [repository.url] when it is undefined
    throws inside the [try], and the [catch] returns the default; when
    no language was detected, "javascript" and "npm" are pushed. *)
Definition analyzeRepository (repository : Repository) : Analysis :=
  match url repository with
  | None => mkAnalysis [js "javascript"] [] [js "npm"] [] []
  | Some u =>
      let repoName := toLowerCase u in
      match detectedLanguages repoName with
      | [] =>
          mkAnalysis [js "javascript"] (detectedFrameworks repoName)
                     (detectedPackageManagers repoName ++ [js "npm"]) []
                     (detectedTools repoName)
      | _ :: _ =>
          mkAnalysis (detectedLanguages repoName)
                     (detectedFrameworks repoName)
                     (detectedPackageManagers repoName) []
                     (detectedTools repoName)
      end
  end.

(** [Array.prototype.includes] on strings. *)
Definition arrayIncludes (l : list jsstring) (x : jsstring) : bool :=
  existsb (str_eqb x) l.

(** [selectBaseImage] *)
Definition selectBaseImage (analysis : Analysis) : jsstring :=
  if arrayIncludes (languages analysis) (js "python")
  then js "mcr.microsoft.com/devcontainers/python:3.11"
  else if arrayIncludes (languages analysis) (js "go")
  then js "mcr.microsoft.com/devcontainers/go:1.21"
  else if arrayIncludes (languages analysis) (js "rust")
  then js "mcr.microsoft.com/devcontainers/rust:latest"
  else if arrayIncludes (languages analysis) (js "java")
  then js "mcr.microsoft.com/devcontainers/java:17"
  else js "mcr.microsoft.com/devcontainers/javascript-node:18".

End DevContainer.

(* ================================================================== *)
(** * Further vocabulary *)

Module MoreProps.

(** A request record answers the description (task, agent, pending). *)
Definition matches (taskId_ agentId_ : jsstring) (r : Request) : Prop :=
  taskId r = taskId_ /\ req_agentId r = agentId_ /\ status r = pending.

(** The code units of a branch slug: a-z, 0-9 and the dash. *)
Definition isSlugUnit (c : ascii) : bool :=
  let n := unitCode c in
  ((97 <=? n) && (n <=? 122) || (48 <=? n) && (n <=? 57) || (n =? 45))%N.

Definition isLlmQuery (e : Event) : bool :=
  match e with
  | LlmQuery _ _ _ => true
  | _ => false
  end.

(** A context as every caller in the sources builds it: without
    [repository] and without [metadata]. *)
Definition bareContext (c : Context) : Prop :=
  ctx_repository c = None /\ ctx_metadata_repository c = None.

(** The object handed to [extractRepositoryInfo] has no usable URL:
    no [repository], no [url], or an empty one. *)
Definition noUrl (r : option Repository) : Prop :=
  match r with
  | None => True
  | Some r' => match url r' with
               | None => True
               | Some u => u = []
               end
  end.

Definition SLASH : ascii := ascii_of_N 47.

Definition DASH : ascii := ascii_of_N 45.

(** A computation that only talks to the outside: the pending requests
    and the agents are left as they are and the trace is only
    extended. *)
Definition outwardOnly {A : Type} (m : M A) : Prop :=
  forall st,
    pendingRequests (snd (m st)) = pendingRequests st /\
    activeAgents (snd (m st)) = activeAgents st /\
    exists tail, trace (snd (m st)) = trace st ++ tail.

(** The request the clarification asks for in the words of the
    workflow, and the result of the workflow that waits for the
    answers. *)
Definition clarificationIssueEvent (task : Task) (questions : list jsstring)
    (repo : Repository) : Event :=
  GiteaPost (GiteaClient.repoPath (GiteaClient.ofOption (owner repo))
                                  (GiteaClient.ofOption (name repo)) ++
             js "/issues")
    (IssuePayload
       (Some (js "[AI Agent] Clarification Needed: " ++ description task))
       (Some (ClarificationRequest task questions))
       [js "ai-agent"; js "clarification-needed"; js "question"] []).

Definition awaitingClarification : WorkflowResult :=
  mkWorkflowResult (js "awaiting_clarification")
                   (js "requirements_analysis") None None.

Definition analysisPrompt (task : Task) : Prompt :=
  AnalysisPrompt (description task)
                 (orElse (additionalContext task) (js "None provided")).

(** The reply posted to a review comment. *)
Definition reviewReplyEvent (repo : Repository) (prNumber : N) : Event :=
  GiteaPost (GiteaClient.repoPath (GiteaClient.ofOption (owner repo))
                                  (GiteaClient.ofOption (name repo)) ++
             js "/pulls/" ++ decimal prNumber ++ js "/reviews")
            (ReviewPayload ReviewReplyComment).

(** The calls around the work of the agent: creating the branch,
    checking out, and committing what was done. *)
Definition branchCreationEvent (now : N) (task : Task) (repo : Repository)
  : Event :=
  McpGitOperation (Some (js "create_branch"))
    (mkGitArgs (url repo) (Some (generateBranchName now task))
               (Some (orElse (branch repo) (js "main"))) None None).

Definition checkoutEvent (task : Task) (repo : Repository) : Event :=
  McpGitOperation (Some (js "checkout"))
    (mkGitArgs (url repo) None None (task_branch task) None).

Definition commitEvents (repo : Repository) (commitMessage : jsstring)
  : list Event :=
  [ McpGitOperation (Some (js "add_all"))
      (mkGitArgs (url repo) None None None None);
    McpGitOperation (Some (js "commit"))
      (mkGitArgs (url repo) None None None (Some commitMessage));
    McpGitOperation (Some (js "push"))
      (mkGitArgs (url repo) None None None None) ].

(** The implementation [handleReviewFeedback] commits. *)
Definition reviewFix (response : Implementation) : Implementation :=
  mkImplementation (message response) (actions response)
                   (results response) (modifiedFiles response)
                   (js "Address review feedback").

(** A computation that makes at most [n] outgoing calls and touches
    nothing else. *)
Definition callsAtMost {A : Type} (n : nat) (m : M A) : Prop :=
  forall st, exists tail,
    snd (m st) = withTrace st (trace st ++ tail) /\ List.length tail <= n.

(** A computation that neither reads nor changes the state. *)
Definition stateless {A : Type} (m : M A) : Prop :=
  exists o, forall st, m st = (o, st).

(** What a computation of an implementation returned on [st], when it
    returned one. *)
Definition fst_ok (run : Outcome Implementation * State) : Implementation :=
  match fst run with
  | Ok implementation => implementation
  | Throw _ => mkImplementation [] [] [] [] []
  end.

(** The commit message, or what building it throws. *)
Definition commitMessageOf (task : Task) (implementation : Implementation)
  : Outcome jsstring :=
  fst (generateCommitMessage task implementation (mkState [] [] [])).

(** The language a framework or a package manager belongs to. *)
Definition languageOf (item : jsstring) : jsstring :=
  if existsb (str_eqb item)
       [js "react"; js "vue"; js "nextjs"; js "npm"] then js "javascript"
  else if existsb (str_eqb item) [js "django"; js "flask"; js "pip"]
  then js "python"
  else if str_eqb item (js "cargo") then js "rust"
  else js "java".

(** The uncertainty indicators other than "should I". *)
Definition liveIndicators : list jsstring :=
  [ js "not sure"; js "unclear"; js "need clarification";
    js "which approach"; js "need guidance" ].

(** The context [AgentService.requestHumanInput] builds. *)
Definition agentContext (agent : Agent) (message : jsstring)
    (results : list AgentHelpers.ActionResult) : Context :=
  mkContext (agent_id agent)
            (Some (AgentHelpers.extractQuestion message))
            (Some (AgentHelpers.assessUrgency message results)) None None.

(** The agent after a verification reply has been recorded. *)
Definition verificationRecorded (now : Z)
    (response : AgentService.AgentResponse) (a : Agent) : Agent :=
  AgentService.setVerificationResponse
    (parseVerification (AgentService.r_content response))
    (AgentService.pushHistory
       (mkHistoryEntry (js "user")
          (js "Human response: " ++ AgentService.r_content response)
          now true) a).

(** The request [giteaClient.createPullRequest] posts when the workflow
    hands it one object, the note left on the source issue, and the
    result of a workflow that got that far. *)
Definition optionsPullRequestRequest : Event :=
  GiteaPost (js "/repos/[object Object]/undefined/pulls")
            (PullRequestPayload None None None None).

Definition linkEvents (now : N) (task : Task) (repo : Repository)
    (implementation : Implementation) (pullRequest : PullRequest)
  : list Event :=
  match sourceIssue task with
  | Some n =>
      [GiteaPost (GiteaClient.repoPath (GiteaClient.ofOption (owner repo))
                                       (GiteaClient.ofOption (name repo)) ++
                  js "/issues/" ++ decimal n ++ js "/comments")
         (CommentPayload
            (PullRequestCreatedComment pullRequest
               (generateBranchName now task)
               (orElse (Some (summary implementation))
                  (js "Implementation completed according to requirements"))))]
  | None => []
  end.

Definition awaitingReview (now : N) (task : Task)
    (pullRequest : PullRequest) : WorkflowResult :=
  mkWorkflowResult (js "awaiting_review") (js "pull_request_created")
                   (Some pullRequest) (Some (generateBranchName now task)).

End MoreProps.
Import MoreProps.

(* ================================================================== *)
(** * Further examples *)

Module MoreExamples.

Import Examples.

(** A context as the callers build it, and the store after one request
    made with it. *)
Definition ctxBare : Context :=
  mkContext (js "a1") (Some (js "Proceed?")) None None None.

Definition stBare : State :=
  snd (HumanLoopService.requestHumanInput (okEnv 0) 1000 securityTask
         ctxBare st0).

(** The store of [st1] when the agent of the request is gone. *)
Definition stNoAgent : State :=
  mkState (pendingRequests st1) [] (trace st1).

(** A task whose pull request is under review, and a review comment. *)
Definition reviewedTask : Task :=
  mkTask (js "t3") (js "Fix the footer") None (Some shop)
         None None None (Some 5%N).

Definition renameIt : ReviewComment :=
  mkReviewComment (js "rename it") (js "ann").

(** [env] with another model, another tracker for comments, or another
    reading of the actions. *)
Definition withModel (env : Env) (answer : list Event -> Outcome jsstring)
  : Env :=
  mkEnv (mcp_createGiteaIssue env) (mcp_addGiteaComment env)
        (mcp_gitOperation env) (mcp_executeCommand env)
        (mcp_readFile env) (mcp_writeFile env) (mcp_searchCode env)
        (child_exec env) (activeContainers env)
        (gitea_createIssue env) (gitea_createPullRequest env)
        (gitea_addLabels env) (gitea_createComment env)
        answer (axios_patch env)
        (extractSection env) (parseAnswers env) (parseActions env).

Definition withComments (env : Env) (answer : list Event -> Outcome unit)
  : Env :=
  mkEnv (mcp_createGiteaIssue env) (mcp_addGiteaComment env)
        (mcp_gitOperation env) (mcp_executeCommand env)
        (mcp_readFile env) (mcp_writeFile env) (mcp_searchCode env)
        (child_exec env) (activeContainers env)
        (gitea_createIssue env) (gitea_createPullRequest env)
        (gitea_addLabels env) answer
        (llm_create env) (axios_patch env)
        (extractSection env) (parseAnswers env) (parseActions env).

Definition withActions (env : Env) (parse : jsstring -> list Action)
  : Env :=
  mkEnv (mcp_createGiteaIssue env) (mcp_addGiteaComment env)
        (mcp_gitOperation env) (mcp_executeCommand env)
        (mcp_readFile env) (mcp_writeFile env) (mcp_searchCode env)
        (child_exec env) (activeContainers env)
        (gitea_createIssue env) (gitea_createPullRequest env)
        (gitea_addLabels env) (gitea_createComment env)
        (llm_create env) (axios_patch env)
        (extractSection env) (parseAnswers env) parse.

(** The model answers the analysis with two questions. *)
Definition askEnv : Env :=
  withModel (okEnv 0)
    (fun _ => Ok (js ("Before I start:" ++ nl ++
                      "1. Which pages get the footer?" ++ nl ++
                      "  What about mobile?  "))).

(** The tracker refuses the comment that would make the trace [n]
    calls long. *)
Definition refusingAt (n : nat) : Env :=
  withComments (okEnv 0)
    (fun tr => if List.length tr =? n
               then Throw (ExternalError (js "refused")) else Ok tt).

(** The tests fail, and the reply of the model holds two actions: write
    a file and run the tests. *)
Definition writeAndTest : list Action :=
  [ mkAction (js "WRITE_FILE")
      (Some (mkActionData (Some (js "src/footer.js")) (Some (js "done"))
                          None None None None None None));
    mkAction (js "RUN_TESTS")
      (Some (mkActionData None None None None None None None None)) ].

Definition actingEnv : Env :=
  withActions (okEnv 1) (fun _ => writeAndTest).

End MoreExamples.

(* ================================================================== *)
(** * Facts about JavaScript strings *)

Module JsStringFacts.

Lemma str_eqb_eq (a b : jsstring) : str_eqb a b = true <-> a = b.
Proof.
  revert b; induction a as [|x a IH]; intros [|y b]; simpl;
    split; intro H; try reflexivity; try discriminate.
  - apply andb_true_iff in H as [Hx Hab].
    apply Ascii.eqb_eq in Hx. apply IH in Hab. now subst.
  - injection H as -> ->. rewrite Ascii.eqb_refl. simpl. now apply IH.
Qed.

Lemma str_eqb_refl (a : jsstring) : str_eqb a a = true.
Proof. now apply str_eqb_eq. Qed.

Lemma str_eqb_neq (a b : jsstring) : str_eqb a b = false <-> a <> b.
Proof.
  split.
  - intros H E. apply str_eqb_eq in E. congruence.
  - intro H. destruct (str_eqb a b) eqn:E; [|reflexivity].
    apply str_eqb_eq in E. contradiction.
Qed.

Lemma startsWith_spec (s p : jsstring) :
  startsWith s p = true <-> exists r, s = p ++ r.
Proof.
  revert s; induction p as [|y p IH]; intros s; simpl.
  - split; [intros _; now exists s | intros _; now destruct s].
  - destruct s as [|x s]; simpl.
    + split; [discriminate | intros [r H]; discriminate].
    + rewrite andb_true_iff, Ascii.eqb_eq, IH. split.
      * intros [-> [r ->]]. now exists r.
      * intros [r H]. injection H as -> ->. split; [reflexivity|now exists r].
Qed.

Lemma startsWith_app (p r : jsstring) : startsWith (p ++ r) p = true.
Proof. apply startsWith_spec. now exists r. Qed.

Lemma includes_unfold (s p : jsstring) :
  includes s p =
  startsWith s p || match s with [] => false | _ :: s' => includes s' p end.
Proof. destruct s; reflexivity. Qed.

Lemma includes_spec (s p : jsstring) :
  includes s p = true <-> exists a b, s = a ++ p ++ b.
Proof.
  induction s as [|x s IH]; rewrite includes_unfold, orb_true_iff.
  - rewrite startsWith_spec. split.
    + intros [[r H]|H]; [|discriminate]. now exists [], r.
    + intros [a [b H]]. left. destruct a; [now exists b | discriminate].
  - rewrite startsWith_spec, IH. split.
    + intros [[r H]|[a [b H]]].
      * now exists [], r.
      * exists (x :: a), b. simpl. now rewrite H.
    + intros [[|c a] [b H]].
      * left. now exists b.
      * right. injection H as -> ->. now exists a, b.
Qed.

Lemma includes_false_spec (s p : jsstring) :
  includes s p = false <-> forall a b, s <> a ++ p ++ b.
Proof.
  split.
  - intros H a b E.
    assert (includes s p = true) by (apply includes_spec; now exists a, b).
    congruence.
  - intro H. destruct (includes s p) eqn:E; [|reflexivity].
    apply includes_spec in E as [a [b E]]. now destruct (H a b).
Qed.

Lemma includes_infix (s a b p : jsstring) :
  includes s p = true -> includes (a ++ s ++ b) p = true.
Proof.
  rewrite !includes_spec. intros [c [d ->]].
  exists (a ++ c), (d ++ b). now rewrite <- !app_assoc.
Qed.

Lemma startsWith_includes (s p : jsstring) :
  startsWith s p = true -> includes s p = true.
Proof.
  rewrite startsWith_spec, includes_spec. intros [r ->]. now exists [], r.
Qed.

Lemma includes_rev (s p : jsstring) :
  includes (rev s) (rev p) = includes s p.
Proof.
  apply eq_true_iff_eq. rewrite !includes_spec. split.
  - intros [a [b H]]. exists (rev b), (rev a).
    apply (f_equal (@rev ascii)) in H.
    rewrite rev_involutive in H. rewrite H.
    now rewrite !rev_app_distr, rev_involutive, <- app_assoc.
  - intros [a [b ->]]. exists (rev b), (rev a).
    now rewrite !rev_app_distr, <- app_assoc.
Qed.

(** ** White space and [trim] *)

Lemma dropWhile_decomp (f : ascii -> bool) (s : jsstring) :
  exists w, s = w ++ dropWhile f s /\ forallb f w = true.
Proof.
  induction s as [|c s [w [E W]]]; simpl.
  - now exists [].
  - destruct (f c) eqn:F.
    + exists (c :: w). simpl. now rewrite F, W, <- E.
    + now exists [].
Qed.

Lemma dropWhile_all (f : ascii -> bool) (s : jsstring) :
  forallb f s = true -> dropWhile f s = [].
Proof.
  induction s as [|c s IH]; simpl; [reflexivity|].
  intro H. apply andb_true_iff in H as [-> H]. now apply IH.
Qed.

Lemma dropWhile_app_all (f : ascii -> bool) (w s : jsstring) :
  forallb f w = true -> dropWhile f (w ++ s) = dropWhile f s.
Proof.
  induction w as [|c w IH]; simpl; [reflexivity|].
  intro H. apply andb_true_iff in H as [-> H]. now apply IH.
Qed.

Lemma dropWhile_head (f : ascii -> bool) (c : ascii) (s : jsstring) :
  f c = false -> dropWhile f (c :: s) = c :: s.
Proof. intro H. simpl. now rewrite H. Qed.

Lemma dropWhile_idem (f : ascii -> bool) (s : jsstring) :
  dropWhile f (dropWhile f s) = dropWhile f s.
Proof.
  induction s as [|c s IH]; simpl; [reflexivity|].
  destruct (f c) eqn:F; [exact IH|]. simpl. now rewrite F.
Qed.

Lemma forallb_rev (f : ascii -> bool) (s : jsstring) :
  forallb f (rev s) = forallb f s.
Proof.
  induction s as [|c s IH]; simpl; [reflexivity|].
  rewrite forallb_app, IH. simpl. rewrite andb_true_r. apply andb_comm.
Qed.

Lemma trimEnd_decomp (s : jsstring) :
  exists w, s = trimEnd s ++ w /\ forallb isWhiteSpace w = true.
Proof.
  unfold trimEnd.
  destruct (dropWhile_decomp isWhiteSpace (rev s)) as [w [E W]].
  exists (rev w). split.
  - apply (f_equal (@rev ascii)) in E.
    now rewrite rev_involutive, rev_app_distr in E.
  - now rewrite forallb_rev.
Qed.

Lemma trim_decomp (s : jsstring) :
  exists w1 w2, s = w1 ++ trim s ++ w2 /\
                forallb isWhiteSpace w1 = true /\
                forallb isWhiteSpace w2 = true.
Proof.
  unfold trim, trimStart.
  destruct (dropWhile_decomp isWhiteSpace s) as [w1 [E1 W1]].
  destruct (trimEnd_decomp (dropWhile isWhiteSpace s)) as [w2 [E2 W2]].
  exists w1, w2. repeat split; try assumption.
  now rewrite <- E2.
Qed.

Lemma trim_whitespace (s : jsstring) :
  forallb isWhiteSpace s = true -> trim s = [].
Proof.
  intro H. unfold trim, trimStart. now rewrite dropWhile_all.
Qed.

Lemma includes_trim_sub (s p : jsstring) :
  includes (trim s) p = true -> includes s p = true.
Proof.
  intro H. destruct (trim_decomp s) as [w1 [w2 [E _]]].
  rewrite E. now apply includes_infix.
Qed.


Lemma dropWhile_app (f : ascii -> bool) (s w : jsstring) :
  dropWhile f (s ++ w) =
  match dropWhile f s with
  | [] => dropWhile f w
  | _ => dropWhile f s ++ w
  end.
Proof.
  induction s as [|c s IH]; simpl.
  - now destruct (dropWhile f w).
  - destruct (f c); [exact IH | reflexivity].
Qed.

Lemma trimEnd_app_ws (s w : jsstring) :
  forallb isWhiteSpace w = true -> trimEnd (s ++ w) = trimEnd s.
Proof.
  intro H. unfold trimEnd. rewrite rev_app_distr, dropWhile_app_all.
  - reflexivity.
  - now rewrite forallb_rev.
Qed.

Lemma trim_app_ws_l (w s : jsstring) :
  forallb isWhiteSpace w = true -> trim (w ++ s) = trim s.
Proof.
  intro H. unfold trim, trimStart. now rewrite dropWhile_app_all.
Qed.

Lemma trim_app_ws_r (s w : jsstring) :
  forallb isWhiteSpace w = true -> trim (s ++ w) = trim s.
Proof.
  intro H. unfold trim, trimStart. rewrite dropWhile_app.
  destruct (dropWhile isWhiteSpace s) eqn:E.
  - now rewrite (dropWhile_all _ _ H).
  - now apply trimEnd_app_ws.
Qed.

Lemma trim_idem (s : jsstring) : trim (trim s) = trim s.
Proof.
  destruct (trim_decomp s) as [w1 [w2 [E [W1 W2]]]].
  rewrite E at 2.
  rewrite trim_app_ws_l by assumption.
  now rewrite trim_app_ws_r by assumption.
Qed.

Lemma includes_dropWhile (f : ascii -> bool) {s p : jsstring} {c : ascii}
    {p' : jsstring} :
  p = c :: p' -> f c = false ->
  includes (dropWhile f s) p = includes s p.
Proof.
  intros -> F. induction s as [|x s IH]; [reflexivity|].
  simpl dropWhile. destruct (f x) eqn:Fx; [|reflexivity].
  rewrite IH. rewrite (includes_unfold (x :: s)).
  simpl. destruct (Ascii.eqb x c) eqn:E; [|reflexivity].
  apply Ascii.eqb_eq in E. congruence.
Qed.

Lemma solid_inv (p : jsstring) :
  solid p = true ->
  exists c p' d q, p = c :: p' /\ rev p = d :: q /\
                   isWhiteSpace c = false /\ isWhiteSpace d = false.
Proof.
  unfold solid. destruct p as [|c p']; [discriminate|].
  destruct (rev (c :: p')) as [|d q] eqn:E; [discriminate|].
  intro H. apply andb_true_iff in H as [H1 H2].
  apply negb_true_iff in H1, H2. now exists c, p', d, q.
Qed.

(** Trimming neither hides nor reveals a solid pattern. *)
Lemma includes_trim (s p : jsstring) :
  solid p = true -> includes (trim s) p = includes s p.
Proof.
  intro S. destruct (solid_inv p S) as [c [p' [d [q [Ep [Er [Wc Wd]]]]]]].
  unfold trim, trimEnd, trimStart.
  rewrite <- (rev_involutive p) at 1. rewrite includes_rev.
  rewrite (includes_dropWhile isWhiteSpace Er Wd).
  rewrite includes_rev.
  exact (includes_dropWhile isWhiteSpace Ep Wc).
Qed.

(** ** Lower case *)

Lemma toLowerCase_app (a b : jsstring) :
  toLowerCase (a ++ b) = toLowerCase a ++ toLowerCase b.
Proof. apply map_app. Qed.

Lemma includes_toLowerCase (s kw : jsstring) :
  includes (toLowerCase s) (toLowerCase kw) = true <->
  containsIgnoringCase s kw.
Proof.
  rewrite includes_spec. unfold containsIgnoringCase, toLowerCase. split.
  - intros [a [b H]].
    apply map_eq_app in H as [a' [r [-> [Ha Hr]]]].
    apply map_eq_app in Hr as [m [b' [-> [Hm Hb]]]].
    now exists a', m, b'.
  - intros [a [m [b [-> Hm]]]].
    exists (map lowerUnit a), (map lowerUnit b).
    now rewrite !map_app, Hm.
Qed.

Lemma isWhiteSpace_lowerUnit (c : ascii) :
  isWhiteSpace (lowerUnit c) = isWhiteSpace c.
Proof.
  destruct c as [[] [] [] [] [] [] [] []]; reflexivity.
Qed.

Lemma dropWhile_toLowerCase (s : jsstring) :
  dropWhile isWhiteSpace (toLowerCase s) =
  toLowerCase (dropWhile isWhiteSpace s).
Proof.
  induction s as [|c s IH]; [reflexivity|].
  simpl. rewrite isWhiteSpace_lowerUnit.
  destruct (isWhiteSpace c); [exact IH | reflexivity].
Qed.

Lemma trim_toLowerCase (s : jsstring) :
  trim (toLowerCase s) = toLowerCase (trim s).
Proof.
  assert (R : forall x, rev (toLowerCase x) = toLowerCase (rev x))
    by (intro x; unfold toLowerCase; now rewrite map_rev).
  unfold trim, trimEnd, trimStart.
  now rewrite dropWhile_toLowerCase, R, dropWhile_toLowerCase, R.
Qed.

(** ** [indexOf] and [substring] *)

Lemma indexOf_startsWith (s p : jsstring) :
  startsWith s p = true -> indexOf s p = 0%Z.
Proof. intro H. destruct s; cbn [indexOf]; now rewrite H. Qed.

Lemma indexOf_after_ws {w p : jsstring} (r : jsstring) {c : ascii}
    {p' : jsstring} :
  p = c :: p' -> isWhiteSpace c = false ->
  forallb isWhiteSpace w = true ->
  indexOf (w ++ p ++ r) p = Z.of_nat (List.length w).
Proof.
  intros Ep Wc. induction w as [|x w IH]; intro W.
  - simpl app. apply indexOf_startsWith, startsWith_app.
  - simpl in W. apply andb_true_iff in W as [Wx W].
    specialize (IH W). simpl app. cbn [indexOf].
    replace (startsWith (x :: w ++ p ++ r) p) with false.
    + rewrite IH.
      destruct (Z.of_nat (List.length w) <? 0)%Z eqn:E.
      * apply Z.ltb_lt in E. lia.
      * simpl List.length. lia.
    + subst p. simpl. destruct (Ascii.eqb x c) eqn:E; [|reflexivity].
      apply Ascii.eqb_eq in E. congruence.
Qed.

Lemma substring_app (a b : jsstring) :
  substring (a ++ b) (Z.of_nat (List.length a)) = b.
Proof.
  unfold substring. rewrite Z.max_r by lia. rewrite Nat2Z.id.
  now rewrite skipn_app, skipn_all, Nat.sub_diag.
Qed.

(** What the capture takes from the line that carries the prefix. *)
Lemma capture_first_line (line p r : jsstring) :
  solid p = true -> trim line = p ++ r ->
  trim (substring line (indexOf line p + Z.of_nat (List.length p))) =
  trim r.
Proof.
  intros S E.
  destruct (solid_inv p S) as [c [p' [_ [_ [Ep [_ [Wc _]]]]]]].
  destruct (trim_decomp line) as [w1 [w2 [D [W1 W2]]]].
  rewrite E in D. rewrite <- app_assoc in D.
  rewrite D at 2. rewrite (indexOf_after_ws _ Ep Wc W1).
  rewrite <- Nat2Z.inj_add, <- length_app.
  rewrite D, app_assoc, substring_app.
  now apply trim_app_ws_r.
Qed.

(** ** [split] *)

Lemma split_single (sep : ascii) (s : jsstring) :
  ~ In sep s -> split sep s = [s].
Proof.
  induction s as [|c s IH]; intro H; [reflexivity|].
  simpl. destruct (Ascii.eqb c sep) eqn:E.
  - apply Ascii.eqb_eq in E. subst. destruct H. now left.
  - rewrite IH; [reflexivity|]. intro I. apply H. now right.
Qed.

Lemma split_length_pos (sep : ascii) (s : jsstring) :
  0 < List.length (split sep s).
Proof.
  induction s as [|c s IH]; simpl; [lia|].
  destruct (Ascii.eqb c sep); simpl; [lia|].
  destruct (split sep s); simpl; lia.
Qed.

End JsStringFacts.
Import JsStringFacts.

(* ================================================================== *)
(** * The response parser *)

Module ParserFacts.

Import Examples.

Lemma typePrefixes_solid (t : ResponseType) (p : jsstring) :
  In (t, p) typePrefixes -> solid p = true.
Proof.
  simpl. intros [H|[H|[H|[H|[H|[]]]]]]; injection H as <- <-; reflexivity.
Qed.

Lemma noPrefix_trim (text : jsstring) :
  noPrefix text -> noPrefix (trim text).
Proof.
  intros H t p I. rewrite includes_trim by exact (typePrefixes_solid t p I).
  exact (H t p I).
Qed.

(** ** The loop of [extractStructuredContent] *)

Lemma extractLoop_skip (p : jsstring) (pre ls : list jsstring)
    (c : jsstring) :
  (forall l, In l pre -> startsWith (trim l) p = false) ->
  extractLoop p (pre ++ ls) c false = extractLoop p ls c false.
Proof.
  induction pre as [|l pre IH]; intro H; [reflexivity|].
  simpl. rewrite (H l) by now left.
  apply IH. intros l' I. apply H. now right.
Qed.

Lemma extractLoop_start (p line r : jsstring) (ls : list jsstring)
    (c : jsstring) (b : bool) :
  solid p = true -> trim line = p ++ r ->
  extractLoop p (line :: ls) c b = extractLoop p ls (trim r) true.
Proof.
  intros S E. cbn [extractLoop].
  rewrite E, startsWith_app.
  now rewrite (capture_first_line line p r S E).
Qed.

Lemma extractLoop_body (p : jsstring) (body rest : list jsstring)
    (c : jsstring) :
  (forall l, In l body -> startsWith (trim l) p = false /\
                          matchesUpperColon (trim l) = false) ->
  extractLoop p (body ++ rest) c true =
  extractLoop p rest
    (fold_left (fun acc l => acc ++ js " " ++ l)
               (filter truthyStr (map trim body)) c)
    true.
Proof.
  revert c. induction body as [|l body IH]; intros c H; [reflexivity|].
  destruct (H l) as [H1 H2]; [now left|].
  simpl. rewrite H1, H2. simpl.
  destruct (truthyStr (trim l)); simpl; apply IH;
    intros l' I; apply H; now right.
Qed.

Lemma extractLoop_stop (p l : jsstring) (rest : list jsstring)
    (c : jsstring) :
  startsWith (trim l) p = false -> matchesUpperColon (trim l) = true ->
  extractLoop p (l :: rest) c true = c.
Proof. intros H1 H2. simpl. now rewrite H1, H2. Qed.

Lemma join_cons_app (sep a b : jsstring) (ls : list jsstring) :
  join sep ((a ++ b) :: ls) = a ++ join sep (b :: ls).
Proof. destruct ls; simpl; [reflexivity | now rewrite <- app_assoc]. Qed.

Lemma join_fold (sep x : jsstring) (ls : list jsstring) :
  fold_left (fun acc l => acc ++ sep ++ l) ls x = join sep (x :: ls).
Proof.
  revert x. induction ls as [|l ls IH]; intro x; [reflexivity|].
  simpl fold_left. rewrite IH.
  rewrite join_cons_app. cbn [join]. destruct ls; simpl.
  - reflexivity.
  - now rewrite <- !app_assoc.
Qed.

(** The capture rule of [extractStructuredContent]. *)
Lemma capture_rule (p text r0 l0 : jsstring)
    (pre body rest : list jsstring) :
  solid p = true ->
  split LF text = pre ++ l0 :: body ++ rest ->
  (forall l, In l pre -> startsWith (trim l) p = false) ->
  trim l0 = p ++ r0 ->
  (forall l, In l body -> startsWith (trim l) p = false /\
                          matchesUpperColon (trim l) = false) ->
  (rest = [] \/
   exists l rest', rest = l :: rest' /\
                   startsWith (trim l) p = false /\
                   matchesUpperColon (trim l) = true) ->
  extractStructuredContent text p =
  trim (join (js " ") (trim r0 :: filter truthyStr (map trim body))).
Proof.
  intros S Sp Hpre E0 Hbody Hrest.
  unfold extractStructuredContent. rewrite Sp.
  rewrite (extractLoop_skip p pre _ [] Hpre).
  rewrite (extractLoop_start p l0 r0 _ [] false S E0).
  rewrite (extractLoop_body p body rest _ Hbody).
  rewrite join_fold.
  destruct Hrest as [->|[l [rest' [-> [H1 H2]]]]].
  - reflexivity.
  - now rewrite (extractLoop_stop p l rest' _ H1 H2).
Qed.

(** ** Which prefix decides the type *)

Lemma parse_unfold (text : jsstring) :
  parseHumanResponse text =
  let t := trim text in
  if includes text (js "DECISION:") then
    mkParsed decision (extractStructuredContent t (js "DECISION:"))
             None None t
  else if includes text (js "CODE:") then
    mkParsed code (extractStructuredContent t (js "CODE:")) None None t
  else if includes text (js "GUIDANCE:") then
    mkParsed guidance (extractStructuredContent t (js "GUIDANCE:"))
             None None t
  else if includes text (js "APPROVAL:") then
    mkParsed approval (extractStructuredContent t (js "APPROVAL:"))
      (Some (extractStructuredContent t (js "FEEDBACK:")))
      (Some (includes
               (toLowerCase (extractStructuredContent t (js "APPROVAL:")))
               (js "yes")))
      t
  else if includes text (js "QUESTION:") then
    mkParsed question (extractStructuredContent t (js "QUESTION:"))
             None None t
  else mkParsed general t None None t.
Proof.
  unfold parseHumanResponse.
  rewrite !includes_trim by reflexivity. reflexivity.
Qed.


Lemma noPrefix_inv (text : jsstring) :
  noPrefix text ->
  includes text (js "DECISION:") = false /\
  includes text (js "CODE:") = false /\
  includes text (js "GUIDANCE:") = false /\
  includes text (js "APPROVAL:") = false /\
  includes text (js "QUESTION:") = false.
Proof.
  intro H. repeat split;
    [ apply (H decision) | apply (H code) | apply (H guidance)
    | apply (H approval) | apply (H question) ]; simpl; tauto.
Qed.

Lemma parse_general_inv (text : jsstring) :
  type (parseHumanResponse text) = general -> noPrefix text.
Proof.
  rewrite parse_unfold. cbv zeta.
  destruct (includes text (js "DECISION:")) eqn:E1; [discriminate|].
  destruct (includes text (js "CODE:")) eqn:E2; [discriminate|].
  destruct (includes text (js "GUIDANCE:")) eqn:E3; [discriminate|].
  destruct (includes text (js "APPROVAL:")) eqn:E4; [discriminate|].
  destruct (includes text (js "QUESTION:")) eqn:E5; [discriminate|].
  intros _ t p I. simpl in I.
  destruct I as [I|[I|[I|[I|[I|[]]]]]]; injection I as <- <-; assumption.
Qed.

(** ** C6 *)

(** C6, as stated, fails: a text none of whose lines starts with a
    prefix, but which holds DECISION: in the middle of a line, is not
    given the type [general]; its type is [decision] and its content is
    empty instead of the text. *)
Lemma parse_fallback_counterexample :
  noLeadingPrefix (js "we took the DECISION: ship") /\
  trim (js "we took the DECISION: ship") = js "we took the DECISION: ship" /\
  type (parseHumanResponse (js "we took the DECISION: ship")) = decision /\
  content (parseHumanResponse (js "we took the DECISION: ship")) = [] /\
  content (parseHumanResponse (js "we took the DECISION: ship"))
  <> trim (js "we took the DECISION: ship").
Proof.
  split; [|repeat split; try reflexivity; discriminate].
  intros line t p L I. simpl in L. destruct L as [<-|[]].
  simpl in I.
  destruct I as [I|[I|[I|[I|[I|[]]]]]]; injection I as <- <-; reflexivity.
Qed.

(** C6 (amended). [parseHumanResponse] is a total function.  On a text
    in which none of the five type-deciding prefixes occurs anywhere, as
    written in capitals, it returns type [general] with the trimmed text
    as content; on a text made of white space only (the empty text
    included) it returns type [general] with the empty content. *)
Theorem parse_falls_back_to_general (text : jsstring) :
  (noPrefix text ->
   type (parseHumanResponse text) = general /\
   content (parseHumanResponse text) = trim text) /\
  (forallb isWhiteSpace text = true ->
   type (parseHumanResponse text) = general /\
   content (parseHumanResponse text) = []).
Proof.
  split.
  - intro H. destruct (noPrefix_inv text H) as [E1 [E2 [E3 [E4 E5]]]].
    rewrite parse_unfold, E1, E2, E3, E4, E5. now split.
  - intro W. unfold parseHumanResponse.
    rewrite (trim_whitespace text W). now split.
Qed.

Lemma parse_falls_back_to_general_witness :
  (type (parseHumanResponse (js "  please go ahead ")) = general /\
   content (parseHumanResponse (js "  please go ahead ")) =
   trim (js "  please go ahead ")) /\
  (type (parseHumanResponse (js "   ")) = general /\
   content (parseHumanResponse (js "   ")) = []).
Proof.
  split.
  - apply (parse_falls_back_to_general (js "  please go ahead ")).
    intros t p I. simpl in I.
    destruct I as [I|[I|[I|[I|[I|[]]]]]]; injection I as <- <-;
      reflexivity.
  - apply (parse_falls_back_to_general (js "   ")). reflexivity.
Defined.

(** ** C4 *)

(** C4, as stated, fails: a line-leading [decision:] in lower case is
    not detected; a [DECISION:] in the middle of a line is; and the
    capture stops at [NOTE:], which is not one of the prefixes. *)
Lemma parse_prefix_counterexample :
  (startsWithIgnoreCase (js "decision: ship it") (js "DECISION:") = true /\
   type (parseHumanResponse (js "decision: ship it")) = general) /\
  (startsWith (js "we took the DECISION: ship") (js "DECISION:") = false /\
   type (parseHumanResponse (js "we took the DECISION: ship")) = decision /\
   content (parseHumanResponse (js "we took the DECISION: ship")) = []) /\
  content (parseHumanResponse
             (js ("DECISION: ship" ++ nl ++ "NOTE: today" ++ nl ++ "now")))
  = js "ship".
Proof. repeat split; reflexivity. Qed.

(** C4 (amended).  Detection is case-sensitive and by occurrence
    anywhere in the text: the type is that of the first of DECISION:,
    CODE:, GUIDANCE:, APPROVAL:, QUESTION:, in this order, that occurs in
    the text, and the content is what [extractStructuredContent] takes
    from the trimmed text for that prefix.  The capture starts at the
    first line whose trimmed form starts with the prefix and, when no
    later captured line starts with the prefix again, runs to the next
    line whose trimmed form starts with capital letters and a colon
    (whether a known prefix or not) or to the end of the text; the
    non-blank lines are trimmed and joined with single spaces, and the
    result is trimmed. *)
Theorem parse_prefix_detection_and_capture :
  (forall text,
      match firstPrefix typePrefixes text with
      | Some (t, p) =>
          type (parseHumanResponse text) = t /\
          content (parseHumanResponse text) =
          extractStructuredContent (trim text) p
      | None =>
          type (parseHumanResponse text) = general /\
          content (parseHumanResponse text) = trim text
      end) /\
  (forall p text r0 l0 pre body rest,
      solid p = true ->
      split LF text = pre ++ l0 :: body ++ rest ->
      (forall l, In l pre -> startsWith (trim l) p = false) ->
      trim l0 = p ++ r0 ->
      (forall l, In l body -> startsWith (trim l) p = false /\
                              matchesUpperColon (trim l) = false) ->
      (rest = [] \/
       exists l rest', rest = l :: rest' /\
                       startsWith (trim l) p = false /\
                       matchesUpperColon (trim l) = true) ->
      extractStructuredContent text p =
      trim (join (js " ") (trim r0 :: filter truthyStr (map trim body)))).
Proof.
  split.
  - intro text. rewrite parse_unfold. cbv zeta.
    unfold typePrefixes, firstPrefix.
    destruct (includes text (js "DECISION:")); [now split|].
    destruct (includes text (js "CODE:")); [now split|].
    destruct (includes text (js "GUIDANCE:")); [now split|].
    destruct (includes text (js "APPROVAL:")); [now split|].
    destruct (includes text (js "QUESTION:")); now split.
  - intros. eapply capture_rule; eassumption.
Qed.

Lemma parse_prefix_detection_and_capture_witness :
  extractStructuredContent
    (js ("Hello" ++ nl ++ " CODE: use a map " ++ nl ++ nl ++
         "  keyed by id" ++ nl ++ "QUESTION: ok?" ++ nl ++ "bye"))
    (js "CODE:")
  = trim (join (js " ")
            (trim (js " use a map") ::
             filter truthyStr (map trim [[]; js "  keyed by id"]))).
Proof.
  apply (proj2 parse_prefix_detection_and_capture
           (js "CODE:") _ (js " use a map") (js " CODE: use a map ")
           [js "Hello"] [[]; js "  keyed by id"]
           [js "QUESTION: ok?"; js "bye"]).
  - reflexivity.
  - reflexivity.
  - intros l [<-|[]]. reflexivity.
  - reflexivity.
  - intros l [<-|[<-|[]]]; split; reflexivity.
  - right. exists (js "QUESTION: ok?"), [js "bye"].
    repeat split; reflexivity.
Defined.

(** ** C5 *)

Lemma approved_flag (c : jsstring) :
  includes (toLowerCase c) (js "yes") = true <->
  containsIgnoringCase c (js "yes").
Proof.
  change (js "yes") with (toLowerCase (js "yes")) at 1.
  apply includes_toLowerCase.
Qed.

(** C5, as stated, fails: a text can contain [APPROVAL:] and still be
    given another type, because [DECISION:] is tried first. *)
Lemma approval_parse_counterexample :
  includes (js ("DECISION: ship" ++ nl ++ "APPROVAL: Yes"))
           (js "APPROVAL:") = true /\
  type (parseHumanResponse (js ("DECISION: ship" ++ nl ++ "APPROVAL: Yes")))
  <> approval.
Proof. split; [reflexivity | discriminate]. Qed.

(** C5 (amended).  For every text that contains [APPROVAL:] and none of
    [DECISION:], [CODE:], [GUIDANCE:], the parse has type [approval],
    its content is the captured approval text, [approved] is true exactly
    when that text contains "yes" up to case, and [feedback] is the
    capture for [FEEDBACK:] over the whole text.  The two examples of the
    specification evaluate as stated. *)
Theorem approval_parse :
  (forall text,
      includes text (js "APPROVAL:") = true ->
      includes text (js "DECISION:") = false ->
      includes text (js "CODE:") = false ->
      includes text (js "GUIDANCE:") = false ->
      type (parseHumanResponse text) = approval /\
      content (parseHumanResponse text) =
      extractStructuredContent (trim text) (js "APPROVAL:") /\
      feedback (parseHumanResponse text) =
      Some (extractStructuredContent (trim text) (js "FEEDBACK:")) /\
      exists b, approved (parseHumanResponse text) = Some b /\
                (b = true <->
                 containsIgnoringCase (content (parseHumanResponse text))
                                      (js "yes"))) /\
  (type (parseHumanResponse
           (js ("APPROVAL: Yes" ++ nl ++ "FEEDBACK: add tests"))) = approval /\
   approved (parseHumanResponse
               (js ("APPROVAL: Yes" ++ nl ++ "FEEDBACK: add tests")))
   = Some true /\
   feedback (parseHumanResponse
               (js ("APPROVAL: Yes" ++ nl ++ "FEEDBACK: add tests")))
   = Some (js "add tests")) /\
  approved (parseHumanResponse (js "APPROVAL: no")) = Some false.
Proof.
  split; [|repeat split; reflexivity].
  intros text Ha Hd Hc Hg.
  rewrite parse_unfold, Hd, Hc, Hg, Ha. cbv zeta. cbn [type content feedback approved].
  repeat split.
  eexists. split; [reflexivity|]. apply approved_flag.
Qed.

Lemma approval_parse_witness :
  type (parseHumanResponse (js "  APPROVAL: YES, go")) = approval /\
  content (parseHumanResponse (js "  APPROVAL: YES, go")) =
  extractStructuredContent (trim (js "  APPROVAL: YES, go"))
                           (js "APPROVAL:") /\
  feedback (parseHumanResponse (js "  APPROVAL: YES, go")) =
  Some (extractStructuredContent (trim (js "  APPROVAL: YES, go"))
                                 (js "FEEDBACK:")) /\
  exists b, approved (parseHumanResponse (js "  APPROVAL: YES, go")) = Some b /\
            (b = true <->
             containsIgnoringCase
               (content (parseHumanResponse (js "  APPROVAL: YES, go")))
               (js "yes")).
Proof.
  apply (proj1 approval_parse (js "  APPROVAL: YES, go")); reflexivity.
Defined.

(** ** C10 *)

Lemma gitea_unfold (c : Comment) :
  giteaParseComment c =
  let b := trim (body c) in
  if startsWith b (js "DECISION:") then
    mkGiteaResponse decision (trim (substring b 9)) None
                    (user_login c) (created_at c)
  else if startsWith b (js "CODE:") then
    mkGiteaResponse code (trim (substring b 5)) None
                    (user_login c) (created_at c)
  else if startsWith b (js "GUIDANCE:") then
    mkGiteaResponse guidance (trim (substring b 9)) None
                    (user_login c) (created_at c)
  else if startsWith b (js "APPROVAL:") then
    mkGiteaResponse approval (trim (substring b 9))
      (Some (includes (toLowerCase (trim (substring b 9))) (js "yes")))
      (user_login c) (created_at c)
  else mkGiteaResponse general b None (user_login c) (created_at c).
Proof. reflexivity. Qed.

Lemma startsWith_trim_includes (text p : jsstring) :
  startsWith (trim text) p = true -> includes text p = true.
Proof.
  intro H. apply includes_trim_sub. now apply startsWith_includes.
Qed.

(** The content both parsers take from a one-line text that starts with
    the prefix. *)
Lemma single_line_content (t p r : jsstring) :
  solid p = true -> ~ In LF t -> trim t = t -> t = p ++ r ->
  extractStructuredContent t p = trim r /\
  trim (substring t (Z.of_nat (List.length p))) = trim r.
Proof.
  intros S L T E. split.
  - unfold extractStructuredContent. rewrite (split_single LF t L).
    rewrite (extractLoop_start p t r [] [] false S); [|congruence].
    simpl. apply trim_idem.
  - rewrite E. now rewrite substring_app.
Qed.

Lemma startsWithIgnoreCase_length (s p : jsstring) :
  startsWithIgnoreCase s p = true -> List.length p <= List.length s.
Proof.
  unfold startsWithIgnoreCase. rewrite startsWith_spec. intros [r H].
  apply (f_equal (@List.length ascii)) in H.
  unfold toLowerCase in H. rewrite length_app, !length_map in H. lia.
Qed.

Lemma includes_lower_suffix (a s p : jsstring) :
  includes (toLowerCase s) p = true ->
  includes (toLowerCase (a ++ s)) p = true.
Proof.
  intro H. rewrite toLowerCase_app.
  rewrite <- (List.app_nil_r (toLowerCase s)). now apply includes_infix.
Qed.

(** Where [/APPROVAL:\s*(Yes|No)/i] captures "yes", a "yes" up to case
    follows the ninth code unit of the match. *)
Lemma approvalAt_yes (s g : jsstring) :
  approvalAt s = Some g -> str_eqb g (js "yes") = true ->
  9 <= List.length s /\
  includes (toLowerCase (skipn 9 s)) (js "yes") = true.
Proof.
  unfold approvalAt.
  destruct (startsWithIgnoreCase s (js "APPROVAL:")) eqn:A; [|discriminate].
  apply startsWithIgnoreCase_length in A. simpl in A.
  destruct (startsWithIgnoreCase (dropWhile isWhiteSpace (skipn 9 s))
                                 (js "Yes")) eqn:Y.
  - intros _ _. split; [exact A|].
    destruct (dropWhile_decomp isWhiteSpace (skipn 9 s)) as [w [E _]].
    rewrite E. apply includes_lower_suffix.
    now apply startsWith_includes.
  - destruct (startsWithIgnoreCase (dropWhile isWhiteSpace (skipn 9 s))
                                   (js "No")); [|discriminate].
    intros H G. injection H as <-. discriminate.
Qed.

Lemma approvalMatch_yes (s g : jsstring) :
  approvalMatch s = Some g -> str_eqb g (js "yes") = true ->
  includes (toLowerCase (skipn 9 s)) (js "yes") = true.
Proof.
  induction s as [|x s IH].
  - cbn [approvalMatch]. destruct (approvalAt []) eqn:A; [|discriminate].
    intros H G. injection H as ->. now apply (approvalAt_yes [] g).
  - cbn [approvalMatch]. destruct (approvalAt (x :: s)) eqn:A.
    + intros H G. injection H as ->. now apply (approvalAt_yes (x :: s) g).
    + intros H G. specialize (IH H G).
      change (skipn 9 (x :: s)) with (skipn 8 s).
      destruct (Nat.le_gt_cases 9 (List.length s)) as [L|L].
      * rewrite <- (firstn_skipn 1 (skipn 8 s)).
        apply includes_lower_suffix.
        now rewrite skipn_skipn.
      * rewrite skipn_all2 in IH by lia. discriminate.
Qed.

Lemma includes_lower_trim (x p : jsstring) :
  solid p = true ->
  includes (toLowerCase (trim x)) p = includes (toLowerCase x) p.
Proof. intro S. rewrite <- trim_toLowerCase. now apply includes_trim. Qed.

(** C10, as stated, fails: [QUESTION:] is a type for one parser and not
    for the other; a prefix on a later line is seen by one and not by the
    other; and "yes" after other words approves for two of the parsers
    and not for the third. *)
Lemma parsers_equivalent_counterexample :
  (g_type (giteaParseComment (mkComment (js "QUESTION: why?") [] []))
   = general /\
   type (parseHumanResponse (js "QUESTION: why?")) = question) /\
  (g_type (giteaParseComment
             (mkComment (js ("Hi" ++ nl ++ "DECISION: ship")) [] []))
   = general /\
   type (parseHumanResponse (js ("Hi" ++ nl ++ "DECISION: ship")))
   = decision) /\
  (g_approved (giteaParseComment
                 (mkComment (js "APPROVAL: I say yes") [] [])) = Some true /\
   approved (parseHumanResponse (js "APPROVAL: I say yes")) = Some true /\
   v_approved (parseVerification (js "APPROVAL: I say yes")) = false) /\
  (g_approved (giteaParseComment
                 (mkComment (js ("APPROVAL: No" ++ nl ++ "FEEDBACK: yes, later"))
                            [] [])) = Some true /\
   approved (parseHumanResponse
               (js ("APPROVAL: No" ++ nl ++ "FEEDBACK: yes, later")))
   = Some false).
Proof. repeat split; reflexivity. Qed.

(** C10 (amended).  The parsers agree only in part.  (a) A body that
    [HumanLoopService] types [general] is typed [general] by
    [GiteaClient] too, with the same content.  (b) The type given by
    [HumanLoopService] never comes later in the order of priority than
    the one given by [GiteaClient].  (c) When the trimmed body is a
    single line and the two give the same type other than [general],
    they give the same content and the same [approved] flag.  (d) When
    [GiteaClient] types a body [approval] and [parseVerification], run on
    the trimmed body, approves, [GiteaClient] approves as well. *)
Theorem parsers_agreement (c : Comment) :
  (type (parseHumanResponse (body c)) = general ->
   g_type (giteaParseComment c) = general /\
   g_content (giteaParseComment c) = content (parseHumanResponse (body c))) /\
  rank (type (parseHumanResponse (body c)))
  <= rank (g_type (giteaParseComment c)) /\
  (~ In LF (trim (body c)) ->
   g_type (giteaParseComment c) = type (parseHumanResponse (body c)) ->
   g_type (giteaParseComment c) <> general ->
   g_content (giteaParseComment c) = content (parseHumanResponse (body c)) /\
   g_approved (giteaParseComment c)
   = approved (parseHumanResponse (body c))) /\
  (g_type (giteaParseComment c) = approval ->
   v_approved (parseVerification (trim (body c))) = true ->
   g_approved (giteaParseComment c) = Some true).
Proof.
  set (text := body c). set (b := trim text).
  assert (I : forall p, startsWith b p = true -> includes text p = true)
    by (intros p; apply startsWith_trim_includes).
  rewrite gitea_unfold, parse_unfold. fold text. fold b. cbv zeta.
  split; [|split; [|split]].
  - (* (a) *)
    destruct (includes text (js "DECISION:")) eqn:E1; [discriminate|].
    destruct (includes text (js "CODE:")) eqn:E2; [discriminate|].
    destruct (includes text (js "GUIDANCE:")) eqn:E3; [discriminate|].
    destruct (includes text (js "APPROVAL:")) eqn:E4; [discriminate|].
    destruct (includes text (js "QUESTION:")) eqn:E5; [discriminate|].
    destruct (startsWith b (js "DECISION:")) eqn:S1;
      [apply I in S1; congruence|].
    destruct (startsWith b (js "CODE:")) eqn:S2;
      [apply I in S2; congruence|].
    destruct (startsWith b (js "GUIDANCE:")) eqn:S3;
      [apply I in S3; congruence|].
    destruct (startsWith b (js "APPROVAL:")) eqn:S4;
      [apply I in S4; congruence|].
    now split.
  - (* (b) *)
    repeat match goal with
           | |- context [startsWith b ?p] =>
               let S := fresh "S" in
               destruct (startsWith b p) eqn:S; [rewrite (I _ S)|]
           end;
      repeat match goal with
             | |- context [includes text ?p] => destruct (includes text p)
             end;
      simpl; lia.
  - (* (c) *)
    intros L T G.
    assert (Tb : trim b = b) by apply trim_idem.
    destruct (startsWith b (js "DECISION:")) eqn:S1.
    { rewrite (I _ S1) in *. apply startsWith_spec in S1 as [r E].
      destruct (single_line_content b (js "DECISION:") r eq_refl L Tb E)
        as [-> H]. split; [exact H | reflexivity]. }
    destruct (includes text (js "DECISION:"));
      [destruct (startsWith b (js "CODE:")),
                (startsWith b (js "GUIDANCE:")),
                (startsWith b (js "APPROVAL:")); simpl in T; congruence|].
    destruct (startsWith b (js "CODE:")) eqn:S2.
    { rewrite (I _ S2) in *. apply startsWith_spec in S2 as [r E].
      destruct (single_line_content b (js "CODE:") r eq_refl L Tb E)
        as [-> H]. split; [exact H | reflexivity]. }
    destruct (includes text (js "CODE:"));
      [destruct (startsWith b (js "GUIDANCE:")),
                (startsWith b (js "APPROVAL:")); simpl in T; congruence|].
    destruct (startsWith b (js "GUIDANCE:")) eqn:S3.
    { rewrite (I _ S3) in *. apply startsWith_spec in S3 as [r E].
      destruct (single_line_content b (js "GUIDANCE:") r eq_refl L Tb E)
        as [-> H]. split; [exact H | reflexivity]. }
    destruct (includes text (js "GUIDANCE:"));
      [destruct (startsWith b (js "APPROVAL:")); simpl in T; congruence|].
    destruct (startsWith b (js "APPROVAL:")) eqn:S4.
    { rewrite (I _ S4) in *. apply startsWith_spec in S4 as [r E].
      destruct (single_line_content b (js "APPROVAL:") r eq_refl L Tb E)
        as [-> H]. cbn [g_content content g_approved approved].
      split; [exact H|]. f_equal. f_equal. f_equal. exact H. }
    simpl in G. congruence.
  - (* (d) *)
    intros T V.
    destruct (startsWith b (js "DECISION:")); [discriminate|].
    destruct (startsWith b (js "CODE:")); [discriminate|].
    destruct (startsWith b (js "GUIDANCE:")); [discriminate|].
    destruct (startsWith b (js "APPROVAL:")); [|discriminate].
    cbn [g_approved]. f_equal.
    rewrite includes_lower_trim by reflexivity.
    unfold parseVerification in V. cbn [v_approved] in V.
    destruct (approvalMatch b) as [g|] eqn:A; [|discriminate].
    exact (approvalMatch_yes b g A V).
Qed.

Lemma not_In_by_test (x : ascii) (s : jsstring) :
  forallb (fun c => negb (Ascii.eqb c x)) s = true -> ~ In x s.
Proof.
  intros H I. rewrite forallb_forall in H. specialize (H x I).
  now rewrite Ascii.eqb_refl in H.
Qed.

Lemma parsers_agreement_witness :
  (g_type (giteaParseComment (mkComment (js "just do it") [] [])) = general /\
   g_content (giteaParseComment (mkComment (js "just do it") [] [])) =
   content (parseHumanResponse (js "just do it"))) /\
  (g_content (giteaParseComment (mkComment (js " APPROVAL: yes ") [] [])) =
   content (parseHumanResponse (js " APPROVAL: yes ")) /\
   g_approved (giteaParseComment (mkComment (js " APPROVAL: yes ") [] [])) =
   approved (parseHumanResponse (js " APPROVAL: yes "))) /\
  g_approved (giteaParseComment (mkComment (js " APPROVAL: yes ") [] []))
  = Some true.
Proof.
  destruct (parsers_agreement (mkComment (js "just do it") [] []))
    as [Ha _].
  destruct (parsers_agreement (mkComment (js " APPROVAL: yes ") [] []))
    as [_ [_ [Hc Hd]]].
  split; [|split].
  - apply Ha. reflexivity.
  - apply Hc.
    + apply not_In_by_test. reflexivity.
    + reflexivity.
    + discriminate.
  - apply Hd; reflexivity.
Defined.

End ParserFacts.

(* ================================================================== *)
(** * Maps and the effect monad *)

Module RuntimeFacts.

Section MapFacts.
Context {V : Type}.
Implicit Types (m : Map V) (k : jsstring) (v : V).

Lemma map_get_In m k v : map_get k m = Some v -> In (k, v) m.
Proof.
  induction m as [|[k' v'] m IH]; simpl; [discriminate|].
  destruct (str_eqb k' k) eqn:E.
  - apply str_eqb_eq in E. intro H. injection H as ->. subst. now left.
  - intro H. right. now apply IH.
Qed.

Lemma map_get_None m k : map_get k m = None <-> ~ In k (map_keys m).
Proof.
  induction m as [|[k' v'] m IH]; simpl; [tauto|].
  destruct (str_eqb k' k) eqn:E.
  - apply str_eqb_eq in E. split; [discriminate | intro H; tauto].
  - apply str_eqb_neq in E. rewrite IH. tauto.
Qed.

Lemma map_delete_absent m k : ~ In k (map_keys m) -> map_delete k m = m.
Proof.
  induction m as [|[k' v'] m IH]; simpl; [reflexivity|].
  intro H. destruct (str_eqb k' k) eqn:E.
  - apply str_eqb_eq in E. tauto.
  - rewrite IH; tauto.
Qed.

(** Deleting a key after setting it forgets the value set. *)
Lemma map_delete_set m k v :
  In k (map_keys m) -> map_delete k (map_set k v m) = map_delete k m.
Proof.
  induction m as [|[k' v'] m IH]; simpl; [tauto|].
  destruct (str_eqb k' k) eqn:E; simpl; rewrite E; [reflexivity|].
  apply str_eqb_neq in E. intros [H|H]; [contradiction|].
  now rewrite IH.
Qed.

Lemma map_keys_set m k v :
  In k (map_keys m) -> map_keys (map_set k v m) = map_keys m.
Proof.
  induction m as [|[k' v'] m IH]; simpl; [tauto|].
  destruct (str_eqb k' k) eqn:E; simpl; [reflexivity|].
  apply str_eqb_neq in E. intros [H|H]; [contradiction|].
  now rewrite IH.
Qed.

Lemma map_set_fresh m k v :
  ~ In k (map_keys m) -> map_set k v m = m ++ [(k, v)].
Proof.
  induction m as [|[k' v'] m IH]; simpl; [reflexivity|].
  intro H. destruct (str_eqb k' k) eqn:E.
  - apply str_eqb_eq in E. tauto.
  - rewrite IH; tauto.
Qed.

Lemma map_get_set_same m k v : map_get k (map_set k v m) = Some v.
Proof.
  induction m as [|[k' v'] m IH]; simpl.
  - now rewrite str_eqb_refl.
  - destruct (str_eqb k' k) eqn:E; simpl; now rewrite E.
Qed.

Lemma map_get_set_other m k k' v :
  k' <> k -> map_get k' (map_set k v m) = map_get k' m.
Proof.
  intro N. induction m as [|[k0 v0] m IH]; simpl.
  - apply str_eqb_neq in N. destruct (str_eqb k k') eqn:E; [|reflexivity].
    apply str_eqb_eq in E. apply str_eqb_neq in N. congruence.
  - destruct (str_eqb k0 k) eqn:E; simpl.
    + apply str_eqb_eq in E. subst k0.
      destruct (str_eqb k k') eqn:E'; [|reflexivity].
      apply str_eqb_eq in E'. congruence.
    + now rewrite IH.
Qed.

(** With distinct keys, deleting a key removes exactly its entry. *)
Lemma map_delete_filter m k :
  NoDup (map_keys m) ->
  map_delete k m = filter (fun kv => negb (str_eqb (fst kv) k)) m.
Proof.
  induction m as [|[k' v'] m IH]; simpl; [reflexivity|].
  intro N. inversion N as [|? ? Hk Hm]; subst.
  destruct (str_eqb k' k) eqn:E; simpl.
  - apply str_eqb_eq in E. subst k'.
    rewrite <- IH by assumption. symmetry. now apply map_delete_absent.
  - now rewrite IH.
Qed.

Lemma NoDup_map_delete m k :
  NoDup (map_keys m) -> NoDup (map_keys (map_delete k m)).
Proof.
  intro N. rewrite (map_delete_filter m k N). unfold map_keys.
  induction m as [|[k' v'] m IH]; simpl; [constructor|].
  inversion N as [|? ? Hk Hm]; subst.
  destruct (negb (str_eqb k' k)); simpl; [|now apply IH].
  constructor; [|now apply IH].
  intro I. apply Hk. unfold map_keys.
  apply in_map_iff in I as [[k0 v0] [E I]]. simpl in E. subst k0.
  apply filter_In in I as [I _]. apply in_map_iff. now exists (k', v0).
Qed.

End MapFacts.

Lemma decimal_inj (n n' : N) : decimal n = decimal n' -> n = n'.
Proof.
  unfold decimal, js. intro H.
  apply (f_equal string_of_list_ascii) in H.
  rewrite !string_of_list_ascii_of_string in H.
  assert (NN : forall k, N.to_uint k <> Decimal.Nil).
  { intros [|q]; [discriminate | apply DecimalPos.Unsigned.to_uint_nonnil]. }
  apply (f_equal NilZero.uint_of_string) in H.
  rewrite !NilZero.usu in H by apply NN.
  injection H as H. now apply DecimalN.Unsigned.to_uint_inj.
Qed.

End RuntimeFacts.
Import RuntimeFacts.

(* ================================================================== *)
(** * The pending-request broker *)

Module HumanLoopFacts.

Import HumanLoopService Examples.

(** ** What one call does *)

Lemma typeName_not_dispatched (t : ResponseType) :
  str_eqb (typeName t) (js "clarification") = false /\
  str_eqb (typeName t) (js "verification") = false /\
  str_eqb (typeName t) (js "review_feedback") = false.
Proof. destruct t; repeat split; reflexivity. Qed.

Lemma agent_processHumanResponse_parsed (env : Env) (now : Z)
    (aid : jsstring) (t : ResponseType) (c : jsstring) (st : State) :
  AgentService.processHumanResponse env now aid
    (AgentService.mkAgentResponse (typeName t) c None) st =
  match map_get aid (activeAgents st) with
  | None => (Throw (JsError (js "Agent not found: " ++ aid)), st)
  | Some a =>
      (Ok (resumed now c a),
       mkState (pendingRequests st)
         (map_set aid (resumed now c a)
            (map_set aid
               (AgentService.pushHistory
                  (mkHistoryEntry (js "user")
                     (js "Human response: " ++ c) now true) a)
               (activeAgents st)))
         (trace st))
  end.
Proof.
  destruct (typeName_not_dispatched t) as [E1 [E2 E3]].
  unfold AgentService.processHumanResponse, bind, getAgents.
  destruct (map_get aid (activeAgents st)) as [a|]; [|reflexivity].
  cbn [AgentService.r_type AgentService.r_content].
  rewrite E1, E2, E3. reflexivity.
Qed.

Lemma addConfirmationComment_run (env : Env) (data : ResponseData)
    (p : ParsedResponse) (st : State) :
  addConfirmationComment env (rd_repository data) (rd_issueNumber data) p st
  = (Ok tt, mkState (pendingRequests st) (activeAgents st)
                    (acknowledged data p (trace st))).
Proof.
  unfold addConfirmationComment, acknowledged, tryCatch, bind, deref,
    external.
  destruct (rd_repository data) as [repo|]; simpl.
  - destruct (mcp_addGiteaComment env _) as [[]|]; reflexivity.
  - now destruct st.
Qed.

(** [processHumanResponse], run. *)
Lemma processHumanResponse_run (env : Env) (now : Z) (data : ResponseData)
    (st : State) :
  processHumanResponse env now data st =
  match findPendingRequest (pendingRequests st) (rd_taskId data)
                           (rd_agentId data) with
  | None => (Ok None, st)
  | Some (key, req) =>
      let p := parseHumanResponse (rd_comment_body data) in
      let m1 := map_set key (markResponded p now req) (pendingRequests st) in
      match map_get (rd_agentId data) (activeAgents st) with
      | None =>
          (Throw (JsError (js "Agent not found: " ++ rd_agentId data)),
           mkState m1 (activeAgents st) (trace st))
      | Some a =>
          (Ok (Some p),
           mkState (map_delete (id req) m1)
             (map_set (rd_agentId data) (resumed now (content p) a)
                (map_set (rd_agentId data)
                   (AgentService.pushHistory
                      (mkHistoryEntry (js "user")
                         (js "Human response: " ++ content p) now true) a)
                   (activeAgents st)))
             (acknowledged data p (trace st)))
      end
  end.
Proof.
  unfold processHumanResponse. unfold bind at 1. unfold getPending at 1.
  destruct (findPendingRequest (pendingRequests st) (rd_taskId data)
                               (rd_agentId data)) as [[key req]|];
    [|reflexivity].
  cbv zeta. unfold bind at 1. unfold putPending at 1.
  unfold bind at 1. rewrite agent_processHumanResponse_parsed.
  cbn [activeAgents pendingRequests trace].
  destruct (map_get (rd_agentId data) (activeAgents st)) as [a|];
    [|reflexivity].
  unfold bind at 1. rewrite addConfirmationComment_run.
  reflexivity.
Qed.


(** ** C2 *)

(** C2.  The code does not do what the claim says.  Whatever the reply,
    resolving a pending request through [processHumanResponse] only
    appends the acknowledgement to the trace and leaves the verification
    verdict and the plan of every agent as they were: no continuation of
    the workflow is called and no plan is regenerated, because the type
    handed to [AgentService] is [approval], never [verification].  For
    the task awaiting verification, "APPROVAL: Yes" is parsed as an
    approval and the agent is set to [working] with nothing else done;
    "APPROVAL: No" with feedback likewise queries no agent. *)
Theorem resolve_never_reaches_verification :
  (forall env now data st,
      (exists tail,
          trace (snd (processHumanResponse env now data st))
          = trace st ++ tail /\
          Forall isConfirmation tail) /\
      (forall key a',
          map_get key
            (activeAgents (snd (processHumanResponse env now data st)))
          = Some a' ->
          exists a, map_get key (activeAgents st) = Some a /\
                    verificationResponse a' = verificationResponse a /\
                    implementationPlan a' = implementationPlan a)) /\
  (option_map approved
     (match fst (processHumanResponse (okEnv 0) 3000
                   (reply (js "APPROVAL: Yes")) st1) with
      | Ok r => r
      | Throw _ => None
      end) = Some (Some true) /\
   filter isWorkflowEvent
     (trace (snd (processHumanResponse (okEnv 0) 3000
                    (reply (js "APPROVAL: Yes")) st1))) = [] /\
   option_map (fun a => (agent_status a, verificationResponse a))
     (map_get (js "a1")
        (activeAgents (snd (processHumanResponse (okEnv 0) 3000
                              (reply (js "APPROVAL: Yes")) st1))))
   = Some (js "working", None)) /\
  filter isWorkflowEvent
    (trace (snd (processHumanResponse (okEnv 0) 3000
                   (reply (js ("APPROVAL: No" ++ nl ++
                               "FEEDBACK: redo with OAuth"))) st1))) = [].
Proof.
  split; [|split; [repeat split|]; reflexivity].
  intros env now data st. rewrite processHumanResponse_run.
  destruct (findPendingRequest (pendingRequests st) (rd_taskId data)
                               (rd_agentId data)) as [[key req]|].
  2:{ split.
      - exists []. split; [now rewrite List.app_nil_r | constructor].
      - intros k a' H. now exists a'. }
  cbv zeta.
  destruct (map_get (rd_agentId data) (activeAgents st)) as [a|] eqn:A.
  2:{ split.
      - exists []. split; [now rewrite List.app_nil_r | constructor].
      - intros k a' H. now exists a'. }
  cbn [snd trace activeAgents]. split.
  - unfold acknowledged. destruct (rd_repository data) as [repo|].
    + eexists. split; [reflexivity|]. constructor; [|constructor].
      unfold isConfirmation. now repeat eexists.
    + exists []. split; [now rewrite List.app_nil_r | constructor].
  - intros k a' H.
    destruct (str_eqb k (rd_agentId data)) eqn:E.
    + apply str_eqb_eq in E. subst k.
      rewrite map_get_set_same in H. injection H as <-.
      exists a. now repeat split.
    + apply str_eqb_neq in E.
      rewrite !map_get_set_other in H by assumption. now exists a'.
Qed.

Lemma extractRepositoryInfo_pure (r : option Repository)
    (m : option RepoInfo) :
  exists o, forall st, extractRepositoryInfo r m st = (o, st).
Proof.
  unfold extractRepositoryInfo.
  destruct r as [[[u|] ? ? ?]|]; cbn [url].
  - destruct (truthyStr u).
    + destruct (rev (split (ascii_of_N 47) (replaceFirst u (js ".git") [])))
        as [|n [|o l]]; eexists; intro; reflexivity.
    + destruct m; eexists; intro; reflexivity.
  - destruct m; eexists; intro; reflexivity.
  - destruct m; eexists; intro; reflexivity.
Qed.

(** ** C3 *)

Lemma findPendingRequest_hd (m : Map Request) (t a : jsstring) :
  findPendingRequest m t a = hd_error (pendingFor m t a).
Proof.
  induction m as [|[k r] m IH]; [reflexivity|].
  simpl. unfold isPendingFor at 1. simpl.
  destruct (str_eqb (taskId r) t && str_eqb (req_agentId r) a &&
            status_eqb (status r) pending); [reflexivity | exact IH].
Qed.

Lemma filter_comm {A} (f g : A -> bool) (l : list A) :
  filter f (filter g l) = filter g (filter f l).
Proof.
  induction l as [|x l IH]; [reflexivity|].
  simpl. destruct (f x) eqn:F, (g x) eqn:G; simpl;
    rewrite ?F, ?G, IH; reflexivity.
Qed.

Lemma findPendingRequest_In (m : Map Request) (t a k : jsstring)
    (r : Request) :
  findPendingRequest m t a = Some (k, r) -> In (k, r) m.
Proof.
  rewrite findPendingRequest_hd. unfold pendingFor.
  destruct (filter (isPendingFor t a) m) as [|x l] eqn:E; [discriminate|].
  intro H. injection H as ->.
  assert (I : In (k, r) (filter (isPendingFor t a) m))
    by (rewrite E; now left).
  now apply filter_In in I.
Qed.

(** Once the only pending request of a task and agent has been deleted,
    none is found. *)
Lemma findPendingRequest_after_delete (m : Map Request) (t a k : jsstring)
    (r v : Request) :
  wf_store m ->
  List.length (pendingFor m t a) <= 1 ->
  findPendingRequest m t a = Some (k, r) ->
  findPendingRequest (map_delete (id r) (map_set k v m)) t a = None.
Proof.
  intros [N I] L F.
  pose proof (findPendingRequest_In m t a k r F) as K.
  assert (Ek : id r = k).
  { rewrite Forall_forall in I. exact (I (k, r) K). }
  assert (Kk : In k (map_keys m)).
  { unfold map_keys. apply in_map_iff. now exists (k, r). }
  rewrite Ek, (map_delete_set m k v Kk), (map_delete_filter m k N).
  rewrite findPendingRequest_hd in *. unfold pendingFor in *.
  rewrite filter_comm.
  destruct (filter (isPendingFor t a) m) as [|x [|y l]];
    [discriminate | | simpl in L; lia].
  injection F as ->. simpl. now rewrite str_eqb_refl.
Qed.

(** ** The store stays well formed *)

Lemma In_map_set {V} (m : Map V) (k : jsstring) (v : V)
    (x : jsstring * V) :
  In x (map_set k v m) -> x = (k, v) \/ In x m.
Proof.
  induction m as [|[k0 v0] m IH]; simpl.
  - intros [H|[]]. now left.
  - destruct (str_eqb k0 k) eqn:E; simpl.
    + apply str_eqb_eq in E. subst k0. intros [H|H]; [now left | tauto].
    + intros [H|H]; [tauto|]. destruct (IH H); tauto.
Qed.

Lemma NoDup_map_set {V} (m : Map V) (k : jsstring) (v : V) :
  NoDup (map_keys m) -> NoDup (map_keys (map_set k v m)).
Proof.
  intro N. destruct (in_dec (list_eq_dec ascii_dec) k (map_keys m)) as [I|I].
  - now rewrite map_keys_set.
  - rewrite map_set_fresh by assumption. unfold map_keys in *.
    rewrite map_app. simpl. apply NoDup_app.
    + assumption.
    + repeat constructor. simpl. tauto.
    + intros a Ha [<-|[]]. contradiction.
Qed.

Lemma wf_store_empty : wf_store [].
Proof. split; constructor. Qed.

Lemma wf_store_set (m : Map Request) (k : jsstring) (r : Request) :
  wf_store m -> id r = k -> wf_store (map_set k r m).
Proof.
  intros [N F] E. split; [now apply NoDup_map_set|].
  rewrite Forall_forall in *. intros x I.
  destruct (In_map_set m k r x I) as [->|I']; [exact E | now apply F].
Qed.

Lemma wf_store_delete (m : Map Request) (k : jsstring) :
  wf_store m -> wf_store (map_delete k m).
Proof.
  intros [N F]. split; [now apply NoDup_map_delete|].
  rewrite (map_delete_filter m k N).
  rewrite Forall_forall in *. intros x I.
  apply filter_In in I as [I _]. now apply F.
Qed.

(** Every store reached from the empty one by requests and resolutions
    has distinct keys and holds each request under its own id. *)
Lemma wf_store_preserved (env : Env) (st : State) :
  wf_store (pendingRequests st) ->
  (forall now task ctx,
      wf_store (pendingRequests
                  (snd (requestHumanInput env now task ctx st)))) /\
  (forall now data,
      wf_store (pendingRequests
                  (snd (processHumanResponse env now data st)))).
Proof.
  intro W. split.
  - intros now task ctx.
    unfold requestHumanInput, createHumanInputIssue, bind.
    destruct (extractRepositoryInfo_pure (repository task)
                (metadata_repository task)) as [o P].
    rewrite P. destruct o as [info|e]; [|exact W].
    unfold external. cbn [trace pendingRequests activeAgents].
    destruct (mcp_createGiteaIssue env _) as [issue|e]; [|exact W].
    cbn [snd pendingRequests getPending putPending ret].
    now apply wf_store_set.
  - intros now data. rewrite processHumanResponse_run.
    destruct (findPendingRequest (pendingRequests st) (rd_taskId data)
                                 (rd_agentId data)) as [[key req]|] eqn:F;
      [|exact W].
    cbv zeta.
    assert (E : id req = key).
    { destruct W as [_ I]. rewrite Forall_forall in I.
      exact (I (key, req) (findPendingRequest_In _ _ _ _ _ F)). }
    destruct (map_get (rd_agentId data) (activeAgents st));
      cbn [snd pendingRequests].
    + apply wf_store_delete. now apply wf_store_set.
    + now apply wf_store_set.
Qed.

(** C3, as stated, fails: the second call returns [null], it does not
    throw; and when the same request was made twice, the second
    resolution succeeds again. *)
Lemma second_resolve_counterexample :
  (exists p, fst (processHumanResponse (okEnv 0) 3000
                    (reply (js "APPROVAL: Yes")) st1) = Ok (Some p)) /\
  fst (processHumanResponse (okEnv 0) 4000 (reply (js "APPROVAL: Yes"))
         (snd (processHumanResponse (okEnv 0) 3000
                 (reply (js "APPROVAL: Yes")) st1))) = Ok None /\
  (exists p, fst (processHumanResponse (okEnv 0) 3000
                    (reply (js "APPROVAL: Yes")) st2) = Ok (Some p)) /\
  exists p,
    fst (processHumanResponse (okEnv 0) 4000 (reply (js "APPROVAL: Yes"))
           (snd (processHumanResponse (okEnv 0) 3000
                   (reply (js "APPROVAL: Yes")) st2))) = Ok (Some p).
Proof.
  split; [eexists; reflexivity|].
  split; [reflexivity|].
  split; eexists; reflexivity.
Qed.

(** C3 (amended).  In a store built by [requestHumanInput] that holds at
    most one pending request for the task and agent, once
    [processHumanResponse] has succeeded, a second call for the same
    task and agent returns [null] without throwing and leaves the
    pending requests, the agents and the trace as they are. *)
Theorem second_resolve_is_noop (env : Env) (now now' : Z)
    (data data' : ResponseData) (st st1 : State) (p : ParsedResponse) :
  wf_store (pendingRequests st) ->
  List.length (pendingFor (pendingRequests st) (rd_taskId data)
                          (rd_agentId data)) <= 1 ->
  processHumanResponse env now data st = (Ok (Some p), st1) ->
  rd_taskId data' = rd_taskId data ->
  rd_agentId data' = rd_agentId data ->
  processHumanResponse env now' data' st1 = (Ok None, st1).
Proof.
  intros W L R Et Ea. rewrite processHumanResponse_run in R.
  destruct (findPendingRequest (pendingRequests st) (rd_taskId data)
                               (rd_agentId data)) as [[key req]|] eqn:F;
    [|discriminate].
  cbv zeta in R.
  destruct (map_get (rd_agentId data) (activeAgents st)) as [a|];
    [|discriminate].
  injection R as _ <-.
  rewrite processHumanResponse_run. cbn [pendingRequests].
  rewrite Et, Ea.
  now rewrite (findPendingRequest_after_delete _ _ _ _ _ _ W L F).
Qed.

Lemma st1_wf : wf_store (pendingRequests st1).
Proof.
  split.
  - repeat constructor. simpl. tauto.
  - repeat constructor.
Qed.

Lemma second_resolve_is_noop_witness :
  processHumanResponse (okEnv 0) 4000 (reply (js "thanks"))
    (snd (processHumanResponse (okEnv 0) 3000
            (reply (js "APPROVAL: Yes")) st1))
  = (Ok None,
     snd (processHumanResponse (okEnv 0) 3000
            (reply (js "APPROVAL: Yes")) st1)).
Proof.
  apply (second_resolve_is_noop (okEnv 0) 3000 4000
           (reply (js "APPROVAL: Yes")) (reply (js "thanks")) st1 _
           (parseHumanResponse (js "APPROVAL: Yes"))).
  - exact st1_wf.
  - simpl. lia.
  - reflexivity.
  - reflexivity.
  - reflexivity.
Defined.

(** ** C1 *)

Lemma requestHumanInput_run (env : Env) (now : N) (task : Task)
    (ctx : Context) (st : State) (info : RepoInfo) (issue : Issue) :
  fst (extractRepositoryInfo (repository task) (metadata_repository task)
         st) = Ok info ->
  mcp_createGiteaIssue env (trace st ++ [issueEvent task ctx info])
  = Ok issue ->
  requestHumanInput env now task ctx st =
  (Ok issue,
   mkState (map_set (requestId now task) (newRequest now task ctx issue)
                    (pendingRequests st))
           (activeAgents st)
           (trace st ++ [issueEvent task ctx info])).
Proof.
  intros E O.
  destruct (extractRepositoryInfo_pure (repository task)
              (metadata_repository task)) as [o P].
  rewrite P in E. simpl in E. subst o.
  unfold requestHumanInput, createHumanInputIssue, bind.
  rewrite P. unfold external. fold (issueEvent task ctx info).
  rewrite O. reflexivity.
Qed.

Lemma requestId_inj (now now' : N) (task : Task) :
  requestId now task = requestId now' task -> now = now'.
Proof.
  unfold requestId. intro H.
  apply app_inv_head in H. apply app_inv_head in H.
  now apply decimal_inj.
Qed.

(** C1, as stated, fails: the same request made twice before any reply
    leaves two pending requests for the task and agent, under two ids,
    and two issues have been created. *)
Lemma request_idempotence_counterexample :
  List.length (pendingFor (pendingRequests st2) (js "t1") (js "a1")) = 2 /\
  map_keys (pendingRequests st2) = [js "t1_1000"; js "t1_2000"] /\
  List.length (filter isIssueCreation (trace st2)) = 2.
Proof. repeat split; reflexivity. Qed.

(** C1 (amended).  [requestHumanInput] looks for no earlier request.
    Whenever the repository of the task can be determined and the issue
    tracker accepts the issue, a call creates one issue and stores one
    pending request under the key made of the task id and the time; a
    second call for the same task and context at another time creates a
    second issue and a second pending request under another key, the
    first one staying pending. *)
Theorem request_creates_one_request_per_call (env : Env) (now1 now2 : N)
    (task : Task) (ctx : Context) (st : State) (info : RepoInfo)
    (issue1 issue2 : Issue) :
  fst (extractRepositoryInfo (repository task) (metadata_repository task)
         st) = Ok info ->
  mcp_createGiteaIssue env (trace st ++ [issueEvent task ctx info])
  = Ok issue1 ->
  mcp_createGiteaIssue env
    ((trace st ++ [issueEvent task ctx info]) ++ [issueEvent task ctx info])
  = Ok issue2 ->
  now1 <> now2 ->
  exists st1 st2,
    requestHumanInput env now1 task ctx st = (Ok issue1, st1) /\
    requestHumanInput env now2 task ctx st1 = (Ok issue2, st2) /\
    trace st1 = trace st ++ [issueEvent task ctx info] /\
    trace st2 = trace st1 ++ [issueEvent task ctx info] /\
    pendingRequests st1 =
    map_set (requestId now1 task) (newRequest now1 task ctx issue1)
            (pendingRequests st) /\
    requestId now1 task <> requestId now2 task /\
    map_get (requestId now1 task) (pendingRequests st2)
    = Some (newRequest now1 task ctx issue1) /\
    map_get (requestId now2 task) (pendingRequests st2)
    = Some (newRequest now2 task ctx issue2).
Proof.
  intros E O1 O2 D.
  pose proof (requestHumanInput_run env now1 task ctx st info issue1 E O1)
    as R1.
  destruct (extractRepositoryInfo_pure (repository task)
              (metadata_repository task)) as [o P].
  assert (E' : forall s,
             fst (extractRepositoryInfo (repository task)
                    (metadata_repository task) s) = Ok info).
  { intro s. rewrite P in *. exact E. }
  eexists. eexists. split; [exact R1|].
  split.
  { apply requestHumanInput_run; [apply E' | exact O2]. }
  cbn [trace pendingRequests].
  assert (Dk : requestId now1 task <> requestId now2 task).
  { intro H. apply D. exact (requestId_inj now1 now2 task H). }
  repeat split; try assumption.
  - rewrite map_get_set_other by assumption. apply map_get_set_same.
  - apply map_get_set_same.
Qed.

Lemma request_creates_one_request_per_call_witness :
  exists sa sb,
    requestHumanInput (okEnv 0) 1000 securityTask ctxA st0
    = (Ok (mkIssue 1), sa) /\
    requestHumanInput (okEnv 0) 2000 securityTask ctxA sa
    = (Ok (mkIssue 2), sb) /\
    trace sa = trace st0 ++ [issueEvent securityTask ctxA shopInfo] /\
    trace sb = trace sa ++ [issueEvent securityTask ctxA shopInfo] /\
    pendingRequests sa =
    map_set (requestId 1000 securityTask)
            (newRequest 1000 securityTask ctxA (mkIssue 1))
            (pendingRequests st0) /\
    requestId 1000 securityTask <> requestId 2000 securityTask /\
    map_get (requestId 1000 securityTask) (pendingRequests sb)
    = Some (newRequest 1000 securityTask ctxA (mkIssue 1)) /\
    map_get (requestId 2000 securityTask) (pendingRequests sb)
    = Some (newRequest 2000 securityTask ctxA (mkIssue 2)).
Proof.
  apply (request_creates_one_request_per_call (okEnv 0) 1000 2000
           securityTask ctxA st0 shopInfo (mkIssue 1) (mkIssue 2)).
  - reflexivity.
  - reflexivity.
  - reflexivity.
  - discriminate.
Defined.

(** ** C9 *)

Lemma map_get_Some_key {V} (m : Map V) (k : jsstring) (v : V) :
  map_get k m = Some v -> In k (map_keys m).
Proof.
  intro H. apply map_get_In in H. unfold map_keys.
  apply in_map_iff. now exists (k, v).
Qed.

Lemma cancelPendingRequest_effect (env : Env) (now : Z) (k reason : jsstring)
    (st : State) :
  exists r st',
    cancelPendingRequest env now k reason st = (r, st') /\
    pendingRequests st' = map_delete k (pendingRequests st) /\
    activeAgents st' = activeAgents st /\
    exists tail,
      trace st' = trace st ++ tail /\
      Forall (fun e => exists o n i t,
                  e = McpAddGiteaComment o n i (CancellationComment reason t))
             tail.
Proof.
  unfold cancelPendingRequest, bind, getPending.
  destruct (map_get k (pendingRequests st)) as [req|] eqn:G.
  - apply map_get_Some_key in G.
    unfold putPending, tryCatch, bind.
    destruct (extractRepositoryInfo_pure
                (Some match ctx_repository (context req) with
                      | Some r => r
                      | None => mkRepository None None None None
                      end)
                (ctx_metadata_repository (context req))) as [o P].
    rewrite P. destruct o as [info|e].
    + unfold external. cbn [trace pendingRequests activeAgents].
      destruct (mcp_addGiteaComment env _) as [[]|];
        (eexists; eexists; split; [reflexivity|];
         cbn [trace pendingRequests activeAgents];
         split; [now apply map_delete_set|]; split; [reflexivity|];
         eexists; split; [reflexivity|];
         constructor; [now repeat eexists | constructor]).
    + eexists. eexists. split; [reflexivity|].
      cbn [trace pendingRequests activeAgents].
      split; [now apply map_delete_set|]. split; [reflexivity|].
      exists []. split; [now rewrite List.app_nil_r | constructor].
  - apply map_get_None in G.
    eexists. eexists. split; [reflexivity|].
    split; [now rewrite map_delete_absent|]. split; [reflexivity|].
    exists []. split; [now rewrite List.app_nil_r | constructor].
Qed.

Lemma cancelAll_effect (env : Env) (now : Z) (ids : list jsstring)
    (st : State) :
  exists st',
    cancelAll env now ids st = (Ok tt, st') /\
    pendingRequests st' =
    fold_left (fun m k => map_delete k m) ids (pendingRequests st) /\
    activeAgents st' = activeAgents st /\
    exists tail, trace st' = trace st ++ tail /\
                 Forall isTimeoutNotice tail.
Proof.
  revert st. induction ids as [|k ids IH]; intro st.
  - exists st. repeat split.
    exists []. split; [now rewrite List.app_nil_r | constructor].
  - destruct (cancelPendingRequest_effect env now k
                (js "timeout - no response received") st)
      as [r [s1 [R [Pm [Pa [t1 [Pt F1]]]]]]].
    destruct (IH s1) as [s2 [R2 [Qm [Qa [t2 [Qt F2]]]]]].
    exists s2. split.
    + cbn [cancelAll]. unfold bind at 1. unfold tryCatch. rewrite R.
      destruct r as [[]|e]; exact R2.
    + split; [simpl; now rewrite Qm, Pm|].
      split; [congruence|].
      exists (t1 ++ t2). split.
      * now rewrite Qt, Pt, <- app_assoc.
      * apply Forall_app. split; assumption.
Qed.

Lemma NoDup_keys_inj {V} (m : Map V) (k : jsstring) (v v' : V) :
  NoDup (map_keys m) -> In (k, v) m -> In (k, v') m -> v = v'.
Proof.
  induction m as [|[k0 v0] m IH]; simpl; [tauto|].
  intro N. inversion N as [|? ? Hk Hm]; subst.
  intros [H|H] [H'|H'].
  - congruence.
  - injection H as -> ->. exfalso. apply Hk.
    unfold map_keys. apply in_map_iff. now exists (k, v').
  - injection H' as -> ->. exfalso. apply Hk.
    unfold map_keys. apply in_map_iff. now exists (k, v).
  - now apply IH.
Qed.

Lemma filter_filter {A} (f g : A -> bool) (l : list A) :
  filter f (filter g l) = filter (fun x => g x && f x) l.
Proof.
  induction l as [|x l IH]; [reflexivity|].
  simpl. destruct (g x); simpl; [destruct (f x)|]; now rewrite IH.
Qed.

Lemma delete_all_filter {V} (ids : list jsstring) (m : Map V) :
  NoDup (map_keys m) ->
  fold_left (fun m k => map_delete k m) ids m =
  filter (fun kv => negb (existsb (str_eqb (fst kv)) ids)) m.
Proof.
  revert m. induction ids as [|k ids IH]; intros m N.
  - simpl. induction m as [|x m IHm]; [reflexivity|].
    simpl. f_equal. apply IHm. now inversion N.
  - simpl fold_left. rewrite IH by now apply NoDup_map_delete.
    rewrite (map_delete_filter m k N), filter_filter.
    apply filter_ext. intros [k' v]. simpl.
    destruct (str_eqb k' k); reflexivity.
Qed.

Lemma In_map_get {V} (m : Map V) (k : jsstring) (v : V) :
  NoDup (map_keys m) -> In (k, v) m -> map_get k m = Some v.
Proof.
  intros N I. destruct (map_get k m) as [v'|] eqn:G.
  - apply map_get_In in G. f_equal. exact (NoDup_keys_inj m k v' v N G I).
  - apply map_get_None in G. exfalso. apply G.
    unfold map_keys. apply in_map_iff. now exists (k, v).
Qed.

Lemma map_get_after_delete {V} (m : Map V) (k k' : jsstring) :
  k' <> k -> map_get k' (map_delete k m) = map_get k' m.
Proof.
  intro D. induction m as [|[k0 v0] m IH]; [reflexivity|]. simpl.
  destruct (str_eqb k0 k) eqn:E; simpl.
  - apply str_eqb_eq in E. subst k0.
    destruct (str_eqb k k') eqn:E'; [|reflexivity].
    apply str_eqb_eq in E'. congruence.
  - now rewrite IH.
Qed.

Lemma contextRepository_run (c : Context) (st : State) :
  extractRepositoryInfo
    (Some (match ctx_repository c with
           | Some r => r
           | None => mkRepository None None None None
           end))
    (ctx_metadata_repository c) st
  = (contextRepository c, st).
Proof.
  unfold contextRepository.
  destruct (extractRepositoryInfo_pure
              (Some match ctx_repository c with
                    | Some r => r
                    | None => mkRepository None None None None
                    end)
              (ctx_metadata_repository c)) as [o P].
  now rewrite !P.
Qed.

(** One cancellation: the notice is attempted, then the request is
    gone, whatever the tracker answers. *)
Lemma cancelPendingRequest_run (env : Env) (now : Z) (k reason : jsstring)
    (r : Request) (st : State) :
  map_get k (pendingRequests st) = Some r ->
  cancelPendingRequest env now k reason st =
  (Ok tt, mkState (map_delete k (pendingRequests st)) (activeAgents st)
                  (trace st ++ cancellationNotice reason now r)).
Proof.
  intro G. pose proof (map_get_Some_key _ _ _ G) as K.
  unfold cancelPendingRequest, bind, getPending. rewrite G.
  unfold putPending, tryCatch, bind. rewrite contextRepository_run.
  unfold cancellationNotice.
  destruct (contextRepository (context r)) as [info|e].
  - unfold external. cbn [trace pendingRequests activeAgents].
    destruct (mcp_addGiteaComment env _) as [[]|]; unfold ret;
      cbn [trace pendingRequests activeAgents];
      now rewrite (map_delete_set _ _ _ K).
  - unfold ret. cbn [trace pendingRequests activeAgents].
    now rewrite (map_delete_set _ _ _ K), List.app_nil_r.
Qed.

Lemma cancelAll_run (env : Env) (now : Z) (l : list (jsstring * Request)) :
  NoDup (map fst l) ->
  forall st,
    (forall kr, In kr l ->
                map_get (fst kr) (pendingRequests st) = Some (snd kr)) ->
    cancelAll env now (map fst l) st =
    (Ok tt,
     mkState (fold_left (fun m k => map_delete k m) (map fst l)
                        (pendingRequests st))
             (activeAgents st)
             (trace st ++
              flat_map (fun kr => cancellationNotice timeoutReason now
                                    (snd kr)) l)).
Proof.
  induction l as [|[k r] l IH]; intros N st H.
  - simpl. rewrite List.app_nil_r. now destruct st.
  - inversion N as [|? ? Hk Hl]; subst.
    cbn [map fst cancelAll]. unfold bind at 1. unfold tryCatch.
    fold timeoutReason.
    rewrite (cancelPendingRequest_run env now k timeoutReason r st
               (H (k, r) (or_introl eq_refl))).
    rewrite IH.
    + cbn [trace pendingRequests activeAgents fold_left flat_map snd].
      now rewrite <- app_assoc.
    + exact Hl.
    + intros [k' r'] I. cbn [pendingRequests fst snd].
      rewrite map_get_after_delete.
      * apply (H (k', r')). now right.
      * intros ->. apply Hk. apply in_map_iff. now exists (k, r').
Qed.

Lemma NoDup_map_filter {A B} (g : A -> B) (f : A -> bool) (l : list A) :
  NoDup (map g l) -> NoDup (map g (filter f l)).
Proof.
  induction l as [|x l IH]; simpl; [constructor|].
  intro N. inversion N as [|? ? Hx Hl]; subst.
  destruct (f x); simpl; [|now apply IH].
  constructor; [|now apply IH].
  intro I. apply Hx. apply in_map_iff in I as [y [E I]].
  apply filter_In in I as [I _]. apply in_map_iff. now exists y.
Qed.

Lemma filter_all {A} (f : A -> bool) (l : list A) :
  (forall x, f x = true) -> filter f l = l.
Proof.
  intro H. induction l as [|x l IH]; [reflexivity|].
  simpl. now rewrite H, IH.
Qed.

Lemma filter_nothing {A} (f : A -> bool) (l : list A) :
  (forall x, f x = false) -> filter f l = [].
Proof.
  intro H. induction l as [|x l IH]; [reflexivity|].
  simpl. now rewrite H.
Qed.

(** C9, as stated, fails: the sweep removes the stale request and posts
    a notice whose reason is not "timeout"; it records nothing for the
    workflow engine and every agent is left as it was. *)
Lemma sweep_counterexample :
  pendingRequests
    (snd (cleanupOldRequests (okEnv 0) (1000 + 25 * 3600000) 24 st1)) = [] /\
  trace (snd (cleanupOldRequests (okEnv 0) (1000 + 25 * 3600000) 24 st1)) =
  trace st1 ++
  [McpAddGiteaComment (Some (js "acme")) (Some (js "shop")) 1
     (CancellationComment (js "timeout - no response received")
                          (1000 + 25 * 3600000))] /\
  js "timeout - no response received" <> js "timeout" /\
  filter isWorkflowEvent
    (trace (snd (cleanupOldRequests (okEnv 0) (1000 + 25 * 3600000) 24
                   st1))) = [] /\
  activeAgents
    (snd (cleanupOldRequests (okEnv 0) (1000 + 25 * 3600000) 24 st1))
  = activeAgents st1.
Proof. repeat split; try reflexivity. discriminate. Qed.

(** C9 (amended).  On a store with distinct keys, as every [Map] is,
    [cleanupOldRequests] always completes, and what it leaves is
    determined.  The requests it takes are those still pending and
    created before the cut-off, [maxAgeHours] hours before now.  Each of
    them is removed from the pending set, the others are kept in order.
    For each of them, in the order of the store, one cancellation
    comment with the reason "timeout - no response received" is sent to
    its issue when its context names a repository, and none when it
    does not; whether the tracker accepts a comment changes nothing.
    Nothing else is sent: the agents are left as they are and neither
    the workflow engine nor the task is told.  When [maxAgeHours] is not
    a number, or so large that the cut-off is not a valid date, no
    request is taken and nothing happens at all. *)
Theorem sweep_cancels_stale_requests (env : Env) (now : Z)
    (maxAgeHours : JsNumber) (st : State) :
  NoDup (map_keys (pendingRequests st)) ->
  cleanupOldRequests env now maxAgeHours st =
  (Ok tt,
   mkState
     (filter (fun kr => negb (isStale now maxAgeHours kr))
             (pendingRequests st))
     (activeAgents st)
     (trace st ++
      flat_map (fun kr => cancellationNotice timeoutReason now (snd kr))
               (filter (isStale now maxAgeHours) (pendingRequests st)))) /\
  (newDate (hoursBefore now maxAgeHours) = None ->
   cleanupOldRequests env now maxAgeHours st = (Ok tt, st)).
Proof.
  intro N.
  assert (R : cleanupOldRequests env now maxAgeHours st =
              (Ok tt,
               mkState
                 (filter (fun kr => negb (isStale now maxAgeHours kr))
                         (pendingRequests st))
                 (activeAgents st)
                 (trace st ++
                  flat_map (fun kr => cancellationNotice timeoutReason now
                                        (snd kr))
                           (filter (isStale now maxAgeHours)
                                   (pendingRequests st))))).
  { unfold cleanupOldRequests, bind, getPending.
    change (fun kr : jsstring * Request =>
              dateBefore (createdAt (snd kr))
                         (newDate (hoursBefore now maxAgeHours)) &&
              status_eqb (status (snd kr)) pending)
      with (isStale now maxAgeHours).
    rewrite cancelAll_run.
    - f_equal. f_equal. rewrite (delete_all_filter _ _ N).
      apply filter_ext_in. intros [k r] I. f_equal.
      destruct (isStale now maxAgeHours (k, r)) eqn:S.
      + apply existsb_exists. exists k. split; [|apply str_eqb_refl].
        apply in_map_iff. exists (k, r). split; [reflexivity|].
        apply filter_In. now split.
      + destruct (existsb (str_eqb (fst (k, r))) _) eqn:X; [|reflexivity].
        apply existsb_exists in X as [k' [I' E]].
        apply str_eqb_eq in E. simpl in E. subst k'.
        apply in_map_iff in I' as [[k' r'] [E I']]. simpl in E. subst k'.
        apply filter_In in I' as [I' S'].
        rewrite (NoDup_keys_inj _ k r r' N I I') in S. congruence.
    - now apply NoDup_map_filter.
    - intros [k r] I. apply filter_In in I as [I _].
      now apply In_map_get. }
  split; [exact R|].
  intro C. rewrite R.
  assert (S : forall kr, isStale now maxAgeHours kr = false).
  { intro kr. unfold isStale. now rewrite C. }
  rewrite (filter_nothing _ _ S), filter_all by (intro; now rewrite S).
  simpl. rewrite List.app_nil_r. now destruct st.
Qed.

Lemma sweep_cancels_stale_requests_witness :
  cleanupOldRequests (okEnv 0) (1000 + 25 * 3600000) 24 st2 =
  (Ok tt,
   mkState [] (activeAgents st2)
     (trace st2 ++
      [ McpAddGiteaComment (Some (js "acme")) (Some (js "shop")) 1
          (CancellationComment timeoutReason (1000 + 25 * 3600000));
        McpAddGiteaComment (Some (js "acme")) (Some (js "shop")) 2
          (CancellationComment timeoutReason (1000 + 25 * 3600000)) ])).
Proof.
  apply (proj1 (sweep_cancels_stale_requests (okEnv 0)
                  (1000 + 25 * 3600000) 24 st2
                  ltac:(repeat constructor; simpl; intuition discriminate))).
Defined.

(** The cut-off is not a date: nothing is swept, however old the
    requests are. *)
Lemma sweep_without_cutoff_example :
  cleanupOldRequests (okEnv 0) (1000 + 25 * 3600000) NaN st2 = (Ok tt, st2) /\
  cleanupOldRequests (okEnv 0) (1000 + 25 * 3600000)
    (-2400000000000) st2 = (Ok tt, st2) /\
  pendingRequests st2 <> [].
Proof. repeat split; discriminate. Qed.

End HumanLoopFacts.

(* ================================================================== *)
(** * The development workflow *)

Module WorkflowFacts.

Import Examples MoreExamples.

(** ** The verification policy *)

Lemma truthy_js_or (a b : JsVal) :
  truthy (js_or a b) = truthy a || truthy b.
Proof. unfold js_or. destruct (truthy a) eqn:E; [now rewrite E | reflexivity]. Qed.

Lemma truthy_js_and (a b : JsVal) :
  truthy (js_and a b) = truthy a && truthy b.
Proof. unfold js_and. destruct (truthy a) eqn:E; [reflexivity | now rewrite E]. Qed.

Lemma indicators_lower (kw : jsstring) :
  In kw complexityIndicators -> toLowerCase kw = kw.
Proof.
  simpl. intros [H|[H|[H|[H|[H|[H|[H|[H|[H|[]]]]]]]]]]; subst kw;
    reflexivity.
Qed.

Lemma isComplex_spec (desc plan : jsstring) :
  existsb (fun indicator =>
             includes (toLowerCase desc) indicator ||
             includes (toLowerCase plan) indicator)
          complexityIndicators = true <->
  exists kw, In kw complexityIndicators /\
             (containsIgnoringCase desc kw \/ containsIgnoringCase plan kw).
Proof.
  rewrite existsb_exists. split.
  - intros [kw [I H]]. exists kw. split; [exact I|].
    rewrite <- (indicators_lower kw I) in H.
    apply orb_true_iff in H as [H|H]; [left | right];
      now apply includes_toLowerCase.
  - intros [kw [I H]]. exists kw. split; [exact I|].
    rewrite <- (indicators_lower kw I).
    apply orb_true_iff.
    destruct H as [H|H]; [left | right]; now apply includes_toLowerCase.
Qed.

Lemma shouldVerifyOutcome_spec (plan : Plan) (task : Task) :
  truthy (shouldVerifyOutcome plan task) = true <->
  verificationRequired plan task.
Proof.
  unfold shouldVerifyOutcome, verificationRequired.
  rewrite !truthy_js_or, !truthy_js_and. cbn [truthy].
  rewrite !orb_true_iff, !andb_true_iff, isComplex_spec, !Nat.ltb_lt.
  split.
  - intros [[H|[_ H]]|[_ H]]; tauto.
  - intros [H|[H|H]].
    + tauto.
    + left. right. split; [|exact H].
      destruct (risks plan); [simpl in H; lia | reflexivity].
    + right. split; [|exact H].
      destruct (files plan); [simpl in H; lia | reflexivity].
Qed.

(** ** Running a computation step by step *)

Lemma withTrace_nil (st : State) : withTrace st (trace st ++ []) = st.
Proof. destruct st. unfold withTrace. simpl. now rewrite List.app_nil_r. Qed.

Lemma withTrace_app (st : State) (t1 t2 : list Event) :
  withTrace (withTrace st (trace st ++ t1))
            (trace (withTrace st (trace st ++ t1)) ++ t2)
  = withTrace st (trace st ++ t1 ++ t2).
Proof. unfold withTrace. simpl. now rewrite app_assoc. Qed.

Lemma bind_inv {A B : Type} (m : M A) (f : A -> M B) (st st' : State)
    (b : B) :
  bind m f st = (Ok b, st') ->
  exists a s1, m st = (Ok a, s1) /\ f a s1 = (Ok b, st').
Proof.
  unfold bind. destruct (m st) as [[a|e] s1]; [|discriminate].
  intro H. now exists a, s1.
Qed.

Lemma bind_ok {A B : Type} (m : M A) (f : A -> M B) (st s1 : State) (a : A) :
  m st = (Ok a, s1) -> bind m f st = f a s1.
Proof. unfold bind. now intros ->. Qed.

Lemma bind_throw {A B : Type} (m : M A) (f : A -> M B) (st s1 : State)
    (e : Error) :
  m st = (Throw e, s1) -> bind m f st = (Throw e, s1).
Proof. unfold bind. now intros ->. Qed.

Lemma external_run {A : Type} (ev : Event)
    (oracle : list Event -> Outcome A) (st : State) :
  external ev oracle st =
  (oracle (trace st ++ [ev]), withTrace st (trace st ++ [ev])).
Proof. reflexivity. Qed.

Lemma deref_inv {A : Type} (o : option A) (st st' : State) (a : A) :
  deref o st = (Ok a, st') -> o = Some a /\ st' = st.
Proof.
  destruct o as [a'|]; [|discriminate]. intro H. injection H as <- <-.
  now split.
Qed.

(** ** Computations that only make calls *)

Lemma calls_ret {A : Type} (n : nat) (a : A) : callsAtMost n (ret a).
Proof.
  intro st. exists []. simpl.
  split; [symmetry; apply withTrace_nil | lia].
Qed.

Lemma calls_throw {A : Type} (n : nat) (e : Error) :
  callsAtMost n (@throw A e).
Proof.
  intro st. exists []. simpl.
  split; [symmetry; apply withTrace_nil | lia].
Qed.

Lemma calls_deref {A : Type} (n : nat) (o : option A) :
  callsAtMost n (deref o).
Proof. destruct o; [apply calls_ret | apply calls_throw]. Qed.

Lemma calls_external {A : Type} (n : nat) (ev : Event)
    (oracle : list Event -> Outcome A) :
  1 <= n -> callsAtMost n (external ev oracle).
Proof. intros L st. exists [ev]. split; [reflexivity | simpl; lia]. Qed.

Lemma calls_bind {A B : Type} (n k j : nat) (m : M A) (f : A -> M B) :
  n + k <= j -> callsAtMost n m -> (forall a, callsAtMost k (f a)) ->
  callsAtMost j (bind m f).
Proof.
  intros L Hm Hf st. unfold bind.
  destruct (Hm st) as [t [T Lt]].
  destruct (m st) as [[a|e] s1]; cbn [snd] in *; subst s1.
  - destruct (Hf a (withTrace st (trace st ++ t))) as [t' [T' Lt']].
    exists (t ++ t'). split; [|rewrite length_app; lia].
    rewrite T'. apply withTrace_app.
  - exists t. split; [reflexivity | lia].
Qed.

Lemma calls_tryCatch {A : Type} (n k j : nat) (m : M A)
    (h : Error -> M A) :
  n + k <= j -> callsAtMost n m -> (forall e, callsAtMost k (h e)) ->
  callsAtMost j (tryCatch m h).
Proof.
  intros L Hm Hh st. unfold tryCatch.
  destruct (Hm st) as [t [T Lt]].
  destruct (m st) as [[a|e] s1]; cbn [snd] in *; subst s1.
  - exists t. split; [reflexivity | lia].
  - destruct (Hh e (withTrace st (trace st ++ t))) as [t' [T' Lt']].
    exists (t ++ t'). split; [|rewrite length_app; lia].
    rewrite T'. apply withTrace_app.
Qed.

Lemma calls_outward {A : Type} (n : nat) (m : M A) :
  callsAtMost n m -> outwardOnly m.
Proof.
  intros H st. destruct (H st) as [t [T _]]. rewrite T. simpl.
  repeat split. now exists t.
Qed.

Create HintDb calls.

(** No call at all. *)
Ltac silent :=
  repeat first
    [ apply calls_ret
    | apply calls_throw
    | apply calls_deref
    | apply (calls_bind 0 0); [lia | | intro]
    | match goal with
      | |- callsAtMost _ (match ?x with _ => _ end) => destruct x
      end ].

(** At most one call on every path. *)
Ltac one_call :=
  repeat first
    [ apply calls_ret
    | apply calls_throw
    | apply calls_deref
    | apply calls_external; lia
    | solve [auto 1 with calls]
    | apply (calls_bind 0 1); [lia | solve [silent] | intro]
    | apply (calls_bind 1 0); [lia | | intro; solve [silent]]
    | match goal with
      | |- callsAtMost _ (match ?x with _ => _ end) => destruct x
      end ].

Lemma calls_executeInContainer (env : Env) (containerId : option jsstring)
    (command : jsstring) (timeout : option N) :
  callsAtMost 1
    (ContainerService.executeInContainer env containerId command timeout).
Proof. unfold ContainerService.executeInContainer. one_call. Qed.
#[export] Hint Resolve calls_executeInContainer : calls.

Lemma calls_containerTests (env : Env) (containerId testCommand : option jsstring) :
  callsAtMost 1 (ContainerService.runTests env containerId testCommand).
Proof. unfold ContainerService.runTests. one_call. Qed.
#[export] Hint Resolve calls_containerTests : calls.

Lemma calls_installDependencies (env : Env)
    (containerId packageManager : option jsstring) :
  callsAtMost 1
    (ContainerService.installDependencies env containerId packageManager).
Proof. unfold ContainerService.installDependencies. one_call. Qed.
#[export] Hint Resolve calls_installDependencies : calls.

Lemma calls_failUnlessZero (what : jsstring)
    (result : ContainerService.ExecResult) :
  callsAtMost 0 (failUnlessZero what result).
Proof. unfold failUnlessZero. silent. Qed.

Lemma calls_readFileInContainer (env : Env) (agent : Agent)
    (filePath : option jsstring) :
  callsAtMost 1 (readFileInContainer env agent filePath).
Proof.
  unfold readFileInContainer.
  apply (calls_bind 1 0); [lia | auto with calls | intro].
  apply calls_failUnlessZero.
Qed.
#[export] Hint Resolve calls_readFileInContainer : calls.

Lemma calls_writeFileInContainer (env : Env) (agent : Agent)
    (filePath content : option jsstring) :
  callsAtMost 1 (writeFileInContainer env agent filePath content).
Proof.
  unfold writeFileInContainer.
  apply (calls_bind 0 1); [lia | apply calls_deref | intro].
  apply (calls_bind 1 0); [lia | auto with calls | intro].
  apply calls_failUnlessZero.
Qed.
#[export] Hint Resolve calls_writeFileInContainer : calls.

Lemma calls_executeCommandInContainer (env : Env) (agent : Agent)
    (command : option jsstring) :
  callsAtMost 1 (executeCommandInContainer env agent command).
Proof. unfold executeCommandInContainer. one_call. Qed.
#[export] Hint Resolve calls_executeCommandInContainer : calls.

Lemma calls_executeGitInContainer (env : Env) (agent : Agent)
    (operation : option jsstring) (params : option GitArgs) :
  callsAtMost 1 (executeGitInContainer env agent operation params).
Proof. unfold executeGitInContainer. one_call. Qed.
#[export] Hint Resolve calls_executeGitInContainer : calls.

Lemma calls_searchCodeInContainer (env : Env) (agent : Agent)
    (pattern : option jsstring) :
  callsAtMost 1 (searchCodeInContainer env agent pattern).
Proof. unfold searchCodeInContainer. one_call. Qed.
#[export] Hint Resolve calls_searchCodeInContainer : calls.

(** One action makes at most one call. *)
Lemma calls_performAction (env : Env) (agent : Agent) (action : Action) :
  callsAtMost 1 (performAction env agent action).
Proof. unfold performAction. cbv zeta. one_call. Qed.

(** The actions make at most one call each. *)
Lemma calls_executeActions (env : Env) (agent : Agent)
    (actions : list Action) :
  callsAtMost (List.length actions) (executeActions env agent actions).
Proof.
  induction actions as [|action rest IH]; [apply calls_ret|].
  cbn [executeActions List.length].
  apply (calls_bind 1 (List.length rest)); [lia | | intro result].
  - apply (calls_tryCatch 1 0); [lia | | intro; apply calls_ret].
    apply (calls_bind 1 0); [lia | apply calls_performAction |].
    intro. apply calls_ret.
  - apply (calls_bind (List.length rest) 0); [lia | exact IH |].
    intro. apply calls_ret.
Qed.


(** ** The agent at work *)

Lemma queryAgent_run (env : Env) (agent : Agent) (prompt : Prompt)
    (st : State) :
  queryAgent env agent prompt st =
  (llm_create env (trace st ++ [modelQuery agent prompt]),
   withTrace st (trace st ++ [modelQuery agent prompt])) \/
  (exists e, queryAgent env agent prompt st = (Throw e, st)).
Proof.
  unfold queryAgent, modelQuery.
  destruct (str_eqb (agent_type agent) (js "claude")) eqn:C.
  - apply str_eqb_eq in C. rewrite C. now left.
  - destruct (str_eqb (agent_type agent) (js "openai")) eqn:O.
    + apply str_eqb_eq in O. rewrite O. now left.
    + right. now eexists.
Qed.

Lemma queryAgent_inv (env : Env) (agent : Agent) (prompt : Prompt)
    (st st' : State) (response : jsstring) :
  queryAgent env agent prompt st = (Ok response, st') ->
  st' = withTrace st (trace st ++ [modelQuery agent prompt]) /\
  llm_create env (trace st ++ [modelQuery agent prompt]) = Ok response.
Proof.
  destruct (queryAgent_run env agent prompt st) as [R|[e R]];
    rewrite R; [|discriminate].
  intro H. injection H as H1 H2. now split.
Qed.



(** ** The stages before the branch *)

Lemma analyzeRequirements_inv (env : Env) (agent : Agent) (task : Task)
    (st st' : State) (questions : option (list jsstring)) :
  analyzeRequirements env agent task st = (Ok questions, st') ->
  st' = withTrace st
          (trace st ++
           [modelQuery agent
              (AnalysisPrompt (description task)
                 (orElse (additionalContext task) (js "None provided")))]).
Proof.
  unfold analyzeRequirements. intro H.
  apply bind_inv in H as [response [s1 [Q H]]].
  apply queryAgent_inv in Q as [-> _].
  destruct (includes response _); unfold ret in H; now injection H as _ <-.
Qed.

Lemma createImplementationPlan_inv (env : Env) (agent : Agent) (task : Task)
    (st st' : State) (plan : Plan) :
  createImplementationPlan env agent task st = (Ok plan, st') ->
  exists repo,
    repository task = Some repo /\
    st' = withTrace st
            (trace st ++
             [modelQuery agent
                (PlanningPrompt (description task)
                   (orElse (additionalContext task) (js "None"))
                   (url repo))]).
Proof.
  unfold createImplementationPlan. intro H.
  apply bind_inv in H as [repo [s1 [D H]]].
  apply deref_inv in D as [R ->].
  apply bind_inv in H as [response [s2 [Q H]]].
  apply queryAgent_inv in Q as [-> _].
  unfold ret in H. injection H as _ <-. now exists repo.
Qed.

(** [config.agentOrchestrator] is [undefined]: the status of a task is
    never sent anywhere. *)
Lemma updateTaskStatus_run (env : Env) (t s : jsstring) (m : TaskMetadata)
    (st : State) :
  updateTaskStatus env t s m st = (Ok tt, st).
Proof. reflexivity. Qed.

(** ** C7 *)

(** C7.  After planning, [shouldVerifyOutcome] asks for verification
    exactly when a risk keyword occurs, up to case, in the description or
    in the plan text, or the risks section is longer than 50 code units,
    or the files section has more than three lines.  When the
    description contains "security", the workflow stops right after
    planning and creates no branch.  What it sends, however, is not the
    verification request it has built: [giteaClient.createIssue] takes
    the one object it is handed for the owner, so the request goes to
    the path made of that object and of [undefined], without title,
    plan or labels.  The workflow returns [awaiting_verification] when
    the tracker accepts that request and throws the tracker's error on
    when it does not; the status of the task is not updated in either
    case. *)
Theorem verification_policy :
  (forall plan task,
      truthy (shouldVerifyOutcome plan task) = true <->
      verificationRequired plan task) /\
  (forall env now agent task st st1 st2 plan,
      analyzeRequirements env agent task st = (Ok None, st1) ->
      createImplementationPlan env agent task st1 = (Ok plan, st2) ->
      containsIgnoringCase (description task) (js "security") ->
      exists repo,
        repository task = Some repo /\
        executeWorkflow env now agent task st =
        (match gitea_createIssue env (trace st2 ++ [optionsIssueRequest]) with
         | Ok _ => Ok awaitingVerification
         | Throw e => Throw e
         end,
         withTrace st2 (trace st2 ++ [optionsIssueRequest])) /\
        optionsIssueRequest <> verificationIssueEvent task plan repo /\
        filter isBranchCreation (trace st2 ++ [optionsIssueRequest])
        = filter isBranchCreation (trace st) /\
        filter isTaskUpdate (trace st2 ++ [optionsIssueRequest])
        = filter isTaskUpdate (trace st)).
Proof.
  split; [exact shouldVerifyOutcome_spec|].
  intros env now agent task st st1 st2 plan HA HP HS.
  assert (V : truthy (shouldVerifyOutcome plan task) = true).
  { apply shouldVerifyOutcome_spec. left. exists (js "security").
    split; [simpl; tauto | now left]. }
  pose proof (analyzeRequirements_inv _ _ _ _ _ _ HA) as T1.
  destruct (createImplementationPlan_inv _ _ _ _ _ _ HP) as [repo [R T2]].
  exists repo. split; [exact R|]. split; [|split; [|split]].
  - unfold executeWorkflow.
    rewrite (bind_ok _ _ _ _ _ HA). rewrite (bind_ok _ _ _ _ _ HP).
    rewrite V. unfold requestOutcomeVerification, GiteaClient.createIssue.
    unfold bind, deref. rewrite R. unfold ret at 1.
    rewrite external_run. fold optionsIssueRequest.
    destruct (gitea_createIssue env _) as [issue|e]; reflexivity.
  - unfold optionsIssueRequest, verificationIssueEvent. congruence.
  - rewrite T2, T1. unfold withTrace. cbn [trace].
    rewrite !filter_app. simpl. now rewrite !List.app_nil_r.
  - rewrite T2, T1. unfold withTrace. cbn [trace].
    rewrite !filter_app. simpl. now rewrite !List.app_nil_r.
Qed.

Lemma security_in_description :
  containsIgnoringCase (description securityTask) (js "security").
Proof. exists (js "Add "), (js "security"), (js " headers"). now split. Qed.

Lemma verification_policy_witness :
  exists repo,
    repository securityTask = Some repo /\
    executeWorkflow (okEnv 0) 1700000000123 agentA securityTask st0 =
    (Ok awaitingVerification,
     withTrace st0
       [ modelQuery agentA
           (AnalysisPrompt (description securityTask) (js "None provided"));
         modelQuery agentA
           (PlanningPrompt (description securityTask) (js "None")
                           (url shop));
         optionsIssueRequest ]) /\
    optionsIssueRequest
    <> verificationIssueEvent securityTask
         (parseImplementationPlan (okEnv 0) (js "REQUIREMENTS_CLEAR")) repo /\
    filter isBranchCreation
      (trace (snd (createImplementationPlan (okEnv 0) agentA securityTask
                     (snd (analyzeRequirements (okEnv 0) agentA
                             securityTask st0)))) ++ [optionsIssueRequest])
    = filter isBranchCreation (trace st0) /\
    filter isTaskUpdate
      (trace (snd (createImplementationPlan (okEnv 0) agentA securityTask
                     (snd (analyzeRequirements (okEnv 0) agentA
                             securityTask st0)))) ++ [optionsIssueRequest])
    = filter isTaskUpdate (trace st0).
Proof.
  apply (proj2 verification_policy (okEnv 0) 1700000000123%N agentA
           securityTask st0
           (snd (analyzeRequirements (okEnv 0) agentA securityTask st0))
           (snd (createImplementationPlan (okEnv 0) agentA securityTask
                   (snd (analyzeRequirements (okEnv 0) agentA securityTask
                           st0))))
           (parseImplementationPlan (okEnv 0) (js "REQUIREMENTS_CLEAR"))).
  - reflexivity.
  - reflexivity.
  - exact security_in_description.
Defined.

(** ** C8 *)





(** The model asks for a file to be written and for the tests to be
    run: the agent does both, but [runTests] reads neither result and
    commits right after. *)
Lemma agent_fix_example :
  runTests actingEnv agentA footerTask st0 =
  (Ok (Ran (mkTestResults 1 (Some (js "1 failing")) None)),
   withTrace st0
     (testRunEvent agentA ::
      modelQuery agentA
        (fixPrompt (mkTestResults 1 (Some (js "1 failing")) None)) ::
      McpWriteFile (Some (js "src/footer.js")) (Some (js "done")) ::
      McpExecuteCommand (Some (js "npm test")) (workingDirectory agentA) ::
      fixCommitEvents shop)).
Proof. reflexivity. Qed.

End WorkflowFacts.

(* ================================================================== *)
(** * Further properties of the parsers *)

Module ParserExtras.

Import Examples ParserFacts.

(** ** A repeated prefix restarts the capture *)

(** X1.  When a second line starting with the same prefix follows the
    first before any stopping line, what was captured so far is dropped:
    the content is what is captured from the second line on. *)
Theorem repeated_prefix_restarts_capture
    (p text r0 l0 r1 l1 : jsstring) (pre mid body rest : list jsstring) :
  solid p = true ->
  split LF text = pre ++ l0 :: mid ++ l1 :: body ++ rest ->
  (forall l, In l pre -> startsWith (trim l) p = false) ->
  trim l0 = p ++ r0 ->
  (forall l, In l mid -> startsWith (trim l) p = false /\
                         matchesUpperColon (trim l) = false) ->
  trim l1 = p ++ r1 ->
  (forall l, In l body -> startsWith (trim l) p = false /\
                          matchesUpperColon (trim l) = false) ->
  (rest = [] \/
   exists l rest', rest = l :: rest' /\
                   startsWith (trim l) p = false /\
                   matchesUpperColon (trim l) = true) ->
  extractStructuredContent text p =
  trim (join (js " ") (trim r1 :: filter truthyStr (map trim body))).
Proof.
  intros S Sp Hpre E0 Hmid E1 Hbody Hrest.
  unfold extractStructuredContent. rewrite Sp.
  rewrite (extractLoop_skip p pre _ [] Hpre).
  rewrite (extractLoop_start p l0 r0 _ [] false S E0).
  rewrite (extractLoop_body p mid _ _ Hmid).
  rewrite (extractLoop_start p l1 r1 _ _ true S E1).
  rewrite (extractLoop_body p body rest _ Hbody).
  rewrite join_fold.
  destruct Hrest as [->|[l [rest' [-> [H1 H2]]]]].
  - reflexivity.
  - now rewrite (extractLoop_stop p l rest' _ H1 H2).
Qed.

Lemma repeated_prefix_restarts_capture_witness :
  extractStructuredContent
    (js ("DECISION: ship today" ++ nl ++ "or tomorrow" ++ nl ++
         "DECISION: wait" ++ nl ++ "a week"))
    (js "DECISION:")
  = trim (join (js " ")
            (trim (js " wait") ::
             filter truthyStr (map trim [js "a week"]))).
Proof.
  apply (repeated_prefix_restarts_capture
           (js "DECISION:") _ (js " ship today") (js "DECISION: ship today")
           (js " wait") (js "DECISION: wait")
           [] [js "or tomorrow"] [js "a week"] []).
  - reflexivity.
  - reflexivity.
  - intros l [].
  - reflexivity.
  - intros l [<-|[]]. split; reflexivity.
  - reflexivity.
  - intros l [<-|[]]. split; reflexivity.
  - now left.
Defined.

(** ** A prefix that starts no line captures nothing *)

Lemma extract_without_leading_line (text p : jsstring) :
  (forall l, In l (split LF text) -> startsWith (trim l) p = false) ->
  extractStructuredContent text p = [].
Proof.
  intro H. unfold extractStructuredContent.
  rewrite <- (List.app_nil_r (split LF text)).
  now rewrite (extractLoop_skip p (split LF text) [] [] H).
Qed.

(** X2.  The type is decided by an occurrence of the prefix anywhere, the
    content by lines that start with it: when the deciding prefix starts
    no line of the trimmed text, the parse has that type and an empty
    content, and an approval is then not approved. *)
Theorem midline_prefix_gives_empty_content (text : jsstring)
    (t : ResponseType) (p : jsstring) :
  firstPrefix typePrefixes text = Some (t, p) ->
  (forall l, In l (split LF (trim text)) -> startsWith (trim l) p = false) ->
  type (parseHumanResponse text) = t /\
  content (parseHumanResponse text) = [] /\
  (t = approval -> approved (parseHumanResponse text) = Some false).
Proof.
  intros F H. rewrite parse_unfold. cbv zeta.
  unfold typePrefixes, firstPrefix in F.
  destruct (includes text (js "DECISION:"));
    [injection F as <- <-; repeat split;
       [now apply extract_without_leading_line | discriminate]|].
  destruct (includes text (js "CODE:"));
    [injection F as <- <-; repeat split;
       [now apply extract_without_leading_line | discriminate]|].
  destruct (includes text (js "GUIDANCE:"));
    [injection F as <- <-; repeat split;
       [now apply extract_without_leading_line | discriminate]|].
  destruct (includes text (js "APPROVAL:")).
  { injection F as <- <-. cbn [type content approved].
    assert (E : extractStructuredContent (trim text) (js "APPROVAL:") = [])
      by (apply extract_without_leading_line; exact H).
    rewrite E. now repeat split. }
  destruct (includes text (js "QUESTION:"));
    [injection F as <- <-; repeat split;
       [now apply extract_without_leading_line | discriminate]|].
  discriminate.
Qed.

Lemma midline_prefix_gives_empty_content_witness :
  type (parseHumanResponse (js "my APPROVAL: Yes of course")) = approval /\
  content (parseHumanResponse (js "my APPROVAL: Yes of course")) = [] /\
  (approval = approval ->
   approved (parseHumanResponse (js "my APPROVAL: Yes of course"))
   = Some false).
Proof.
  apply (midline_prefix_gives_empty_content
           (js "my APPROVAL: Yes of course") approval (js "APPROVAL:")).
  - reflexivity.
  - intros l [<-|[]]. reflexivity.
Defined.

(** ** [parseVerification] approves on an explicit yes only *)

Lemma approvalMatch_occurrence (s g : jsstring) :
  approvalMatch s = Some g ->
  exists a b, s = a ++ b /\ approvalAt b = Some g.
Proof.
  induction s as [|x s IH]; cbn [approvalMatch].
  - destruct (approvalAt []) eqn:A; [|discriminate].
    intro H. injection H as ->. now exists [], [].
  - destruct (approvalAt (x :: s)) eqn:A.
    + intro H. injection H as ->. now exists [], (x :: s).
    + intro H. destruct (IH H) as [a [b [-> B]]]. now exists (x :: a), b.
Qed.

Lemma approvalAt_inv (b g : jsstring) :
  approvalAt b = Some g ->
  startsWithIgnoreCase b (js "APPROVAL:") = true /\
  ((g = js "yes" /\
    startsWithIgnoreCase (dropWhile isWhiteSpace (skipn 9 b)) (js "Yes")
    = true) \/
   (g = js "no" /\
    startsWithIgnoreCase (dropWhile isWhiteSpace (skipn 9 b)) (js "No")
    = true)).
Proof.
  unfold approvalAt.
  destruct (startsWithIgnoreCase b (js "APPROVAL:")); [|discriminate].
  destruct (startsWithIgnoreCase (dropWhile isWhiteSpace (skipn 9 b))
                                 (js "Yes")) eqn:Y.
  - intro H. injection H as <-. split; [reflexivity|]. now left.
  - destruct (startsWithIgnoreCase (dropWhile isWhiteSpace (skipn 9 b))
                                   (js "No")) eqn:N; [|discriminate].
    intro H. injection H as <-. split; [reflexivity|]. now right.
Qed.

(** X3.  [parseVerification] never approves by default: [approved] is
    true only if the text holds, at some position, "APPROVAL:" followed
    by optional white space and "yes", both up to case.  And when the
    text itself starts with "APPROVAL:" followed by "no", it is not
    approved whatever comes after. *)
Theorem verification_needs_explicit_yes (c : jsstring) :
  (v_approved (parseVerification c) = true ->
   exists a b,
     c = a ++ b /\
     startsWithIgnoreCase b (js "APPROVAL:") = true /\
     startsWithIgnoreCase (dropWhile isWhiteSpace (skipn 9 b)) (js "Yes")
     = true) /\
  (startsWithIgnoreCase c (js "APPROVAL:") = true ->
   startsWithIgnoreCase (dropWhile isWhiteSpace (skipn 9 c)) (js "No")
   = true ->
   v_approved (parseVerification c) = false).
Proof.
  split.
  - unfold parseVerification. cbn [v_approved].
    destruct (approvalMatch c) as [g|] eqn:M; [|discriminate].
    intro G. apply str_eqb_eq in G. subst g.
    destruct (approvalMatch_occurrence c _ M) as [a [b [E A]]].
    exists a, b. split; [exact E|].
    destruct (approvalAt_inv b _ A) as [S [[_ Y]|[N _]]];
      [now split | discriminate].
  - intros A N. unfold parseVerification. cbn [v_approved].
    assert (M : approvalMatch c = Some (js "no")).
    { destruct c as [|x c]; cbn [approvalMatch]; unfold approvalAt;
        rewrite A.
      - discriminate.
      - destruct (startsWithIgnoreCase
                    (dropWhile isWhiteSpace (skipn 9 (x :: c))) (js "Yes"))
          eqn:Y.
        + exfalso. unfold startsWithIgnoreCase in Y, N.
          apply startsWith_spec in Y as [r1 Y].
          apply startsWith_spec in N as [r2 N].
          rewrite Y in N. cbv in N. discriminate.
        + now rewrite N. }
    now rewrite M.
Qed.

Lemma verification_needs_explicit_yes_witness :
  (exists a b,
      js ("Looks fine." ++ nl ++ "approval:  YES") = a ++ b /\
      startsWithIgnoreCase b (js "APPROVAL:") = true /\
      startsWithIgnoreCase (dropWhile isWhiteSpace (skipn 9 b)) (js "Yes")
      = true) /\
  v_approved (parseVerification
                (js ("APPROVAL: No" ++ nl ++ "APPROVAL: Yes"))) = false.
Proof.
  split.
  - apply (proj1 (verification_needs_explicit_yes
                    (js ("Looks fine." ++ nl ++ "approval:  YES")))).
    reflexivity.
  - apply (proj2 (verification_needs_explicit_yes
                    (js ("APPROVAL: No" ++ nl ++ "APPROVAL: Yes"))));
      reflexivity.
Defined.

End ParserExtras.

(* ================================================================== *)
(** * Further properties of the broker *)

Module HumanLoopExtras.

Import HumanLoopService HumanLoopOps Examples MoreExamples HumanLoopFacts.

(** ** [extractRepositoryInfo] *)

Lemma split_app_sep (sep : ascii) (a b : jsstring) :
  split sep (a ++ sep :: b) = split sep a ++ split sep b.
Proof.
  induction a as [|c a IH]; simpl.
  - now rewrite Ascii.eqb_refl.
  - destruct (Ascii.eqb c sep); [now rewrite IH|].
    rewrite IH. destruct (split sep a) as [|l ls] eqn:E; [|reflexivity].
    pose proof (split_length_pos sep a) as P. rewrite E in P.
    simpl in P. lia.
Qed.

Lemma startsWith_app_short (x y p : jsstring) :
  startsWith (x ++ y) p = true -> List.length p <= List.length x ->
  startsWith x p = true.
Proof.
  revert x. induction p as [|c p IH]; intros x H L.
  - now destruct x.
  - destruct x as [|d x]; [simpl in L; lia|].
    simpl in *. apply andb_true_iff in H as [H1 H2].
    rewrite H1. simpl. apply IH; [exact H2 | lia].
Qed.

Lemma replaceFirst_absent (s p r : jsstring) :
  includes s p = false -> replaceFirst s p r = s.
Proof.
  induction s as [|c s IH]; intro H;
    rewrite includes_unfold in H; apply orb_false_iff in H as [H1 H2];
    cbn [replaceFirst]; rewrite H1; [reflexivity|].
  now rewrite IH.
Qed.

(** [replace] acts on the first occurrence: where the pattern does not
    begin before the end of [a], it is the one after [a] that goes. *)
Lemma replaceFirst_first (a p b r : jsstring) :
  p <> [] -> includes (a ++ removelast p) p = false ->
  replaceFirst (a ++ p ++ b) p r = a ++ r ++ b.
Proof.
  intros Np. induction a as [|c a IH]; intro H.
  - simpl app. destruct (p ++ b) eqn:E.
    + destruct p; [contradiction | discriminate].
    + cbn [replaceFirst]. rewrite <- E, startsWith_app.
      now rewrite skipn_app, skipn_all, Nat.sub_diag.
  - rewrite includes_unfold in H. apply orb_false_iff in H as [H1 H2].
    simpl app in *. cbn [replaceFirst].
    replace (startsWith (c :: a ++ p ++ b) p) with false.
    + now rewrite (IH H2).
    + symmetry. destruct (startsWith (c :: a ++ p ++ b) p) eqn:Sw;
        [|reflexivity].
      rewrite <- H1.
      rewrite (app_removelast_last c Np) in Sw at 1.
      rewrite <- app_assoc in Sw.
      replace (c :: a ++ removelast p ++ [last p c] ++ b)
        with ((c :: a ++ removelast p) ++ [last p c] ++ b) in Sw
        by (simpl; now rewrite <- app_assoc).
      symmetry. apply (startsWith_app_short _ _ _ Sw).
      simpl. rewrite length_app.
      assert (List.length p = S (List.length (removelast p))).
      { rewrite (app_removelast_last c Np) at 1.
        rewrite length_app. simpl. lia. }
      lia.
Qed.

Lemma owner_and_name (base o n : jsstring) :
  ~ In SLASH o -> ~ In SLASH n ->
  exists l, rev (split SLASH (base ++ SLASH :: o ++ SLASH :: n))
            = n :: o :: l.
Proof.
  intros Ho Hn.
  rewrite split_app_sep, split_app_sep.
  rewrite (split_single SLASH o Ho), (split_single SLASH n Hn).
  rewrite !rev_app_distr. simpl. now eexists.
Qed.

Lemma extractRepositoryInfo_url (u : jsstring) (b o n : option jsstring)
    (meta : option RepoInfo) (st : State) (o' n' : jsstring)
    (l : list jsstring) :
  u <> [] ->
  rev (split SLASH (replaceFirst u (js ".git") [])) = n' :: o' :: l ->
  extractRepositoryInfo (Some (mkRepository (Some u) b o n)) meta st
  = (Ok (mkRepoInfo (Some o') (Some n')), st).
Proof.
  intros Nu E. unfold extractRepositoryInfo. cbn [url].
  destruct u; [contradiction|]. cbn [truthyStr].
  fold SLASH. now rewrite E.
Qed.

(** X4.  [extractRepositoryInfo] reads owner and name off the last two
    parts of the URL, with or without a ".git" ending, whatever the
    [metadata] says, provided ".git" occurs nowhere before that ending
    and neither part holds a slash.  Without a usable URL it returns the
    [metadata.repository] object, and without that it throws "Unable to
    extract repository information from task".  The state is never
    touched. *)
Theorem repository_info_round_trip (st : State) :
  (forall base o n b ro rn meta,
      ~ In SLASH o -> ~ In SLASH n ->
      includes (base ++ SLASH :: o ++ SLASH :: n ++ js ".gi") (js ".git")
      = false ->
      extractRepositoryInfo
        (Some (mkRepository
                 (Some (base ++ SLASH :: o ++ SLASH :: n ++ js ".git"))
                 b ro rn)) meta st
      = (Ok (mkRepoInfo (Some o) (Some n)), st) /\
      extractRepositoryInfo
        (Some (mkRepository (Some (base ++ SLASH :: o ++ SLASH :: n))
                            b ro rn)) meta st
      = (Ok (mkRepoInfo (Some o) (Some n)), st)) /\
  (forall r info,
      noUrl r -> extractRepositoryInfo r (Some info) st = (Ok info, st)) /\
  (forall r,
      noUrl r ->
      extractRepositoryInfo r None st
      = (Throw (JsError
                  (js "Unable to extract repository information from task")),
         st)).
Proof.
  split; [|split].
  - intros base o n b ro rn meta Ho Hn H.
    destruct (owner_and_name base o n Ho Hn) as [l L].
    split.
    + apply (extractRepositoryInfo_url _ _ _ _ _ _ o n l).
      * destruct base; discriminate.
      * replace (base ++ SLASH :: o ++ SLASH :: n ++ js ".git")
          with ((base ++ SLASH :: o ++ SLASH :: n) ++ js ".git" ++ [])
          by (repeat (rewrite <- app_assoc; simpl); reflexivity).
        rewrite replaceFirst_first.
        -- now rewrite !List.app_nil_r.
        -- discriminate.
        -- replace ((base ++ SLASH :: o ++ SLASH :: n) ++
                    removelast (js ".git"))
             with (base ++ SLASH :: o ++ SLASH :: n ++ js ".gi");
             [exact H|].
           repeat (rewrite <- app_assoc; simpl). reflexivity.
    + apply (extractRepositoryInfo_url _ _ _ _ _ _ o n l).
      * destruct base; discriminate.
      * rewrite replaceFirst_absent; [exact L|].
        apply includes_false_spec. intros x y E.
        apply includes_false_spec with (a := x) (b := y ++ js ".gi") in H.
        apply H.
        replace (base ++ SLASH :: o ++ SLASH :: n ++ js ".gi")
          with ((base ++ SLASH :: o ++ SLASH :: n) ++ js ".gi")
          by (repeat (rewrite <- app_assoc; simpl); reflexivity).
        rewrite E. now rewrite <- !app_assoc.
  - intros r info N. unfold extractRepositoryInfo.
    destruct r as [[[u|] ? ? ?]|]; cbn [url] in *; try reflexivity.
    simpl in N. now subst u.
  - intros r N. unfold extractRepositoryInfo.
    destruct r as [[[u|] ? ? ?]|]; cbn [url] in *; try reflexivity.
    simpl in N. now subst u.
Qed.

Lemma repository_info_round_trip_witness :
  extractRepositoryInfo
    (Some (mkRepository
             (Some (js "http://git" ++ SLASH :: js "acme" ++ SLASH ::
                    js "shop" ++ js ".git"))
             None None None)) None st0
  = (Ok (mkRepoInfo (Some (js "acme")) (Some (js "shop"))), st0) /\
  extractRepositoryInfo None (Some shopInfo) st0 = (Ok shopInfo, st0) /\
  extractRepositoryInfo (Some (mkRepository (Some []) None None None)) None
                        st0
  = (Throw (JsError
              (js "Unable to extract repository information from task")),
     st0).
Proof.
  destruct (repository_info_round_trip st0) as [H1 [H2 H3]].
  split; [|split].
  - apply (H1 (js "http://git") (js "acme") (js "shop")).
    + apply ParserFacts.not_In_by_test. reflexivity.
    + apply ParserFacts.not_In_by_test. reflexivity.
    + reflexivity.
  - apply H2. exact I.
  - apply H3. reflexivity.
Defined.


(** X5.  Only the first ".git" of the URL is removed.  When one occurs
    before the ending, as in a host named www.github.com, the ending
    stays and the repository name comes out with ".git" attached. *)
Theorem git_in_host_keeps_suffix (st : State) (b1 b2 o n : jsstring)
    (b ro rn : option jsstring) (meta : option RepoInfo) :
  ~ In SLASH o -> ~ In SLASH n ->
  includes (b1 ++ js ".gi") (js ".git") = false ->
  extractRepositoryInfo
    (Some (mkRepository
             (Some (b1 ++ js ".git" ++
                    b2 ++ SLASH :: o ++ SLASH :: n ++ js ".git"))
             b ro rn)) meta st
  = (Ok (mkRepoInfo (Some o) (Some (n ++ js ".git"))), st).
Proof.
  intros Ho Hn H.
  assert (Hn' : ~ In SLASH (n ++ js ".git")).
  { intro I. apply in_app_or in I as [I|I]; [contradiction|].
    revert I. apply ParserFacts.not_In_by_test. reflexivity. }
  destruct (owner_and_name (b1 ++ b2) o (n ++ js ".git") Ho Hn') as [l L].
  apply (extractRepositoryInfo_url _ _ _ _ _ _ o (n ++ js ".git") l).
  - destruct b1; discriminate.
  - rewrite replaceFirst_first; [|discriminate|exact H].
    simpl app at 2. now rewrite app_assoc.
Qed.

Lemma git_in_host_keeps_suffix_witness :
  extractRepositoryInfo
    (Some (mkRepository
             (Some (js "https://www" ++ js ".git" ++
                    js "hub.com" ++ SLASH :: js "acme" ++ SLASH ::
                    js "shop" ++ js ".git"))
             None None None)) None st0
  = (Ok (mkRepoInfo (Some (js "acme")) (Some (js "shop" ++ js ".git"))),
     st0).
Proof.
  apply (git_in_host_keeps_suffix st0 (js "https://www") (js "hub.com")
           (js "acme") (js "shop")).
  - apply ParserFacts.not_In_by_test. reflexivity.
  - apply ParserFacts.not_In_by_test. reflexivity.
  - reflexivity.
Defined.

(** ** A request is stored exactly when its issue was created *)

(** X6.  [requestHumanInput] either returns the created issue, having
    appended one issue creation to the trace and stored one pending
    request under the key of the task and the time, or it throws and
    leaves the pending requests as they were: no request is kept for an
    issue that could not be created.  The agents are never touched. *)
Theorem request_stored_iff_issue_created (env : Env) (now : N) (task : Task)
    (ctx : Context) (st : State) :
  activeAgents (snd (requestHumanInput env now task ctx st))
  = activeAgents st /\
  match fst (requestHumanInput env now task ctx st) with
  | Ok issue =>
      pendingRequests (snd (requestHumanInput env now task ctx st)) =
      map_set (requestId now task) (newRequest now task ctx issue)
              (pendingRequests st) /\
      exists ev,
        isIssueCreation ev = true /\
        trace (snd (requestHumanInput env now task ctx st))
        = trace st ++ [ev]
  | Throw _ =>
      pendingRequests (snd (requestHumanInput env now task ctx st))
      = pendingRequests st
  end.
Proof.
  unfold requestHumanInput, createHumanInputIssue, bind.
  destruct (extractRepositoryInfo_pure (repository task)
              (metadata_repository task)) as [o P].
  rewrite P. destruct o as [info|e]; [|now split].
  unfold external. cbn [trace pendingRequests activeAgents].
  destruct (mcp_createGiteaIssue env _) as [issue|e]; [|now split].
  cbn [fst snd trace pendingRequests activeAgents getPending putPending ret].
  split; [reflexivity|]. split; [reflexivity|].
  eexists. split; [|reflexivity]. reflexivity.
Qed.


(** ** Keys of the pending requests *)

Lemma string_of_uint_digits (d : Decimal.uint) :
  forallb isDigit (js (NilEmpty.string_of_uint d)) = true.
Proof.
  induction d; simpl; try reflexivity; exact IHd.
Qed.

Lemma decimal_digits (n : N) : forallb isDigit (decimal n) = true.
Proof.
  unfold decimal, NilZero.string_of_uint.
  destruct (N.to_uint n) eqn:E; try reflexivity;
    rewrite <- E; apply string_of_uint_digits.
Qed.

Lemma decimal_no_underscore (n : N) : ~ In "_"%char (rev (decimal n)).
Proof.
  intro I. apply in_rev in I.
  pose proof (decimal_digits n) as D. rewrite forallb_forall in D.
  specialize (D _ I). discriminate.
Qed.

Lemma app_sep_inj (c : ascii) (d d' x y : jsstring) :
  ~ In c d -> ~ In c d' -> d ++ c :: x = d' ++ c :: y ->
  d = d' /\ x = y.
Proof.
  revert d'. induction d as [|a d IH]; intros [|a' d'] Hd Hd' E;
    simpl in *.
  - injection E as ->. now split.
  - injection E as <- _. tauto.
  - injection E as -> _. tauto.
  - injection E as -> E.
    destruct (IH d') as [-> ->]; tauto.
Qed.

Lemma requestId_inj_pair (now now' : N) (task task' : Task) :
  requestId now task = requestId now' task' ->
  now = now' /\ task_id task = task_id task'.
Proof.
  unfold requestId. intro H.
  apply (f_equal (@rev ascii)) in H.
  rewrite !rev_app_distr in H. simpl in H. rewrite <- !app_assoc in H.
  simpl in H.
  apply app_sep_inj in H as [H1 H2];
    try apply decimal_no_underscore.
  split.
  - apply decimal_inj. rewrite <- (rev_involutive (decimal now)), H1.
    apply rev_involutive.
  - rewrite <- (rev_involutive (task_id task)), H2. apply rev_involutive.
Qed.

(** X7.  Two requests get the same key exactly when they are for the same
    task id in the same millisecond.  In that case the second call
    replaces the record of the first: two issues have been created, but
    the store holds one request, with the second issue. *)
Theorem request_key_collisions :
  (forall now now' task task',
      requestId now task = requestId now' task' <->
      now = now' /\ task_id task = task_id task') /\
  (forall env now task ctx st info issue1 issue2,
      fst (extractRepositoryInfo (repository task)
             (metadata_repository task) st) = Ok info ->
      mcp_createGiteaIssue env (trace st ++ [issueEvent task ctx info])
      = Ok issue1 ->
      mcp_createGiteaIssue env
        ((trace st ++ [issueEvent task ctx info]) ++
         [issueEvent task ctx info])
      = Ok issue2 ->
      exists st1 st2,
        requestHumanInput env now task ctx st = (Ok issue1, st1) /\
        requestHumanInput env now task ctx st1 = (Ok issue2, st2) /\
        trace st2 =
        trace st ++ [issueEvent task ctx info; issueEvent task ctx info] /\
        map_keys (pendingRequests st2) = map_keys (pendingRequests st1) /\
        map_get (requestId now task) (pendingRequests st2)
        = Some (newRequest now task ctx issue2)).
Proof.
  split.
  - intros now now' task task'. split.
    + apply requestId_inj_pair.
    + intros [-> E]. unfold requestId. now rewrite E.
  - intros env now task ctx st info issue1 issue2 E O1 O2.
    pose proof (requestHumanInput_run env now task ctx st info issue1 E O1)
      as R1.
    destruct (extractRepositoryInfo_pure (repository task)
                (metadata_repository task)) as [o P].
    assert (E' : forall s,
               fst (extractRepositoryInfo (repository task)
                      (metadata_repository task) s) = Ok info).
    { intro s. rewrite P in *. exact E. }
    eexists. eexists. split; [exact R1|]. split.
    { apply requestHumanInput_run; [apply E' | exact O2]. }
    cbn [trace pendingRequests]. split; [now rewrite <- app_assoc|].
    split; [|apply map_get_set_same].
    apply map_keys_set. eapply map_get_Some_key. apply map_get_set_same.
Qed.

Lemma request_key_collisions_witness :
  exists sa sb,
    requestHumanInput (okEnv 0) 1000 securityTask ctxA st0
    = (Ok (mkIssue 1), sa) /\
    requestHumanInput (okEnv 0) 1000 securityTask ctxA sa
    = (Ok (mkIssue 2), sb) /\
    trace sb =
    trace st0 ++ [issueEvent securityTask ctxA shopInfo;
                  issueEvent securityTask ctxA shopInfo] /\
    map_keys (pendingRequests sb) = map_keys (pendingRequests sa) /\
    map_get (requestId 1000 securityTask) (pendingRequests sb)
    = Some (newRequest 1000 securityTask ctxA (mkIssue 2)).
Proof.
  apply (proj2 request_key_collisions (okEnv 0) 1000%N securityTask ctxA
           st0 shopInfo (mkIssue 1) (mkIssue 2)); reflexivity.
Defined.


(** ** Cancelling and closing *)

Lemma map_get_delete_same {V} (m : Map V) (k : jsstring) :
  NoDup (map_keys m) -> map_get k (map_delete k m) = None.
Proof.
  intro N. apply map_get_None. rewrite (map_delete_filter m k N).
  unfold map_keys. intro I. apply in_map_iff in I as [[k' v] [E I]].
  simpl in E. subst k'. apply filter_In in I as [_ I]. simpl in I.
  now rewrite str_eqb_refl in I.
Qed.

Lemma map_get_delete_other {V} (m : Map V) (k k' : jsstring) :
  k' <> k -> map_get k' (map_delete k m) = map_get k' m.
Proof.
  intro D. induction m as [|[k0 v0] m IH]; simpl; [reflexivity|].
  destruct (str_eqb k0 k) eqn:E; simpl.
  - apply str_eqb_eq in E. subst k0.
    destruct (str_eqb k k') eqn:E'; [|reflexivity].
    apply str_eqb_eq in E'. congruence.
  - now rewrite IH.
Qed.

Lemma bare_context_has_no_repository (c : Context) (st : State) :
  bareContext c ->
  extractRepositoryInfo
    (Some (match ctx_repository c with
           | Some r => r
           | None => mkRepository None None None None
           end))
    (ctx_metadata_repository c) st
  = (Throw (JsError
              (js "Unable to extract repository information from task")),
     st).
Proof. intros [-> ->]. reflexivity. Qed.

(** X8.  [cancelPendingRequest] on an id that is not in the store throws
    "Pending request not found" and changes nothing.  On an id that is in
    the store it always succeeds, whether or not the notice can be
    posted: the request is gone afterwards ([getPendingRequest] gives
    [undefined]), every other request is as it was, and so are the
    agents.  When the context of the request names no repository, no
    notice is sent at all. *)
Theorem cancel_removes_or_throws (env : Env) (now : Z) (k reason : jsstring)
    (st : State) :
  (map_get k (pendingRequests st) = None ->
   cancelPendingRequest env now k reason st
   = (Throw (JsError (js "Pending request not found: " ++ k)), st)) /\
  (forall req,
      map_get k (pendingRequests st) = Some req ->
      NoDup (map_keys (pendingRequests st)) ->
      exists st',
        cancelPendingRequest env now k reason st = (Ok tt, st') /\
        getPendingRequest k st' = (Ok None, st') /\
        (forall k', k' <> k ->
                    map_get k' (pendingRequests st')
                    = map_get k' (pendingRequests st)) /\
        activeAgents st' = activeAgents st /\
        (bareContext (context req) -> trace st' = trace st)).
Proof.
  split.
  - intro G. unfold cancelPendingRequest, bind, getPending. now rewrite G.
  - intros req G N.
    pose proof (map_get_Some_key _ _ _ G) as K.
    unfold cancelPendingRequest, bind, getPending. rewrite G.
    unfold putPending, tryCatch, bind.
    destruct (extractRepositoryInfo_pure
                (Some match ctx_repository (context req) with
                      | Some r => r
                      | None => mkRepository None None None None
                      end)
                (ctx_metadata_repository (context req))) as [o P].
    rewrite P. unfold getPendingRequest, bind, getPending, ret.
    destruct o as [info|e].
    + unfold external. cbn [trace pendingRequests activeAgents].
      destruct (mcp_addGiteaComment env _) as [[]|];
        (eexists; split; [reflexivity|];
         cbn [trace pendingRequests activeAgents];
         rewrite (map_delete_set _ _ _ K);
         split; [now rewrite map_get_delete_same|];
         split; [intros; now apply map_get_delete_other|];
         split; [reflexivity|];
         intro B;
         specialize (P st);
         rewrite (bare_context_has_no_repository _ st B) in P;
         discriminate).
    + eexists. split; [reflexivity|].
      cbn [trace pendingRequests activeAgents].
      rewrite (map_delete_set _ _ _ K).
      split; [now rewrite map_get_delete_same|].
      split; [intros; now apply map_get_delete_other|].
      now split.
Qed.

Lemma cancel_removes_or_throws_witness :
  cancelPendingRequest (okEnv 0) 5000 (js "t9_1") (js "stop") st1
  = (Throw (JsError (js "Pending request not found: " ++ js "t9_1")), st1) /\
  exists st',
    cancelPendingRequest (okEnv 0) 5000 (js "t1_1000") (js "stop") st1
    = (Ok tt, st') /\
    getPendingRequest (js "t1_1000") st' = (Ok None, st') /\
    (forall k', k' <> js "t1_1000" ->
                map_get k' (pendingRequests st')
                = map_get k' (pendingRequests st1)) /\
    activeAgents st' = activeAgents st1 /\
    (bareContext (context (newRequest 1000 securityTask ctxA (mkIssue 1)))
     -> trace st' = trace st1).
Proof.
  split.
  - apply (proj1 (cancel_removes_or_throws (okEnv 0) 5000 (js "t9_1")
                    (js "stop") st1)).
    reflexivity.
  - apply (proj2 (cancel_removes_or_throws (okEnv 0) 5000 (js "t1_1000")
                    (js "stop") st1)
             (newRequest 1000 securityTask ctxA (mkIssue 1))).
    + reflexivity.
    + repeat constructor. simpl. tauto.
Defined.

(** [closeHumanInputIssue], run. *)
Lemma closeHumanInputIssue_run (env : Env) (now : Z) (t a res : jsstring)
    (st : State) :
  closeHumanInputIssue env now t a res st =
  match findPendingRequest (pendingRequests st) t a with
  | None => (Ok tt, st)
  | Some (_, req) =>
      match fst (extractRepositoryInfo
                   (Some (match ctx_repository (context req) with
                          | Some r => r
                          | None => mkRepository None None None None
                          end))
                   (ctx_metadata_repository (context req)) st) with
      | Throw _ => (Ok tt, st)
      | Ok info =>
          let tr :=
            trace st ++
            [McpAddGiteaComment (info_owner info) (info_name info)
               (number (issue req)) (ClosingComment res now)] in
          match mcp_addGiteaComment env tr with
          | Ok _ =>
              (Ok tt, mkState (map_delete (id req) (pendingRequests st))
                              (activeAgents st) tr)
          | Throw _ =>
              (Ok tt, mkState (pendingRequests st) (activeAgents st) tr)
          end
      end
  end.
Proof.
  unfold closeHumanInputIssue, tryCatch, bind, getPending.
  destruct (findPendingRequest (pendingRequests st) t a) as [[key req]|];
    [|reflexivity].
  destruct (extractRepositoryInfo_pure
              (Some match ctx_repository (context req) with
                    | Some r => r
                    | None => mkRepository None None None None
                    end)
              (ctx_metadata_repository (context req))) as [o P].
  rewrite P. cbn [fst]. destruct o as [info|e]; [|reflexivity].
  unfold external. cbn [trace pendingRequests activeAgents]. cbv zeta.
  destruct (mcp_addGiteaComment env _) as [[]|]; reflexivity.
Qed.

(** X9.  [closeHumanInputIssue] never throws and never touches the
    agents.  It removes a request only after its closing comment has been
    accepted by the tracker; when no pending request is found, when the
    context of the request names no repository, or when the comment is
    refused, the pending requests stay exactly as they were, so the
    request stays pending. *)
Theorem close_removes_only_after_comment (env : Env) (now : Z)
    (t a res : jsstring) (st : State) :
  fst (closeHumanInputIssue env now t a res st) = Ok tt /\
  activeAgents (snd (closeHumanInputIssue env now t a res st))
  = activeAgents st /\
  (pendingRequests (snd (closeHumanInputIssue env now t a res st))
   = pendingRequests st \/
   exists key req ev,
     findPendingRequest (pendingRequests st) t a = Some (key, req) /\
     trace (snd (closeHumanInputIssue env now t a res st))
     = trace st ++ [ev] /\
     mcp_addGiteaComment env (trace st ++ [ev]) = Ok tt /\
     pendingRequests (snd (closeHumanInputIssue env now t a res st))
     = map_delete (id req) (pendingRequests st)) /\
  (forall key req,
      findPendingRequest (pendingRequests st) t a = Some (key, req) ->
      bareContext (context req) ->
      snd (closeHumanInputIssue env now t a res st) = st).
Proof.
  rewrite closeHumanInputIssue_run.
  destruct (findPendingRequest (pendingRequests st) t a) as [[key req]|]
    eqn:F.
  2:{ repeat split; try (now left); try discriminate. }
  destruct (fst (extractRepositoryInfo _ _ st)) as [info|e] eqn:X.
  2:{ repeat split; try (now left). }
  cbv zeta.
  destruct (mcp_addGiteaComment env _) as [[]|] eqn:O;
    cbn [fst snd activeAgents pendingRequests trace].
  - repeat split.
    + right. exists key, req. eexists. repeat split. exact O.
    + intros k r E B. injection E as _ <-.
      rewrite (bare_context_has_no_repository _ st B) in X. discriminate.
  - repeat split; [now left|].
    intros k r E B. injection E as _ <-.
    rewrite (bare_context_has_no_repository _ st B) in X. discriminate.
Qed.


Lemma close_removes_only_after_comment_witness :
  snd (closeHumanInputIssue (okEnv 0) 5000 (js "t1") (js "a1")
         (js "completed") stBare) = stBare.
Proof.
  apply (proj2 (proj2 (proj2
           (close_removes_only_after_comment (okEnv 0) 5000 (js "t1")
              (js "a1") (js "completed") stBare)))
           (js "t1_1000")
           (newRequest 1000 securityTask ctxBare (mkIssue 1))).
  - reflexivity.
  - split; reflexivity.
Defined.

(** ** A reply whose agent is gone *)

(** X10.  When the agent of a pending request is no longer active,
    [processHumanResponse] throws "Agent not found", and yet the request
    has already been marked [responded] and stays in the store: nothing
    is posted, and, if it was the only pending request of the task and
    agent, every later reply for them finds no pending request and
    returns [null]. *)
Theorem reply_lost_when_agent_missing (env : Env) (now : Z)
    (data : ResponseData) (st : State) (key : jsstring) (req : Request) :
  wf_store (pendingRequests st) ->
  findPendingRequest (pendingRequests st) (rd_taskId data)
                     (rd_agentId data) = Some (key, req) ->
  map_get (rd_agentId data) (activeAgents st) = None ->
  exists st',
    processHumanResponse env now data st
    = (Throw (JsError (js "Agent not found: " ++ rd_agentId data)), st') /\
    map_get key (pendingRequests st')
    = Some (markResponded (parseHumanResponse (rd_comment_body data)) now
                          req) /\
    trace st' = trace st /\
    (List.length (pendingFor (pendingRequests st) (rd_taskId data)
                             (rd_agentId data)) <= 1 ->
     forall now' data',
       rd_taskId data' = rd_taskId data ->
       rd_agentId data' = rd_agentId data ->
       processHumanResponse env now' data' st' = (Ok None, st')).
Proof.
  intros W F A. rewrite processHumanResponse_run, F. cbv zeta. rewrite A.
  eexists. split; [reflexivity|]. cbn [pendingRequests trace].
  split; [apply map_get_set_same|]. split; [reflexivity|].
  intros L now' data' Et Ea.
  rewrite processHumanResponse_run. cbn [pendingRequests].
  rewrite Et, Ea.
  replace (findPendingRequest
             (map_set key
                (markResponded (parseHumanResponse (rd_comment_body data))
                               now req)
                (pendingRequests st))
             (rd_taskId data) (rd_agentId data)) with
    (@None (jsstring * Request)); [reflexivity|].
  symmetry. rewrite findPendingRequest_hd in *. unfold pendingFor in *.
  destruct W as [N I].
  destruct (filter (isPendingFor (rd_taskId data) (rd_agentId data))
                   (pendingRequests st)) as [|x [|y l]] eqn:E;
    [discriminate | | simpl in L; lia].
  injection F as ->.
  assert (K : In (key, req) (pendingRequests st)).
  { assert (J : In (key, req)
                   (filter (isPendingFor (rd_taskId data) (rd_agentId data))
                           (pendingRequests st)))
      by (rewrite E; now left).
    now apply filter_In in J. }
  clear L.
  assert (G : forall m : Map Request,
             NoDup (map_keys m) ->
             filter (isPendingFor (rd_taskId data) (rd_agentId data)) m
             = [(key, req)] ->
             filter (isPendingFor (rd_taskId data) (rd_agentId data))
                    (map_set key
                       (markResponded
                          (parseHumanResponse (rd_comment_body data)) now req)
                       m) = []).
  { clear. induction m as [|[k0 r0] m IH]; intros N E; [discriminate|].
    simpl in *. inversion N as [|? ? Hk Hm]; subst.
    destruct (str_eqb k0 key) eqn:Ek.
    - apply str_eqb_eq in Ek. subst k0. simpl.
      unfold isPendingFor at 1. cbn [snd status markResponded].
      rewrite andb_false_r.
      destruct (isPendingFor (rd_taskId data) (rd_agentId data) (key, r0))
        eqn:P.
      + injection E as _ E. exact E.
      + exfalso.
        assert (J : In (key, req)
                       (filter (isPendingFor (rd_taskId data)
                                             (rd_agentId data)) m))
          by (rewrite E; now left).
        apply filter_In in J as [J _]. apply Hk.
        unfold map_keys. apply in_map_iff. now exists (key, req).
    - simpl.
      destruct (isPendingFor (rd_taskId data) (rd_agentId data) (k0, r0))
        eqn:P.
      + injection E as E1 _ _.
        apply str_eqb_neq in Ek. congruence.
      + now apply IH. }
  now rewrite (G _ N E).
Qed.

Lemma reply_lost_when_agent_missing_witness :
  exists st',
    processHumanResponse (okEnv 0) 3000 (reply (js "APPROVAL: Yes"))
                         stNoAgent
    = (Throw (JsError (js "Agent not found: " ++ js "a1")), st') /\
    map_get (js "t1_1000") (pendingRequests st')
    = Some (markResponded (parseHumanResponse (js "APPROVAL: Yes")) 3000
              (newRequest 1000 securityTask ctxA (mkIssue 1))) /\
    trace st' = trace stNoAgent /\
    (List.length (pendingFor (pendingRequests stNoAgent) (js "t1")
                             (js "a1")) <= 1 ->
     forall now' data',
       rd_taskId data' = js "t1" ->
       rd_agentId data' = js "a1" ->
       processHumanResponse (okEnv 0) now' data' st' = (Ok None, st')).
Proof.
  apply (reply_lost_when_agent_missing (okEnv 0) 3000
           (reply (js "APPROVAL: Yes")) stNoAgent (js "t1_1000")
           (newRequest 1000 securityTask ctxA (mkIssue 1))).
  - exact st1_wf.
  - reflexivity.
  - reflexivity.
Defined.


(** ** Looking requests up *)

Lemma status_eqb_eq (a b : Status) : status_eqb a b = true <-> a = b.
Proof. destruct a, b; simpl; split; intro H; congruence. Qed.

Lemma isPendingFor_matches (t a : jsstring) (kr : jsstring * Request) :
  isPendingFor t a kr = true <-> matches t a (snd kr).
Proof.
  unfold isPendingFor, matches.
  rewrite !andb_true_iff, !str_eqb_eq, status_eqb_eq. tauto.
Qed.

Lemma findPendingRequest_cons (k : jsstring) (r : Request) (m : Map Request)
    (t a : jsstring) :
  findPendingRequest ((k, r) :: m) t a =
  if isPendingFor t a (k, r) then Some (k, r) else findPendingRequest m t a.
Proof. reflexivity. Qed.

(** X11.  [findPendingRequest] returns nothing exactly when no stored
    request is pending for the task and agent; otherwise it returns the
    one inserted first among those that are. *)
Theorem find_pending_is_first_match (m : Map Request) (t a : jsstring) :
  (findPendingRequest m t a = None <->
   forall k r, In (k, r) m -> ~ matches t a r) /\
  (forall k r,
      findPendingRequest m t a = Some (k, r) ->
      exists pre post,
        m = pre ++ (k, r) :: post /\ matches t a r /\
        forall k' r', In (k', r') pre -> ~ matches t a r').
Proof.
  induction m as [|[k0 r0] m [IH1 IH2]]; split.
  - split; [intros _ k r [] | reflexivity].
  - discriminate.
  - rewrite findPendingRequest_cons.
    destruct (isPendingFor t a (k0, r0)) eqn:P.
    + split; [intro; discriminate|]. intro H. exfalso.
      apply (H k0 r0); [now left|].
      now apply (isPendingFor_matches t a (k0, r0)).
    + rewrite IH1. split.
      * intros H k r [E|I]; [|now apply (H k r)].
        injection E as <- <-. intro M.
        apply (isPendingFor_matches t a (k0, r0)) in M. congruence.
      * intros H k r I. apply (H k r). now right.
  - intros k r. rewrite findPendingRequest_cons.
    destruct (isPendingFor t a (k0, r0)) eqn:P.
    + intro H. injection H as <- <-. exists [], m.
      split; [reflexivity|]. split.
      * now apply (isPendingFor_matches t a (k0, r0)).
      * intros k' r' [].
    + intro H. destruct (IH2 k r H) as [pre [post [-> [M B]]]].
      exists ((k0, r0) :: pre), post. split; [reflexivity|].
      split; [exact M|]. intros k' r' [E|I]; [|now apply (B k' r')].
      injection E as <- <-. intro M'.
      apply (isPendingFor_matches t a (k0, r0)) in M'. congruence.
Qed.

Lemma find_pending_is_first_match_witness :
  exists pre post,
    pendingRequests st2 =
    pre ++ (js "t1_1000", newRequest 1000 securityTask ctxA (mkIssue 1))
        :: post /\
    matches (js "t1") (js "a1")
            (newRequest 1000 securityTask ctxA (mkIssue 1)) /\
    forall k' r', In (k', r') pre -> ~ matches (js "t1") (js "a1") r'.
Proof.
  apply (proj2 (find_pending_is_first_match (pendingRequests st2)
                  (js "t1") (js "a1"))).
  reflexivity.
Defined.

Lemma oldest_fold (rest : list Request) (first : Request) :
  let m := fold_left
             (fun oldest request =>
                if (createdAt request <? createdAt oldest)%Z
                then request else oldest) rest first in
  (m = first \/ In m rest) /\
  (createdAt m <= createdAt first)%Z /\
  forall x, In x rest -> (createdAt m <= createdAt x)%Z.
Proof.
  revert first. induction rest as [|r rest IH]; intro first; cbv zeta.
  - simpl. repeat split; [now left | lia | tauto].
  - simpl fold_left.
    destruct (createdAt r <? createdAt first)%Z eqn:C.
    + apply Z.ltb_lt in C. destruct (IH r) as [H1 [H2 H3]].
      repeat split.
      * right. destruct H1 as [->|H1]; [now left | now right].
      * lia.
      * intros x [<-|I]; [exact H2 | now apply H3].
    + apply Z.ltb_ge in C. destruct (IH first) as [H1 [H2 H3]].
      repeat split.
      * destruct H1 as [->|H1]; [now left | right; now right].
      * exact H2.
      * intros x [<-|I]; [lia | now apply H3].
Qed.

(** X12.  [getOldestPendingRequest] gives [null] exactly when no request
    of the list is pending; otherwise it gives a pending request of the
    list that was created no later than any other pending one. *)
Theorem oldest_pending_is_minimal (requests : list Request) :
  (getOldestPendingRequest requests = None <->
   forall r, In r requests -> status r <> pending) /\
  (forall r,
      getOldestPendingRequest requests = Some r ->
      In r requests /\ status r = pending /\
      forall r', In r' requests -> status r' = pending ->
                 (createdAt r <= createdAt r')%Z).
Proof.
  unfold getOldestPendingRequest.
  destruct (filter (fun r => status_eqb (status r) pending) requests)
    as [|first rest] eqn:E.
  - split.
    + split; [|reflexivity]. intros _ r I S.
      assert (J : In r (filter (fun r => status_eqb (status r) pending)
                               requests)).
      { apply filter_In. split; [exact I | now apply status_eqb_eq]. }
      rewrite E in J. destruct J.
    + discriminate.
  - assert (A : forall x, In x (first :: rest) ->
                          In x requests /\ status x = pending).
    { intros x I. rewrite <- E in I. apply filter_In in I as [I S].
      split; [exact I | now apply status_eqb_eq]. }
    split.
    + split; [discriminate|]. intro H. exfalso.
      destruct (A first) as [I S]; [now left|]. exact (H first I S).
    + intros r H. injection H as <-.
      destruct (oldest_fold rest first) as [H1 [H2 H3]]. cbv zeta in *.
      assert (I : In (fold_left
                        (fun oldest request =>
                           if (createdAt request <? createdAt oldest)%Z
                           then request else oldest) rest first)
                     (first :: rest)).
      { destruct H1 as [->|H1]; [now left | now right]. }
      destruct (A _ I) as [I1 I2]. repeat split; try assumption.
      intros r' Ir' Sr'.
      assert (J : In r' (first :: rest)).
      { rewrite <- E. apply filter_In. split; [exact Ir'|].
        now apply status_eqb_eq. }
      destruct J as [<-|J]; [exact H2 | now apply H3].
Qed.

Lemma oldest_pending_is_minimal_witness :
  In (newRequest 1000 securityTask ctxA (mkIssue 1))
     (map_values (pendingRequests st2)) /\
  status (newRequest 1000 securityTask ctxA (mkIssue 1)) = pending /\
  forall r', In r' (map_values (pendingRequests st2)) ->
             status r' = pending ->
             (createdAt (newRequest 1000 securityTask ctxA (mkIssue 1))
              <= createdAt r')%Z.
Proof.
  apply (proj2 (oldest_pending_is_minimal
                  (map_values (pendingRequests st2)))).
  reflexivity.
Defined.

(** ** The store stays well formed *)

Lemma wf_store_delete_all (ids : list jsstring) (m : Map Request) :
  wf_store m -> wf_store (fold_left (fun m k => map_delete k m) ids m).
Proof.
  revert m. induction ids as [|k ids IH]; intros m W; [exact W|].
  simpl. apply IH. now apply wf_store_delete.
Qed.

(** X13.  Every operation of the broker keeps the store well formed:
    after a request, a resolution, a cancellation, a sweep or a closing,
    the keys are still distinct and every request is still stored under
    its own [id]. *)
Theorem store_stays_well_formed (env : Env) (st : State) :
  wf_store (pendingRequests st) ->
  (forall now task ctx,
      wf_store (pendingRequests
                  (snd (requestHumanInput env now task ctx st)))) /\
  (forall now data,
      wf_store (pendingRequests
                  (snd (processHumanResponse env now data st)))) /\
  (forall now k reason,
      wf_store (pendingRequests
                  (snd (cancelPendingRequest env now k reason st)))) /\
  (forall now maxAgeHours,
      wf_store (pendingRequests
                  (snd (cleanupOldRequests env now maxAgeHours st)))) /\
  (forall now t a res,
      wf_store (pendingRequests
                  (snd (closeHumanInputIssue env now t a res st)))).
Proof.
  intro W. destruct (wf_store_preserved env st W) as [H1 H2].
  split; [exact H1|]. split; [exact H2|]. split; [|split].
  - intros now k reason.
    destruct (cancelPendingRequest_effect env now k reason st)
      as [r [st' [R [Pm _]]]].
    rewrite R. cbn [snd]. rewrite Pm. now apply wf_store_delete.
  - intros now maxAgeHours. unfold cleanupOldRequests, bind, getPending.
    match goal with
    | |- context [cancelAll env now ?ids st] =>
        destruct (cancelAll_effect env now ids st) as [st' [R [Pm _]]]
    end.
    rewrite R. cbn [snd]. rewrite Pm. now apply wf_store_delete_all.
  - intros now t a res. rewrite closeHumanInputIssue_run.
    destruct (findPendingRequest (pendingRequests st) t a) as [[key req]|];
      [|exact W].
    destruct (fst (extractRepositoryInfo _ _ st)); [|exact W].
    cbv zeta. destruct (mcp_addGiteaComment env _);
      cbn [snd pendingRequests]; [now apply wf_store_delete | exact W].
Qed.

Lemma store_stays_well_formed_witness :
  wf_store (pendingRequests
              (snd (requestHumanInput (okEnv 0) 2000 securityTask ctxA
                      st1))) /\
  wf_store (pendingRequests
              (snd (cleanupOldRequests (okEnv 0) 90000000 24 st1))).
Proof.
  destruct (store_stays_well_formed (okEnv 0) st1 st1_wf)
    as [H1 [_ [_ [H4 _]]]].
  split; [apply H1 | apply H4].
Defined.

End HumanLoopExtras.

(* ================================================================== *)
(** * More about the development workflow *)

Module WorkflowExtras.

Import Examples MoreExamples WorkflowFacts.

(** ** Branch names *)

Lemma slug_unit (c : ascii) :
  isLowerAlnumOrSpace c = true -> isWhiteSpace c = false ->
  isSlugUnit c = true.
Proof.
  destruct c as [[] [] [] [] [] [] [] []]; vm_compute; congruence.
Qed.

Lemma dashRunsFrom_slug (inRun : bool) (s : jsstring) :
  forallb isLowerAlnumOrSpace s = true ->
  forallb isSlugUnit (dashRunsFrom inRun s) = true.
Proof.
  revert inRun. induction s as [|c s IH]; intros inRun H; [reflexivity|].
  simpl in H. apply andb_true_iff in H as [Hc Hs]. simpl.
  destruct (isWhiteSpace c) eqn:W.
  - destruct inRun; [now apply IH|]. simpl. now apply IH.
  - simpl. rewrite (slug_unit c Hc W). now apply IH.
Qed.

Lemma forallb_filter_same (f : ascii -> bool) (s : jsstring) :
  forallb f (filter f s) = true.
Proof.
  induction s as [|c s IH]; [reflexivity|]. simpl.
  destruct (f c) eqn:E; [simpl; now rewrite E | exact IH].
Qed.

Lemma forallb_firstn (f : ascii -> bool) (n : nat) (s : jsstring) :
  forallb f s = true -> forallb f (firstn n s) = true.
Proof.
  revert s. induction n as [|n IH]; intros [|c s] H; try reflexivity.
  simpl in *. apply andb_true_iff in H as [Hc Hs].
  rewrite Hc. now apply IH.
Qed.

Lemma forallb_skipn (f : ascii -> bool) (n : nat) (s : jsstring) :
  forallb f s = true -> forallb f (skipn n s) = true.
Proof.
  revert s. induction n as [|n IH]; intros [|c s] H; try reflexivity;
    [exact H|].
  simpl in *. apply andb_true_iff in H as [_ Hs]. now apply IH.
Qed.

Lemma decimal_nonempty (n : N) : decimal n <> [].
Proof.
  unfold decimal, NilZero.string_of_uint.
  destruct (N.to_uint n); simpl; discriminate.
Qed.

(** X14.  A branch name is "bugfix" or "feature", a slash, a slug, a dash
    and a stamp.  The slug has at most 50 code units, all of them in
    a-z, 0-9 or the dash, so whatever the description holds, nothing else
    reaches the git command; it may be empty.  The stamp is made of the
    last digits of the time, at least one and at most six. *)
Theorem branch_name_shape (now : N) (task : Task) :
  exists slug stamp pre,
    generateBranchName now task =
    (if includes (toLowerCase (description task)) (js "fix")
     then js "bugfix" else js "feature") ++ SLASH :: slug ++ DASH :: stamp /\
    List.length slug <= 50 /\
    forallb isSlugUnit slug = true /\
    decimal now = pre ++ stamp /\
    1 <= List.length stamp <= 6 /\
    forallb isDigit stamp = true.
Proof.
  exists (firstn 50
            (dashRuns (filter isLowerAlnumOrSpace
                              (toLowerCase (description task))))),
         (skipn (List.length (decimal now) - 6) (decimal now)),
         (firstn (List.length (decimal now) - 6) (decimal now)).
  split; [|split; [|split; [|split; [|split]]]].
  - unfold generateBranchName, containsFix.
    destruct (includes _ _); reflexivity.
  - apply firstn_le_length.
  - apply forallb_firstn. apply dashRunsFrom_slug.
    apply forallb_filter_same.
  - symmetry. apply firstn_skipn.
  - rewrite length_skipn.
    pose proof (decimal_nonempty now) as D.
    destruct (decimal now); [congruence | simpl List.length; lia].
  - apply forallb_skipn, HumanLoopExtras.decimal_digits.
Qed.

(** ** Clarifying questions *)

(** X15.  [parseQuestions] never returns an empty list.  Each question is
    a line of the response, trimmed, that holds a question mark or
    starts with a number and a dot; only when there is no such line is
    the whole response, untrimmed, the one question. *)
Theorem questions_never_empty (response : jsstring) :
  parseQuestions response <> [] /\
  (forall q,
      In q (parseQuestions response) ->
      (parseQuestions response = [response] /\
       forall line, In line (split LF response) ->
                    includes (trim line) (js "?") = false /\
                    matchesNumbered (trim line) = false) \/
      (exists line,
          In line (split LF response) /\ q = trim line /\ trim q = q /\
          (includes q (js "?") = true \/ matchesNumbered q = true))).
Proof.
  unfold parseQuestions.
  destruct (filter _ (map trim (split LF response))) as [|q0 qs] eqn:E.
  - split; [discriminate|]. intros q _. left. split; [reflexivity|].
    intros line I.
    assert (N : ~ In (trim line)
                  (filter (fun trimmed => includes trimmed (js "?") ||
                                          matchesNumbered trimmed)
                          (map trim (split LF response)))).
    { rewrite E. intros []. }
    rewrite filter_In in N.
    destruct (includes (trim line) (js "?")) eqn:I1;
      destruct (matchesNumbered (trim line)) eqn:I2;
      try (exfalso; apply N; split; [now apply in_map | reflexivity]).
    now split.
  - split; [discriminate|]. intros q I. right.
    rewrite <- E in I. apply filter_In in I as [I T].
    apply in_map_iff in I as [line [<- I]].
    exists line. split; [exact I|]. split; [reflexivity|].
    split; [apply trim_idem|]. now apply orb_true_iff in T.
Qed.

Lemma questions_never_empty_witness :
  exists line,
    In line (split LF (js ("Before I start:" ++ nl ++
                           "1. Which pages get the footer?" ++ nl ++
                           "  What about mobile?  "))) /\
    js "What about mobile?" = trim line.
Proof.
  destruct (proj2 (questions_never_empty
                     (js ("Before I start:" ++ nl ++
                          "1. Which pages get the footer?" ++ nl ++
                          "  What about mobile?  ")))
                  (js "What about mobile?"))
    as [[H _]|[line [I [T _]]]].
  - simpl. right. now left.
  - discriminate H.
  - now exists line.
Defined.


(** ** The workflow only talks to the outside *)

Lemma outward_ret {A : Type} (a : A) : outwardOnly (ret a).
Proof.
  intro st. simpl. repeat split. exists []. now rewrite List.app_nil_r.
Qed.

Lemma outward_throw {A : Type} (e : Error) : outwardOnly (@throw A e).
Proof.
  intro st. simpl. repeat split. exists []. now rewrite List.app_nil_r.
Qed.

Lemma outward_external {A : Type} (ev : Event)
    (oracle : list Event -> Outcome A) :
  outwardOnly (external ev oracle).
Proof. intro st. simpl. repeat split. now exists [ev]. Qed.

Lemma outward_deref {A : Type} (o : option A) : outwardOnly (deref o).
Proof. destruct o; [apply outward_ret | apply outward_throw]. Qed.

Lemma outward_bind {A B : Type} (m : M A) (f : A -> M B) :
  outwardOnly m -> (forall a, outwardOnly (f a)) -> outwardOnly (bind m f).
Proof.
  intros Hm Hf st. unfold bind.
  destruct (Hm st) as [P [Q [t T]]].
  destruct (m st) as [[a|e] s1]; cbn [snd] in *.
  - destruct (Hf a s1) as [P' [Q' [t' T']]].
    split; [congruence|]. split; [congruence|].
    exists (t ++ t'). now rewrite T', T, app_assoc.
  - split; [exact P|]. split; [exact Q|]. now exists t.
Qed.

Lemma outward_tryCatch {A : Type} (m : M A) (h : Error -> M A) :
  outwardOnly m -> (forall e, outwardOnly (h e)) ->
  outwardOnly (tryCatch m h).
Proof.
  intros Hm Hh st. unfold tryCatch.
  destruct (Hm st) as [P [Q [t T]]].
  destruct (m st) as [[a|e] s1]; cbn [snd] in *.
  - split; [exact P|]. split; [exact Q|]. now exists t.
  - destruct (Hh e s1) as [P' [Q' [t' T']]].
    split; [congruence|]. split; [congruence|].
    exists (t ++ t'). now rewrite T', T, app_assoc.
Qed.

Create HintDb outward.

Ltac outward :=
  repeat first
    [ apply outward_ret
    | apply outward_throw
    | apply outward_external
    | apply outward_deref
    | solve [auto 1 with outward]
    | apply outward_bind; [|intro]
    | apply outward_tryCatch; [|intro]
    | match goal with
      | |- outwardOnly (match ?x with _ => _ end) => destruct x
      end ].

Lemma outward_queryAgent (env : Env) (agent : Agent) (prompt : Prompt) :
  outwardOnly (queryAgent env agent prompt).
Proof. unfold queryAgent. outward. Qed.
#[local] Hint Resolve outward_queryAgent : outward.

Lemma outward_executeActions (env : Env) (agent : Agent)
    (actions : list Action) :
  outwardOnly (executeActions env agent actions).
Proof. exact (calls_outward _ _ (calls_executeActions env agent actions)). Qed.
#[local] Hint Resolve outward_executeActions : outward.

Lemma outward_executeWithImplementation (env : Env) (agent : Agent)
    (prompt : Prompt) :
  outwardOnly (executeWithImplementation env agent prompt).
Proof. unfold executeWithImplementation. outward. Qed.
#[local] Hint Resolve outward_executeWithImplementation : outward.

(** Building the commit message touches nothing. *)
Lemma stateless_ret {A : Type} (a : A) : stateless (ret a).
Proof. now exists (Ok a). Qed.

Lemma stateless_throw {A : Type} (e : Error) : stateless (@throw A e).
Proof. now exists (Throw e). Qed.

Lemma stateless_bind {A B : Type} (m : M A) (f : A -> M B) :
  stateless m -> (forall a, stateless (f a)) -> stateless (bind m f).
Proof.
  intros [o P] Hf. destruct o as [a|e].
  - destruct (Hf a) as [o' P']. exists o'. intro st.
    unfold bind. now rewrite P, P'.
  - exists (Throw e). intro st. unfold bind. now rewrite P.
Qed.

Lemma stateless_someIncludes (keywords : list jsstring)
    (files : list (option jsstring)) :
  stateless (someIncludes keywords files).
Proof.
  induction files as [|[f|] rest IH]; simpl.
  - apply stateless_ret.
  - destruct (existsb (includes f) keywords); [apply stateless_ret | exact IH].
  - apply stateless_throw.
Qed.

Ltac stateless :=
  repeat first
    [ apply stateless_ret
    | apply stateless_throw
    | apply stateless_someIncludes
    | apply stateless_bind; [|intro]
    | match goal with
      | |- stateless (match ?x with _ => _ end) => destruct x
      end ].

Lemma stateless_generateCommitMessage (task : Task)
    (implementation : Implementation) :
  stateless (generateCommitMessage task implementation).
Proof. unfold generateCommitMessage, extractScope. cbv zeta. stateless. Qed.

Lemma generateCommitMessage_run (task : Task)
    (implementation : Implementation) (st : State) :
  generateCommitMessage task implementation st
  = (commitMessageOf task implementation, st).
Proof.
  destruct (stateless_generateCommitMessage task implementation) as [o P].
  unfold commitMessageOf. now rewrite !P.
Qed.

Lemma outward_generateCommitMessage (task : Task)
    (implementation : Implementation) :
  outwardOnly (generateCommitMessage task implementation).
Proof.
  intro st. rewrite generateCommitMessage_run. simpl. repeat split.
  exists []. now rewrite List.app_nil_r.
Qed.
#[local] Hint Resolve outward_generateCommitMessage : outward.

Lemma outward_commitChanges (env : Env) (task : Task)
    (implementation : Implementation) :
  outwardOnly (commitChanges env task implementation).
Proof. unfold commitChanges, gitOperation. outward. Qed.
#[local] Hint Resolve outward_commitChanges : outward.

Lemma outward_runTests (env : Env) (agent : Agent) (task : Task) :
  outwardOnly (runTests env agent task).
Proof. unfold runTests, fixFailingTests, gitOperation. outward. Qed.
#[local] Hint Resolve outward_runTests : outward.

Lemma outward_respondToReviewComments (env : Env) (task : Task)
    (reviewComments : list ReviewComment) :
  outwardOnly (respondToReviewComments env task reviewComments).
Proof.
  induction reviewComments as [|c rest IH]; simpl;
    unfold GiteaClient.createPullRequestComment; outward; exact IH.
Qed.
#[local] Hint Resolve outward_respondToReviewComments : outward.

Lemma outward_handleReviewFeedback (env : Env) (agent : Agent)
    (task : option Task) (reviewComments : option (list ReviewComment)) :
  outwardOnly (handleReviewFeedback env agent task reviewComments).
Proof. unfold handleReviewFeedback. outward. Qed.

Lemma outward_executeWorkflow (env : Env) (now : N) (agent : Agent)
    (task : Task) :
  outwardOnly (executeWorkflow env now agent task).
Proof.
  unfold executeWorkflow, analyzeRequirements, requestClarification,
    createImplementationPlan, requestOutcomeVerification,
    createFeatureBranch, implementChanges, createPullRequest,
    notifyForReview, updateTaskStatus, gitOperation,
    GiteaClient.createIssue, GiteaClient.createPullRequest,
    GiteaClient.addLabelsToPullRequest, GiteaClient.createIssueComment.
  outward.
Qed.

(** X16.  The workflow and the handling of review feedback only talk to
    the outside: they leave the pending requests and the agents exactly
    as they were and only extend the trace.  The issues the workflow
    opens for clarification and verification are therefore unknown to
    the broker: a reply for a task and agent that had no pending request
    before the workflow ran finds none after it, and
    [processHumanResponse] returns [null] for it without any effect. *)
Theorem workflow_never_registers_a_request (env : Env) (now : N)
    (agent : Agent) (task : Task) (st : State) :
  outwardOnly (executeWorkflow env now agent task) /\
  (forall t cs, outwardOnly (handleReviewFeedback env agent t cs)) /\
  (forall now' data,
      HumanLoopService.findPendingRequest (pendingRequests st)
        (HumanLoopService.rd_taskId data)
        (HumanLoopService.rd_agentId data) = None ->
      HumanLoopService.processHumanResponse env now' data
        (snd (executeWorkflow env now agent task st))
      = (Ok None, snd (executeWorkflow env now agent task st))).
Proof.
  split; [apply outward_executeWorkflow|].
  split; [intros; apply outward_handleReviewFeedback|].
  intros now' data F.
  rewrite HumanLoopFacts.processHumanResponse_run.
  destruct (outward_executeWorkflow env now agent task st) as [P _].
  rewrite P, F. reflexivity.
Qed.

Lemma workflow_never_registers_a_request_witness :
  HumanLoopService.processHumanResponse askEnv 5000
    (reply (js "1. All pages"))
    (snd (executeWorkflow askEnv 1700000000123 agentA footerTask st0))
  = (Ok None,
     snd (executeWorkflow askEnv 1700000000123 agentA footerTask st0)).
Proof.
  apply (proj2 (proj2 (workflow_never_registers_a_request askEnv
                         1700000000123%N agentA footerTask st0))).
  reflexivity.
Defined.


(** ** Asking for clarification *)

(** X17.  What follows the model's answer to the analysis.  When the
    answer holds REQUIREMENTS_CLEAR anywhere, whatever else it says, no
    question is asked.  Otherwise the workflow sends one request to the
    tracker and stops there; no plan is requested and no branch is
    created.  The request is not the clarification issue the workflow
    has built: [giteaClient.createIssue] takes the one object it is
    handed for the owner, so the request goes to the path made of that
    object and of [undefined] and carries no title, no questions and no
    labels.  If the tracker accepts it, [awaiting_clarification] is
    returned; if it refuses, its error is thrown on.  The status of the
    task is updated in neither case.  A task without a repository makes
    the workflow throw a TypeError before anything is sent. *)
Theorem clarification_path (env : Env) (now : N) (agent : Agent)
    (task : Task) (st st1 : State) (response : jsstring) :
  queryAgent env agent (analysisPrompt task) st = (Ok response, st1) ->
  (includes response (js "REQUIREMENTS_CLEAR") = true ->
   analyzeRequirements env agent task st = (Ok None, st1)) /\
  (includes response (js "REQUIREMENTS_CLEAR") = false ->
   match repository task with
   | None => executeWorkflow env now agent task st = (Throw TypeError, st1)
   | Some repo =>
       optionsIssueRequest
       <> clarificationIssueEvent task (parseQuestions response) repo /\
       executeWorkflow env now agent task st =
       (match gitea_createIssue env (trace st1 ++ [optionsIssueRequest]) with
        | Ok _ => Ok awaitingClarification
        | Throw e => Throw e
        end,
        withTrace st1 (trace st1 ++ [optionsIssueRequest]))
   end).
Proof.
  intro Q. unfold analysisPrompt in Q. split; intro I.
  - unfold analyzeRequirements. rewrite (bind_ok _ _ _ _ _ Q), I.
    reflexivity.
  - assert (E : analyzeRequirements env agent task st =
                 (Ok (Some (parseQuestions response)), st1)).
    { unfold analyzeRequirements. rewrite (bind_ok _ _ _ _ _ Q), I.
      reflexivity. }
    destruct (repository task) as [repo|] eqn:R.
    + split.
      * unfold optionsIssueRequest, clarificationIssueEvent. congruence.
      * unfold executeWorkflow. rewrite (bind_ok _ _ _ _ _ E).
        unfold requestClarification, GiteaClient.createIssue.
        unfold bind, deref. rewrite R. unfold ret at 1.
        rewrite external_run. fold optionsIssueRequest.
        destruct (gitea_createIssue env _) as [issue|e]; reflexivity.
    + unfold executeWorkflow. rewrite (bind_ok _ _ _ _ _ E).
      unfold requestClarification, bind, deref. now rewrite R.
Qed.

Lemma clarification_path_witness :
  executeWorkflow askEnv 1700000000123 agentA footerTask st0 =
  (Ok awaitingClarification,
   withTrace st0 [modelQuery agentA (analysisPrompt footerTask);
                  optionsIssueRequest]).
Proof.
  edestruct (clarification_path askEnv 1700000000123%N agentA footerTask
               st0) as [_ H].
  - reflexivity.
  - specialize (H eq_refl). cbn [repository footerTask] in H.
    destruct H as [_ H]. rewrite H. reflexivity.
Defined.


(** ** Replying to a review *)

Lemma respondToReviewComments_step (env : Env) (task : Task)
    (repo : Repository) (pr : N) (c : ReviewComment)
    (rest : list ReviewComment) (st : State) :
  repository task = Some repo -> task_pullRequest task = Some pr ->
  respondToReviewComments env task (c :: rest) st =
  match gitea_createComment env (trace st ++ [reviewReplyEvent repo pr]) with
  | Ok _ =>
      respondToReviewComments env task rest
        (withTrace st (trace st ++ [reviewReplyEvent repo pr]))
  | Throw e =>
      (Throw e, withTrace st (trace st ++ [reviewReplyEvent repo pr]))
  end.
Proof.
  intros R P. cbn [respondToReviewComments].
  unfold GiteaClient.createPullRequestComment, bind, deref.
  rewrite R, P. unfold ret. rewrite external_run.
  fold (reviewReplyEvent repo pr).
  destruct (gitea_createComment env _) as [[]|e]; reflexivity.
Qed.

Lemma repeat_shift (ev : Event) (tr : list Event) (n : nat) :
  (tr ++ [ev]) ++ repeat ev n = tr ++ repeat ev (S n).
Proof. now rewrite <- app_assoc. Qed.

(** X18.  [respondToReviewComments] posts the same reply once per review
    comment, in order, and stops at the first one the tracker refuses,
    throwing its error: the comments after it get no reply.  When the
    tracker accepts every reply, one reply per comment has been posted
    and nothing is thrown.  With no comments it does nothing, and with
    comments on a task that has no pull request it throws a TypeError
    before posting anything. *)
Theorem review_replies_stop_at_first_failure (env : Env) (task : Task)
    (repo : Repository) (reviewComments : list ReviewComment) (st : State) :
  repository task = Some repo ->
  (forall pr,
      task_pullRequest task = Some pr ->
      (forall k e,
          k < List.length reviewComments ->
          (forall i, i < k ->
             gitea_createComment env
               (trace st ++ repeat (reviewReplyEvent repo pr) (S i))
             = Ok tt) ->
          gitea_createComment env
            (trace st ++ repeat (reviewReplyEvent repo pr) (S k))
          = Throw e ->
          respondToReviewComments env task reviewComments st =
          (Throw e,
           withTrace st
             (trace st ++ repeat (reviewReplyEvent repo pr) (S k)))) /\
      ((forall i, i < List.length reviewComments ->
          gitea_createComment env
            (trace st ++ repeat (reviewReplyEvent repo pr) (S i))
          = Ok tt) ->
       respondToReviewComments env task reviewComments st =
       (Ok tt,
        withTrace st
          (trace st ++
           repeat (reviewReplyEvent repo pr)
                  (List.length reviewComments))))) /\
  (task_pullRequest task = None ->
   respondToReviewComments env task reviewComments st =
   match reviewComments with
   | [] => (Ok tt, st)
   | _ :: _ => (Throw TypeError, st)
   end).
Proof.
  intro R. split.
  - intros pr P. revert st.
    induction reviewComments as [|c rest IH]; intro st.
    + split.
      * intros k e L. simpl in L. lia.
      * intros _. simpl. now rewrite withTrace_nil.
    + destruct (IH (withTrace st (trace st ++ [reviewReplyEvent repo pr])))
        as [IH1 IH2].
      cbn [trace withTrace] in IH1, IH2.
      split.
      * intros k e L A F.
        rewrite (respondToReviewComments_step env task repo pr c rest st R P).
        destruct k as [|k].
        -- cbn [repeat] in F. now rewrite F.
        -- pose proof (A 0 ltac:(lia)) as A0. cbn [repeat] in A0.
           rewrite A0.
           rewrite (IH1 k e).
           ++ unfold withTrace. cbn [trace pendingRequests activeAgents].
              now rewrite repeat_shift.
           ++ simpl in L. lia.
           ++ intros i Hi. rewrite repeat_shift. apply A. lia.
           ++ now rewrite repeat_shift.
      * intros A.
        rewrite (respondToReviewComments_step env task repo pr c rest st R P).
        pose proof (A 0 ltac:(simpl; lia)) as A0. cbn [repeat] in A0.
        rewrite A0.
        rewrite IH2.
        -- unfold withTrace. cbn [trace pendingRequests activeAgents].
           now rewrite repeat_shift.
        -- intros i Hi. rewrite repeat_shift. apply A. simpl. lia.
  - intro P. destruct reviewComments as [|c rest]; [reflexivity|].
    cbn [respondToReviewComments]. unfold bind, deref. now rewrite R, P.
Qed.

Lemma review_replies_stop_at_first_failure_witness :
  respondToReviewComments (refusingAt 2) reviewedTask
    [renameIt; renameIt; renameIt] st0
  = (Throw (ExternalError (js "refused")),
     withTrace st0 (trace st0 ++ repeat (reviewReplyEvent shop 5) 2)) /\
  respondToReviewComments (okEnv 0) reviewedTask [renameIt; renameIt] st0
  = (Ok tt,
     withTrace st0 (trace st0 ++ repeat (reviewReplyEvent shop 5) 2)) /\
  respondToReviewComments (okEnv 0) footerTask [renameIt] st0
  = (Throw TypeError, st0).
Proof.
  split; [|split].
  - apply (proj1 (proj1 (review_replies_stop_at_first_failure
                           (refusingAt 2) reviewedTask shop
                           [renameIt; renameIt; renameIt] st0 eq_refl)
                    5%N eq_refl) 1).
    + simpl. lia.
    + intros i Hi. destruct i; [reflexivity | lia].
    + reflexivity.
  - apply (proj2 (proj1 (review_replies_stop_at_first_failure
                           (okEnv 0) reviewedTask shop
                           [renameIt; renameIt] st0 eq_refl)
                    5%N eq_refl)).
    intros i Hi. reflexivity.
  - apply (proj2 (review_replies_stop_at_first_failure (okEnv 0) footerTask
                    shop [renameIt] st0 eq_refl)).
    reflexivity.
Defined.


(** ** From the branch to the pull request *)

Lemma commitChanges_inv (env : Env) (task : Task)
    (implementation : Implementation) (st st' : State) (u : unit) :
  commitChanges env task implementation st = (Ok u, st') ->
  exists repo commitMessage,
    repository task = Some repo /\
    commitMessageOf task implementation = Ok commitMessage /\
    st' = withTrace st (trace st ++ commitEvents repo commitMessage).
Proof.
  unfold commitChanges. intro H.
  apply bind_inv in H as [commitMessage [s0 [G H]]].
  rewrite generateCommitMessage_run in G. injection G as G <-.
  apply bind_inv in H as [repo [s1 [D H]]].
  apply deref_inv in D as [R ->].
  exists repo, commitMessage. split; [exact R|]. split; [exact G|].
  unfold gitOperation, bind in H. rewrite !external_run in H.
  destruct (mcp_gitOperation env _) as [[]|e] in H; [|discriminate].
  destruct (mcp_gitOperation env _) as [[]|e] in H; [|discriminate].
  destruct (mcp_gitOperation env _) as [[]|e] in H; [|discriminate].
  injection H as _ <-. unfold withTrace, commitEvents.
  cbn [trace pendingRequests activeAgents]. now rewrite <- !app_assoc.
Qed.

Lemma createPullRequest_options_run (env : Env) (st : State) :
  GiteaClient.createPullRequest env GiteaClient.ArgObject
    GiteaClient.ArgUndefined None None None None [] st =
  (gitea_createPullRequest env (trace st ++ [optionsPullRequestRequest]),
   withTrace st (trace st ++ [optionsPullRequestRequest])).
Proof.
  unfold GiteaClient.createPullRequest, bind. rewrite external_run.
  fold optionsPullRequestRequest.
  destruct (gitea_createPullRequest env _); reflexivity.
Qed.

(** X19.  What the workflow has done after a plan that needs no
    verification, when it gets as far as a result.  It has created the
    branch named by [generateBranchName] and checked out [task.branch],
    not the branch just created.  The agent has run on the plan.  Its
    changes were added, committed under the generated message and
    pushed without a branch being named.  The testing stage has run.
    Then one request was sent for the pull request, made of the one
    object [giteaClient.createPullRequest] was handed: it goes to the
    path made of that object and of [undefined] and names no title, no
    head and no base.  If the task has a source issue, a note was left
    on it, addressed properly.  Nothing follows: the status of the task
    is not updated.  The result names the created branch and the pull
    request the tracker answered with. *)
Theorem branch_to_pull_request (env : Env) (now : N) (agent : Agent)
    (task : Task) (st st1 st2 st' : State) (plan : Plan)
    (r : WorkflowResult) :
  analyzeRequirements env agent task st = (Ok None, st1) ->
  createImplementationPlan env agent task st1 = (Ok plan, st2) ->
  truthy (shouldVerifyOutcome plan task) = false ->
  executeWorkflow env now agent task st = (Ok r, st') ->
  exists repo implementation commitMessage report pullRequest sb sc,
    repository task = Some repo /\
    executeWithImplementation env agent
      (ImplementationPrompt (description task) (fullPlan plan))
      (withTrace st2
         (trace st2 ++
          [branchCreationEvent now task repo; checkoutEvent task repo]))
    = (Ok implementation, sb) /\
    commitMessageOf task implementation = Ok commitMessage /\
    runTests env agent task
      (withTrace sb (trace sb ++ commitEvents repo commitMessage))
    = (Ok report, sc) /\
    gitea_createPullRequest env (trace sc ++ [optionsPullRequestRequest])
    = Ok pullRequest /\
    st' = withTrace sc
            (trace sc ++
             optionsPullRequestRequest ::
             linkEvents now task repo implementation pullRequest) /\
    r = awaitingReview now task pullRequest.
Proof.
  intros HA HP V H.
  destruct (createImplementationPlan_inv _ _ _ _ _ _ HP) as [repo [R _]].
  unfold executeWorkflow in H.
  rewrite (bind_ok _ _ _ _ _ HA) in H. rewrite (bind_ok _ _ _ _ _ HP) in H.
  rewrite V in H.
  apply bind_inv in H as [branchName [sa [B H]]].
  unfold createFeatureBranch, gitOperation in B.
  apply bind_inv in B as [repo' [s0 [D B]]].
  apply deref_inv in D as [R' ->].
  assert (repo' = repo) by congruence. subst repo'. clear R'.
  unfold bind in B. rewrite external_run in B.
  fold (branchCreationEvent now task repo) in B.
  destruct (mcp_gitOperation env _) as [[]|e] in B; [|discriminate].
  unfold ret in B. injection B as <- <-.
  apply bind_inv in H as [implementation [s3 [I H]]].
  unfold implementChanges, gitOperation in I.
  apply bind_inv in I as [repo' [s0 [D I]]].
  apply deref_inv in D as [R' ->].
  assert (repo' = repo) by congruence. subst repo'. clear R'.
  unfold bind at 1 in I. rewrite external_run in I.
  fold (checkoutEvent task repo) in I.
  destruct (mcp_gitOperation env _) as [[]|e] in I; [|discriminate].
  rewrite withTrace_app in I. cbn [app] in I.
  apply bind_inv in I as [impl [sb [X I]]].
  apply bind_inv in I as [u [s4 [C I]]].
  unfold ret in I. injection I as -> ->.
  apply commitChanges_inv in C as [repo' [commitMessage [R' [G ->]]]].
  assert (repo' = repo) by congruence. subst repo'. clear R'.
  apply bind_inv in H as [report [sc [T H]]].
  apply bind_inv in H as [pullRequest [s5 [P H]]].
  apply bind_inv in H as [u' [s6 [N H]]].
  unfold notifyForReview in N.
  rewrite updateTaskStatus_run in N. injection N as _ <-.
  unfold ret in H. injection H as <- <-.
  unfold createPullRequest in P.
  apply bind_inv in P as [repo' [s0 [D P]]].
  apply deref_inv in D as [R' ->].
  assert (repo' = repo) by congruence. subst repo'. clear R'.
  apply bind_inv in P as [pr [s7 [Q P]]].
  rewrite createPullRequest_options_run in Q. injection Q as GP <-.
  exists repo, implementation, commitMessage, report, pullRequest, sb, sc.
  split; [exact R|]. split; [exact X|]. split; [exact G|].
  split; [exact T|].
  apply bind_inv in P as [u'' [s8 [L P]]].
  unfold ret in P. injection P as -> <-.
  split; [exact GP|]. split; [|reflexivity].
  unfold linkEvents.
  destruct (sourceIssue task) as [n|].
  - unfold GiteaClient.createIssueComment in L. rewrite external_run in L.
    injection L as _ <-. rewrite withTrace_app. reflexivity.
  - unfold ret in L. now injection L as <-.
Qed.

Lemma branch_to_pull_request_witness :
  exists repo implementation commitMessage report pullRequest sb sc,
    repository footerTask = Some repo /\
    executeWithImplementation (okEnv 1) agentA
      (ImplementationPrompt (description footerTask)
         (fullPlan (parseImplementationPlan (okEnv 1)
                      (js "REQUIREMENTS_CLEAR"))))
      (withTrace
         (snd (createImplementationPlan (okEnv 1) agentA footerTask
                 (snd (analyzeRequirements (okEnv 1) agentA footerTask
                         st0))))
         (trace
            (snd (createImplementationPlan (okEnv 1) agentA footerTask
                    (snd (analyzeRequirements (okEnv 1) agentA footerTask
                            st0)))) ++
          [branchCreationEvent 1700000000123 footerTask repo;
           checkoutEvent footerTask repo]))
    = (Ok implementation, sb) /\
    commitMessageOf footerTask implementation = Ok commitMessage /\
    runTests (okEnv 1) agentA footerTask
      (withTrace sb (trace sb ++ commitEvents repo commitMessage))
    = (Ok report, sc) /\
    gitea_createPullRequest (okEnv 1)
      (trace sc ++ [optionsPullRequestRequest])
    = Ok pullRequest /\
    snd (executeWorkflow (okEnv 1) 1700000000123 agentA footerTask st0)
    = withTrace sc
        (trace sc ++
         optionsPullRequestRequest ::
         linkEvents 1700000000123 footerTask repo implementation
                    pullRequest) /\
    mkWorkflowResult (js "awaiting_review") (js "pull_request_created")
      (Some (mkPullRequest 5 (js "Feature") (js "http://pr/5")))
      (Some (js "feature/add-a-footer-000123"))
    = awaitingReview 1700000000123 footerTask pullRequest.
Proof.
  eapply (branch_to_pull_request (okEnv 1) 1700000000123%N agentA
            footerTask st0); reflexivity.
Defined.


(** ** Handling review feedback *)

Lemma respondToReviewComments_ok (env : Env) (task : Task)
    (repo : Repository) (reviewComments : list ReviewComment) :
  repository task = Some repo ->
  forall st u st',
    respondToReviewComments env task reviewComments st = (Ok u, st') ->
    exists replies,
      st' = withTrace st (trace st ++ replies) /\
      match reviewComments with
      | [] => replies = []
      | _ :: _ =>
          exists pr,
            task_pullRequest task = Some pr /\
            replies = repeat (reviewReplyEvent repo pr)
                             (List.length reviewComments)
      end.
Proof.
  intro R. destruct reviewComments as [|c0 rest0].
  - intros st u st' H. injection H as _ <-. exists [].
    now rewrite withTrace_nil.
  - destruct (task_pullRequest task) as [pr|] eqn:P.
    2:{ intros st u st' H. cbn [respondToReviewComments] in H.
        unfold bind, deref in H. rewrite R, P in H. discriminate. }
    assert (G : forall cs st u st',
               respondToReviewComments env task cs st = (Ok u, st') ->
               st' = withTrace st
                       (trace st ++
                        repeat (reviewReplyEvent repo pr) (List.length cs))).
    { induction cs as [|c rest IH]; intros st u st' H.
      - injection H as _ <-. simpl. now rewrite withTrace_nil.
      - rewrite (respondToReviewComments_step env task repo pr c rest st R P)
          in H.
        destruct (gitea_createComment env _) as [[]|e]; [|discriminate].
        apply IH in H. rewrite H. unfold withTrace.
        cbn [trace pendingRequests activeAgents List.length].
        now rewrite repeat_shift. }
    intros st u st' H. apply G in H. eexists. split; [exact H|].
    now exists pr.
Qed.

(** X28.  [handleReviewFeedback], when it returns, has done this, in
    this order: the agent has run on the review comments; its changes
    were added, committed under the message generated for the summary
    "Address review feedback" and pushed without a branch being named;
    and only then one reply per review comment was posted on the pull
    request of the task.  What it returns is what the agent returned.
    Without a task or without review comments it throws a TypeError
    before calling anything. *)
Theorem review_feedback_commits_before_replying (env : Env) (agent : Agent)
    (st : State) :
  (forall task reviewComments response st',
      handleReviewFeedback env agent (Some task) (Some reviewComments) st
      = (Ok response, st') ->
      exists repo sb commitMessage replies,
        repository task = Some repo /\
        executeWithImplementation env agent (FeedbackPrompt reviewComments)
          st = (Ok response, sb) /\
        commitMessageOf task (reviewFix response) = Ok commitMessage /\
        st' = withTrace sb
                (trace sb ++ commitEvents repo commitMessage ++ replies) /\
        match reviewComments with
        | [] => replies = []
        | _ :: _ =>
            exists pr,
              task_pullRequest task = Some pr /\
              replies = repeat (reviewReplyEvent repo pr)
                               (List.length reviewComments)
        end) /\
  (forall task, handleReviewFeedback env agent task None st
                = (Throw TypeError, st)) /\
  (forall reviewComments,
      handleReviewFeedback env agent None reviewComments st
      = (Throw TypeError, st)).
Proof.
  split; [|split].
  - intros task reviewComments response st' H.
    unfold handleReviewFeedback in H.
    apply bind_inv in H as [task' [s0 [D H]]].
    apply deref_inv in D as [D ->]. injection D as <-.
    apply bind_inv in H as [cs [s0 [D H]]].
    apply deref_inv in D as [D ->]. injection D as <-.
    apply bind_inv in H as [repo [s0 [D H]]].
    apply deref_inv in D as [R ->].
    apply bind_inv in H as [resp [sb [X H]]].
    apply bind_inv in H as [u [s1 [C H]]].
    apply bind_inv in H as [u' [s2 [A H]]].
    unfold ret in H. injection H as -> <-.
    fold (reviewFix response) in C.
    apply commitChanges_inv in C as [repo' [commitMessage [R' [G ->]]]].
    assert (repo' = repo) by congruence. subst repo'. clear R'.
    apply (respondToReviewComments_ok env task repo reviewComments R) in A
      as [replies [-> M]].
    exists repo, sb, commitMessage, replies.
    split; [exact R|]. split; [exact X|]. split; [exact G|].
    split; [now rewrite withTrace_app | exact M].
  - intros [task|]; reflexivity.
  - intros reviewComments. reflexivity.
Qed.

Lemma review_feedback_commits_before_replying_witness :
  exists repo sb commitMessage replies,
    repository reviewedTask = Some repo /\
    executeWithImplementation (okEnv 0) agentA (FeedbackPrompt [renameIt])
      st0
    = (Ok (fst_ok (executeWithImplementation (okEnv 0) agentA
                     (FeedbackPrompt [renameIt]) st0)), sb) /\
    commitMessageOf reviewedTask
      (reviewFix (fst_ok (executeWithImplementation (okEnv 0) agentA
                            (FeedbackPrompt [renameIt]) st0)))
    = Ok commitMessage /\
    snd (handleReviewFeedback (okEnv 0) agentA (Some reviewedTask)
           (Some [renameIt]) st0)
    = withTrace sb (trace sb ++ commitEvents repo commitMessage ++ replies) /\
    exists pr,
      task_pullRequest reviewedTask = Some pr /\
      replies = repeat (reviewReplyEvent repo pr) (List.length [renameIt]).
Proof.
  apply (proj1 (review_feedback_commits_before_replying (okEnv 0) agentA
                  st0) reviewedTask [renameIt]).
  reflexivity.
Defined.

End WorkflowExtras.

(* ================================================================== *)
(** * More about [AgentService]: when and how it asks a human *)

Module AgentExtras.

Import AgentHelpers HumanLoopService HumanLoopOps Examples MoreExamples.

(** ** Splitting on runs of separators *)

Lemma splitRunsFrom_head (isSep : ascii -> bool) (s l : jsstring)
    (ls : list jsstring) :
  splitRunsFrom isSep false s = l :: ls -> exists rest, s = l ++ rest.
Proof.
  revert l ls. induction s as [|c s IH]; intros l ls H.
  - injection H as <- _. now exists [].
  - simpl in H. destruct (isSep c).
    + injection H as <- _. now exists (c :: s).
    + destruct (splitRunsFrom isSep false s) as [|l' ls'] eqn:E.
      * injection H as <- _. exists s.
        destruct s; [reflexivity | simpl in E].
        destruct (isSep a); [discriminate|].
        destruct (splitRunsFrom isSep false s); discriminate.
      * injection H as <- _. destruct (IH l' ls' eq_refl) as [rest ->].
        now exists rest.
Qed.

Lemma splitRunsFrom_pieces (isSep : ascii -> bool) (s : jsstring) :
  forall inRun x,
    In x (splitRunsFrom isSep inRun s) ->
    forallb (fun c => negb (isSep c)) x = true /\
    exists a b, s = a ++ x ++ b.
Proof.
  induction s as [|c s IH]; intros inRun x I.
  - destruct I as [<-|[]]. split; [reflexivity | now exists [], []].
  - simpl in I. destruct (isSep c) eqn:Sc.
    + assert (J : x = [] \/ In x (splitRunsFrom isSep true s)).
      { destruct inRun; [now right|]. destruct I as [<-|I]; tauto. }
      destruct J as [->|J]; [split; [reflexivity | now exists [], (c :: s)]|].
      destruct (IH true x J) as [F [a [b ->]]].
      split; [exact F | now exists (c :: a), b].
    + destruct (splitRunsFrom isSep false s) as [|l ls] eqn:E.
      * destruct I as [<-|[]]. simpl. rewrite Sc.
        split; [reflexivity | now exists [], s].
      * destruct I as [<-|I].
        -- destruct (IH false l) as [F _]; [rewrite E; now left|].
           destruct (splitRunsFrom_head isSep s l ls E) as [rest ->].
           split; [simpl; now rewrite Sc, F | now exists [], rest].
        -- destruct (IH false x) as [F [a [b ->]]]; [rewrite E; now right|].
           split; [exact F | now exists (c :: a), b].
Qed.

(** ** The indicator that cannot fire *)

Lemma lowerUnit_not_I (c : ascii) : lowerUnit c <> "I"%char.
Proof. destruct c as [[] [] [] [] [] [] [] []]; vm_compute; discriminate. Qed.

Lemma lowerUnit_idem (c : ascii) : lowerUnit (lowerUnit c) = lowerUnit c.
Proof. destruct c as [[] [] [] [] [] [] [] []]; reflexivity. Qed.

Lemma should_I_absent (message : jsstring) :
  includes (toLowerCase message) (js "should I") = false.
Proof.
  apply includes_false_spec. intros a b E.
  assert (I : In "I"%char (toLowerCase message)).
  { rewrite E. apply in_or_app. right. apply in_or_app. left.
    simpl. tauto. }
  unfold toLowerCase in I. apply in_map_iff in I as [c [L _]].
  exact (lowerUnit_not_I c L).
Qed.

Lemma failed_some (results : list ActionResult) :
  (0 <? List.length (failedActions results)) = true <->
  exists r, In r results /\ ar_status r = js "failed".
Proof.
  unfold failedActions. rewrite Nat.ltb_lt. split.
  - intro L.
    destruct (filter _ results) as [|r l] eqn:E; [simpl in L; lia|].
    assert (I : In r (filter (fun r => str_eqb (ar_status r) (js "failed"))
                             results)) by (rewrite E; now left).
    apply filter_In in I as [I S]. exists r. split; [exact I|].
    now apply str_eqb_eq.
  - intros [r [I S]].
    assert (J : In r (filter (fun r => str_eqb (ar_status r) (js "failed"))
                             results)).
    { apply filter_In. split; [exact I | now apply str_eqb_eq]. }
    destruct (filter _ results); [destruct J | simpl; lia].
Qed.

(** X20.  [requiresHumanInput] answers true exactly when the message
    holds REQUEST_HUMAN_INPUT or "human input" as written, or an action
    failed, or the message holds, in any case, one of "not sure",
    "unclear", "need clarification", "which approach", "need guidance".
    The sixth indicator, "should I", is compared with the lower-cased
    message and so can never be found: a message that only asks
    "Should I ...?" does not ask for a human. *)
Theorem should_I_never_fires (message : jsstring)
    (results : list ActionResult) :
  includes (toLowerCase message) (js "should I") = false /\
  (requiresHumanInput message results = true <->
   includes message (js "REQUEST_HUMAN_INPUT") = true \/
   includes message (js "human input") = true \/
   (exists r, In r results /\ ar_status r = js "failed") \/
   exists indicator,
     In indicator liveIndicators /\
     containsIgnoringCase message indicator).
Proof.
  split; [apply should_I_absent|].
  unfold requiresHumanInput.
  destruct (includes message (js "REQUEST_HUMAN_INPUT")) eqn:I1;
    [cbn [orb]; tauto|].
  destruct (includes message (js "human input")) eqn:I2;
    [cbn [orb]; tauto|].
  cbn [orb].
  destruct (0 <? List.length (failedActions results)) eqn:F.
  { apply failed_some in F. tauto. }
  assert (NF : ~ exists r, In r results /\ ar_status r = js "failed").
  { intro H. apply failed_some in H. congruence. }
  assert (L : forall ind, In ind liveIndicators -> toLowerCase ind = ind).
  { simpl. intros ind [H|[H|[H|[H|[H|[]]]]]]; subst ind; reflexivity. }
  unfold uncertaintyIndicators. cbn [existsb].
  rewrite (should_I_absent message). cbn [orb].
  rewrite orb_false_r, !orb_true_iff. split.
  - intro H. right. right. right.
    destruct H as [H|[H|[H|[H|H]]]];
      [exists (js "not sure") | exists (js "unclear")
       | exists (js "need clarification") | exists (js "which approach")
       | exists (js "need guidance")];
      (split; [simpl; tauto | now apply includes_toLowerCase]).
  - intros [H|[H|[H|[ind [I C]]]]]; try discriminate; [tauto|].
    apply includes_toLowerCase in C. rewrite (L ind I) in C.
    simpl in I. destruct I as [I|[I|[I|[I|[I|[]]]]]]; subst ind; tauto.
Qed.


(** ** The question put to the human *)

Lemma filter_none {A : Type} (f : A -> bool) (l : list A) :
  (forall x, In x l -> f x = false) -> filter f l = [].
Proof.
  induction l as [|x l IH]; intro H; [reflexivity|]. simpl.
  rewrite (H x (or_introl eq_refl)). apply IH.
  intros y I. apply H. now right.
Qed.

Lemma sentence_has_no_question_mark (message s : jsstring) :
  In s (splitRuns isSentenceEnd message) -> includes s (js "?") = false.
Proof.
  intro I. destruct (splitRunsFrom_pieces _ _ _ _ I) as [F _].
  apply includes_false_spec. intros a b E.
  rewrite forallb_forall in F.
  assert (Q : In "?"%char s).
  { rewrite E. apply in_or_app. right. now left. }
  specialize (F _ Q). discriminate.
Qed.

(** X21.  [extractQuestion] never returns the empty string.  The message
    is cut at every run of full stops, exclamation marks and question
    marks, so no sentence holds a question mark and that test never
    selects one: only sentences with "should", in any case, are kept.  A
    message without "should" is therefore replaced by the stock
    sentence, even when it is a question. *)
Theorem question_mark_never_selects (message : jsstring) :
  extractQuestion message <> [] /\
  (forall s, In s (splitRuns isSentenceEnd message) ->
             includes s (js "?") = false) /\
  (includes (toLowerCase message) (js "should") = false ->
   extractQuestion message = defaultQuestion).
Proof.
  split; [|split].
  - unfold extractQuestion.
    destruct (join (js " ") _) eqn:J; simpl; discriminate.
  - intros s I. now apply (sentence_has_no_question_mark message).
  - intro N. unfold extractQuestion.
    assert (E : filter (fun s => includes s (js "?") ||
                                 includes (toLowerCase s) (js "should"))
                       (splitRuns isSentenceEnd message) = []).
    { apply filter_none. intros s I.
      rewrite (sentence_has_no_question_mark message s I). cbn [orb].
      destruct (splitRunsFrom_pieces _ _ _ _ I) as [_ [a [b E]]].
      destruct (includes (toLowerCase s) (js "should")) eqn:C;
        [|reflexivity].
      rewrite E, !toLowerCase_app in N.
      rewrite (includes_infix _ _ _ _ C) in N. discriminate. }
    rewrite E. reflexivity.
Qed.

Lemma question_mark_never_selects_witness :
  extractQuestion (js "Which database? Postgres or MySQL?")
  = defaultQuestion.
Proof.
  apply (proj2 (proj2 (question_mark_never_selects
                         (js "Which database? Postgres or MySQL?")))).
  reflexivity.
Defined.

(** ** Keywords *)

(** X22.  Every keyword [extractKeywords] returns is a stretch of the
    lower-cased description without white space, of at least three code
    units, in lower case, and none of the stop words. *)
Theorem keywords_are_plain_words (description w : jsstring) :
  In w (extractKeywords description) ->
  3 <= List.length w /\
  forallb (fun c => negb (isWhiteSpace c)) w = true /\
  toLowerCase w = w /\
  ~ In w stopWords /\
  exists a b, toLowerCase description = a ++ w ++ b.
Proof.
  unfold extractKeywords. intro I. apply filter_In in I as [I T].
  apply andb_true_iff in T as [T1 T2]. apply Nat.ltb_lt in T2.
  destruct (splitRunsFrom_pieces _ _ _ _ I) as [F [a [b E]]].
  split; [lia|]. split; [exact F|]. split; [|split].
  - unfold toLowerCase. rewrite <- (map_id w) at 2.
    apply map_ext_in. intros c Ic.
    assert (J : In c (toLowerCase description)).
    { rewrite E. apply in_or_app. right. apply in_or_app. now left. }
    unfold toLowerCase in J. apply in_map_iff in J as [c0 [<- _]].
    apply lowerUnit_idem.
  - intro S. apply negb_true_iff in T1.
    assert (X : existsb (str_eqb w) stopWords = true).
    { apply existsb_exists. exists w. split; [exact S|].
      now apply str_eqb_eq. }
    congruence.
  - now exists a, b.
Qed.

Lemma keywords_are_plain_words_witness :
  3 <= List.length (js "footer") /\
  forallb (fun c => negb (isWhiteSpace c)) (js "footer") = true /\
  toLowerCase (js "footer") = js "footer" /\
  ~ In (js "footer") stopWords /\
  exists a b, toLowerCase (js "Add a Footer to the page")
              = a ++ js "footer" ++ b.
Proof.
  apply (keywords_are_plain_words (js "Add a Footer to the page")).
  simpl. right. now left.
Defined.


(** ** A request made by the agent *)

Lemma findPendingRequest_set_fresh (m : Map Request) (k t a : jsstring)
    (v : Request) :
  findPendingRequest m t a = None ->
  isPendingFor t a (k, v) = true ->
  findPendingRequest (map_set k v m) t a = Some (k, v).
Proof.
  intros F P. induction m as [|[k0 r0] m IH].
  - simpl. unfold isPendingFor in P. cbn [snd] in P. now rewrite P.
  - rewrite HumanLoopExtras.findPendingRequest_cons in F.
    destruct (isPendingFor t a (k0, r0)) eqn:P0; [discriminate|].
    cbn [map_set]. destruct (str_eqb k0 k) eqn:K.
    + apply str_eqb_eq in K. subst k0.
      rewrite HumanLoopExtras.findPendingRequest_cons. now rewrite P.
    + rewrite HumanLoopExtras.findPendingRequest_cons, P0. now apply IH.
Qed.

(** X23.  When [AgentService.requestHumanInput] succeeds, the issue it
    opened is titled with the extracted question, never with the task
    description, and labelled with the assessed urgency; the request is
    stored with a context that names no repository.  Such a request
    cannot be closed: if it is the one [closeHumanInputIssue] finds for
    the task and agent, the call posts nothing and leaves the request
    pending. *)
Theorem agent_request_cannot_be_closed (env : Env) (now : N)
    (agent : Agent) (task : Task) (message : jsstring)
    (results : list ActionResult) (st st' : State) :
  AgentHelpers.requestHumanInput env now agent task message results st
  = (Ok tt, st') ->
  exists info issue,
    trace st' =
    trace st ++
    [McpCreateGiteaIssue (info_owner info) (info_name info)
       (js "[AI Agent] Human Input Required: " ++ extractQuestion message)
       [js "ai-agent"; js "human-input-required";
        js "priority-" ++ assessUrgency message results]] /\
    map_get (requestId now task) (pendingRequests st')
    = Some (newRequest now task (agentContext agent message results)
                       issue) /\
    (findPendingRequest (pendingRequests st) (task_id task)
                        (agent_id agent) = None ->
     forall now' resolution,
       closeHumanInputIssue env now' (task_id task) (agent_id agent)
                            resolution st' = (Ok tt, st')).
Proof.
  unfold AgentHelpers.requestHumanInput. cbv zeta.
  fold (agentContext agent message results).
  set (ctx := agentContext agent message results).
  intro H. unfold bind in H.
  destruct (HumanLoopFacts.extractRepositoryInfo_pure (repository task)
              (metadata_repository task)) as [[info|e] P].
  2:{ unfold HumanLoopService.requestHumanInput, createHumanInputIssue,
        bind in H. rewrite P in H. discriminate. }
  destruct (mcp_createGiteaIssue env (trace st ++ [issueEvent task ctx info]))
    as [issue|e] eqn:O.
  2:{ unfold HumanLoopService.requestHumanInput, createHumanInputIssue,
        bind, external in H. rewrite P in H.
      fold (issueEvent task ctx info) in H. rewrite O in H.
      discriminate. }
  rewrite (HumanLoopFacts.requestHumanInput_run env now task ctx st info
             issue) in H; [|now rewrite P | exact O].
  unfold ret in H. injection H as <-.
  exists info, issue. cbn [trace pendingRequests].
  assert (Q : truthyStr (extractQuestion message) = true).
  { unfold extractQuestion.
    destruct (join (js " ") _) eqn:J; reflexivity. }
  assert (U : truthyStr (assessUrgency message results) = true).
  { unfold assessUrgency.
    destruct (0 <? _); [reflexivity|]. now destruct (existsb _ _). }
  split; [|split].
  - unfold issueEvent, ctx, agentContext, orElse.
    cbn [ctx_question ctx_urgency]. now rewrite Q, U.
  - apply map_get_set_same.
  - intros F now' resolution.
    rewrite HumanLoopExtras.closeHumanInputIssue_run.
    cbn [pendingRequests].
    rewrite (findPendingRequest_set_fresh _ _ _ _ _ F).
    + now rewrite HumanLoopExtras.bare_context_has_no_repository.
    + unfold isPendingFor, newRequest.
      cbn [snd taskId req_agentId status ctx agentContext agentId].
      now rewrite !str_eqb_refl.
Qed.

Lemma agent_request_cannot_be_closed_witness :
  exists info issue,
    trace (snd (AgentHelpers.requestHumanInput (okEnv 0) 1000 agentA
                  footerTask (js "Which database? Postgres or MySQL?") []
                  st0)) =
    trace st0 ++
    [McpCreateGiteaIssue (info_owner info) (info_name info)
       (js "[AI Agent] Human Input Required: " ++
        extractQuestion (js "Which database? Postgres or MySQL?"))
       [js "ai-agent"; js "human-input-required";
        js "priority-" ++
        assessUrgency (js "Which database? Postgres or MySQL?") []]] /\
    map_get (requestId 1000 footerTask)
      (pendingRequests
         (snd (AgentHelpers.requestHumanInput (okEnv 0) 1000 agentA
                 footerTask (js "Which database? Postgres or MySQL?") []
                 st0)))
    = Some (newRequest 1000 footerTask
              (agentContext agentA
                 (js "Which database? Postgres or MySQL?") []) issue) /\
    (findPendingRequest (pendingRequests st0) (task_id footerTask)
                        (agent_id agentA) = None ->
     forall now' resolution,
       closeHumanInputIssue (okEnv 0) now' (task_id footerTask)
         (agent_id agentA) resolution
         (snd (AgentHelpers.requestHumanInput (okEnv 0) 1000 agentA
                 footerTask (js "Which database? Postgres or MySQL?") []
                 st0))
       = (Ok tt,
          snd (AgentHelpers.requestHumanInput (okEnv 0) 1000 agentA
                 footerTask (js "Which database? Postgres or MySQL?") []
                 st0))).
Proof.
  apply (agent_request_cannot_be_closed (okEnv 0) 1000%N agentA footerTask
           (js "Which database? Postgres or MySQL?") [] st0).
  reflexivity.
Defined.


(** ** A verification reply handed to the agent *)

(** X24.  A reply of type [verification] handed to
    [AgentService.processHumanResponse] for an active agent never
    resumes the agent: the call always throws.  When the reply holds
    "APPROVAL: yes", the continuation it calls is not a method of the
    workflow, so a TypeError is thrown before anything is sent.  When it
    does not, the revision of the plan can never complete: the call
    throws at the latest after the model has been queried once, because
    the plan parser it calls does not exist, and no verification issue
    is opened.  Either way the pending requests are untouched and the
    agent is left with the reply recorded, its status as it was: it is
    not set to [working]. *)
Theorem verification_reply_never_resumes (env : Env) (now : Z)
    (agentId : jsstring) (response : AgentService.AgentResponse)
    (agent : Agent) (st : State) :
  map_get agentId (activeAgents st) = Some agent ->
  AgentService.r_type response = js "verification" ->
  agent_status (verificationRecorded now response agent)
  = agent_status agent /\
  (v_approved (parseVerification (AgentService.r_content response)) = true ->
   exists st',
     AgentService.processHumanResponse env now agentId response st
     = (Throw TypeError, st') /\
     pendingRequests st' = pendingRequests st /\
     map_get agentId (activeAgents st')
     = Some (verificationRecorded now response agent) /\
     trace st' = trace st) /\
  (v_approved (parseVerification (AgentService.r_content response)) = false ->
   exists e st' tail,
     AgentService.processHumanResponse env now agentId response st
     = (Throw e, st') /\
     pendingRequests st' = pendingRequests st /\
     map_get agentId (activeAgents st')
     = Some (verificationRecorded now response agent) /\
     trace st' = trace st ++ tail /\
     forallb isLlmQuery tail = true /\
     List.length tail <= 1).
Proof.
  intros G T. split; [reflexivity|].
  assert (E : AgentService.processHumanResponse env now agentId response st
              = bind (bind (AgentService.processVerificationResponse env
                              agentId
                              (AgentService.pushHistory
                                 (mkHistoryEntry (js "user")
                                    (js "Human response: " ++
                                     AgentService.r_content response)
                                    now true) agent) response)
                           (fun a => AgentService.mutateAgent agentId a
                                       (AgentService.setStatus
                                          (js "working"))))
                     ret
                     (mkState (pendingRequests st)
                        (map_set agentId
                           (AgentService.pushHistory
                              (mkHistoryEntry (js "user")
                                 (js "Human response: " ++
                                  AgentService.r_content response)
                                 now true) agent)
                           (activeAgents st))
                        (trace st))).
  { unfold AgentService.processHumanResponse. unfold bind at 1.
    unfold getAgents at 1. rewrite G, T.
    change (str_eqb (js "verification") (js "clarification")) with false.
    change (str_eqb (js "verification") (js "verification")) with true.
    cbv iota. unfold AgentService.mutateAgent at 1.
    unfold bind, getAgents, putAgents, ret.
    cbn [activeAgents pendingRequests trace].
    destruct (AgentService.processVerificationResponse _ _ _ _ _)
      as [[a|e] s]; reflexivity. }
  rewrite E. clear E.
  unfold AgentService.processVerificationResponse. cbv zeta.
  unfold verificationRecorded.
  split; intro A; rewrite A.
  - unfold continueAfterVerification.
    unfold AgentService.mutateAgent, bind, getAgents, putAgents, ret,
      throw.
    cbn [activeAgents pendingRequests trace].
    eexists. split; [reflexivity|].
    cbn [activeAgents pendingRequests trace].
    split; [reflexivity|]. split; [apply map_get_set_same | reflexivity].
  - unfold AgentService.reviseImplementationPlan, queryAgent.
    unfold AgentService.mutateAgent, bind, getAgents, putAgents, ret,
      throw, external.
    cbn [activeAgents pendingRequests trace agent_type
         AgentService.setVerificationResponse AgentService.pushHistory].
    destruct (str_eqb (agent_type agent) (js "claude")).
    + destruct (llm_create env _);
        (eexists; eexists; eexists; split; [reflexivity|];
         cbn [activeAgents pendingRequests trace];
         split; [reflexivity|]; split; [apply map_get_set_same|];
         split; [reflexivity|]; split; [reflexivity | simpl; lia]).
    + destruct (str_eqb (agent_type agent) (js "openai")).
      * destruct (llm_create env _);
          (eexists; eexists; eexists; split; [reflexivity|];
           cbn [activeAgents pendingRequests trace];
           split; [reflexivity|]; split; [apply map_get_set_same|];
           split; [reflexivity|]; split; [reflexivity | simpl; lia]).
      * eexists. eexists. exists []. split; [reflexivity|].
        cbn [activeAgents pendingRequests trace].
        split; [reflexivity|]. split; [apply map_get_set_same|].
        split; [now rewrite List.app_nil_r|]. split; [reflexivity|].
        simpl. lia.
Qed.

Lemma verification_reply_never_resumes_witness :
  (exists st',
      AgentService.processHumanResponse (okEnv 0) 5000 (js "a1")
        (AgentService.mkAgentResponse (js "verification")
           (js "APPROVAL: yes") None) st0
      = (Throw TypeError, st') /\
      pendingRequests st' = pendingRequests st0 /\
      map_get (js "a1") (activeAgents st')
      = Some (verificationRecorded 5000
                (AgentService.mkAgentResponse (js "verification")
                   (js "APPROVAL: yes") None) agentA) /\
      trace st' = trace st0) /\
  (exists e st' tail,
      AgentService.processHumanResponse (okEnv 0) 5000 (js "a1")
        (AgentService.mkAgentResponse (js "verification")
           (js "APPROVAL: No, use OAuth") None) st0
      = (Throw e, st') /\
      pendingRequests st' = pendingRequests st0 /\
      map_get (js "a1") (activeAgents st')
      = Some (verificationRecorded 5000
                (AgentService.mkAgentResponse (js "verification")
                   (js "APPROVAL: No, use OAuth") None) agentA) /\
      trace st' = trace st0 ++ tail /\
      forallb isLlmQuery tail = true /\
      List.length tail <= 1).
Proof.
  split.
  - apply (proj1 (proj2 (verification_reply_never_resumes (okEnv 0) 5000
                           (js "a1")
                           (AgentService.mkAgentResponse (js "verification")
                              (js "APPROVAL: yes") None)
                           agentA st0 eq_refl eq_refl))).
    reflexivity.
  - apply (proj2 (proj2 (verification_reply_never_resumes (okEnv 0) 5000
                           (js "a1")
                           (AgentService.mkAgentResponse (js "verification")
                              (js "APPROVAL: No, use OAuth") None)
                           agentA st0 eq_refl eq_refl))).
    reflexivity.
Defined.

End AgentExtras.

(* ================================================================== *)
(** * What [DevContainerService] makes of a repository *)

Module DevContainerExtras.

Import DevContainer Examples.

Lemma pushIf_In (c : bool) (items : list jsstring) (x : jsstring) :
  In x (pushIf c items) <-> c = true /\ In x items.
Proof. destruct c; simpl; intuition discriminate. Qed.

Lemma arrayIncludes_In (l : list jsstring) (x : jsstring) :
  arrayIncludes l x = true <-> In x l.
Proof.
  unfold arrayIncludes. rewrite existsb_exists. split.
  - intros [y [I E]]. apply str_eqb_eq in E. now subst.
  - intro I. exists x. split; [exact I | apply str_eqb_refl].
Qed.

Lemma includes_trans (s p q : jsstring) :
  includes s p = true -> includes p q = true -> includes s q = true.
Proof.
  rewrite !includes_spec. intros [a [b ->]] [c [d ->]].
  exists (a ++ c), (d ++ b). now rewrite <- !app_assoc.
Qed.

Lemma isGo_spec (repoName : jsstring) :
  isGo repoName = includes repoName (js "go").
Proof.
  unfold isGo. destruct (includes repoName (js "go")) eqn:G; [reflexivity|].
  destruct (includes repoName (js "golang")) eqn:L; [|reflexivity].
  rewrite (includes_trans repoName (js "golang") (js "go") L eq_refl) in G.
  discriminate.
Qed.

Lemma languages_detected (repository : Repository) (u x : jsstring) :
  url repository = Some u ->
  In x (detectedLanguages (toLowerCase u)) ->
  In x (languages (analyzeRepository repository)).
Proof.
  intros U I. unfold analyzeRepository. rewrite U. cbv zeta.
  destruct (detectedLanguages (toLowerCase u)) eqn:E; [destruct I|].
  cbn [languages]. exact I.
Qed.

Lemma go_detected (repository : Repository) (u : jsstring) :
  url repository = Some u ->
  (In (js "go") (languages (analyzeRepository repository)) <->
   includes (toLowerCase u) (js "go") = true).
Proof.
  intro U. rewrite <- isGo_spec.
  unfold analyzeRepository, detectedLanguages. rewrite U. cbv zeta.
  destruct (isNode _), (isPython _), (isGo _),
    (includes (toLowerCase u) (js "rust")), (isJava _);
    cbn [pushIf app languages]; split; intro H; try reflexivity;
    try (simpl; tauto);
    simpl in H; intuition discriminate.
Qed.

(** X25.  The analysis of a repository never fails and always names at
    least one language.  Every framework and every package manager it
    lists comes with its language: react, vue, nextjs and npm with
    javascript, django, flask and pip with python, cargo with rust,
    spring and maven with java. *)
Theorem analysis_is_consistent (repository : Repository) :
  languages (analyzeRepository repository) <> [] /\
  forall item,
    In item (frameworks (analyzeRepository repository)) \/
    In item (packageManagers (analyzeRepository repository)) ->
    In (languageOf item) (languages (analyzeRepository repository)).
Proof.
  unfold analyzeRepository.
  destruct (url repository) as [u|].
  2:{ split; [discriminate|]. cbn.
      intros item [[]|[<-|[]]]. vm_compute. tauto. }
  cbv zeta. unfold detectedLanguages, detectedFrameworks,
    detectedPackageManagers.
  destruct (isNode _), (isPython _), (isGo _),
    (includes (toLowerCase u) (js "rust")), (isJava _);
    cbn [pushIf andb app languages frameworks packageManagers];
    (split; [discriminate|]);
    intros item H; rewrite ?in_app_iff, ?pushIf_In in H;
    cbn [In] in H;
    repeat match type of H with
           | _ \/ _ => destruct H as [H|H]
           | _ /\ _ => destruct H as [_ H]
           | False => destruct H
           end;
    subst item; vm_compute; tauto.
Qed.

Lemma analysis_is_consistent_witness :
  In (languageOf (js "django"))
     (languages (analyzeRepository
                   (mkRepository (Some (js "http://git/acme/Django-shop"))
                                 None None None))).
Proof.
  apply (proj2 (analysis_is_consistent
                  (mkRepository (Some (js "http://git/acme/Django-shop"))
                                None None None))).
  left. simpl. tauto.
Defined.


(** X26.  The test for Go looks for the two letters "go" anywhere in the
    URL, in any case; the further test for "golang" adds nothing.  A
    repository is therefore taken for a Go project exactly when its URL
    holds "go", and every URL that holds "django" is analysed as both
    Python and Go. *)
Theorem go_is_found_inside_other_words (repository : Repository)
    (u : jsstring) :
  url repository = Some u ->
  (In (js "go") (languages (analyzeRepository repository)) <->
   containsIgnoringCase u (js "go")) /\
  (containsIgnoringCase u (js "django") ->
   In (js "python") (languages (analyzeRepository repository)) /\
   In (js "go") (languages (analyzeRepository repository)) /\
   In (js "django") (frameworks (analyzeRepository repository))).
Proof.
  intro U. split.
  - rewrite (go_detected repository u U).
    apply (includes_toLowerCase u (js "go")).
  - intro D. apply (includes_toLowerCase u (js "django")) in D.
    change (toLowerCase (js "django")) with (js "django") in D.
    assert (P : isPython (toLowerCase u) = true).
    { unfold isPython. rewrite D. now rewrite orb_true_r. }
    split; [|split].
    + apply (languages_detected repository u _ U).
      unfold detectedLanguages. rewrite P.
      rewrite !in_app_iff. right. left. now left.
    + apply (go_detected repository u U).
      exact (includes_trans _ _ (js "go") D eq_refl).
    + unfold analyzeRepository. rewrite U. cbv zeta.
      assert (F : In (js "django") (detectedFrameworks (toLowerCase u))).
      { unfold detectedFrameworks. rewrite P, D. cbn [andb].
        rewrite !in_app_iff. right. right. right. left. now left. }
      now destruct (detectedLanguages (toLowerCase u)).
Qed.

Lemma go_is_found_inside_other_words_witness :
  In (js "python")
     (languages (analyzeRepository
                   (mkRepository (Some (js "http://git/acme/Django-shop"))
                                 None None None))) /\
  In (js "go")
     (languages (analyzeRepository
                   (mkRepository (Some (js "http://git/acme/Django-shop"))
                                 None None None))) /\
  In (js "django")
     (frameworks (analyzeRepository
                    (mkRepository (Some (js "http://git/acme/Django-shop"))
                                  None None None))).
Proof.
  apply (proj2 (go_is_found_inside_other_words
                  (mkRepository (Some (js "http://git/acme/Django-shop"))
                                None None None)
                  (js "http://git/acme/Django-shop") eq_refl)).
  exists (js "http://git/acme/"), (js "Django"), (js "-shop").
  split; reflexivity.
Defined.

(** X27.  The base image chosen for an analysed repository depends only
    on which of the tests for Python, Go, Rust and Java succeed on the
    lower-cased URL, in that order of preference, whatever else was
    detected; a repository with none of them, or without a URL, gets the
    Node image. *)
Theorem base_image_by_priority (repository : Repository) :
  selectBaseImage (analyzeRepository repository) =
  match url repository with
  | None => js "mcr.microsoft.com/devcontainers/javascript-node:18"
  | Some u =>
      if isPython (toLowerCase u)
      then js "mcr.microsoft.com/devcontainers/python:3.11"
      else if includes (toLowerCase u) (js "go")
      then js "mcr.microsoft.com/devcontainers/go:1.21"
      else if includes (toLowerCase u) (js "rust")
      then js "mcr.microsoft.com/devcontainers/rust:latest"
      else if isJava (toLowerCase u)
      then js "mcr.microsoft.com/devcontainers/java:17"
      else js "mcr.microsoft.com/devcontainers/javascript-node:18"
  end.
Proof.
  unfold analyzeRepository.
  destruct (url repository) as [u|]; [|reflexivity].
  rewrite <- isGo_spec. cbv zeta. unfold detectedLanguages.
  destruct (isNode _), (isPython _), (isGo _),
    (includes (toLowerCase u) (js "rust")), (isJava _); reflexivity.
Qed.

End DevContainerExtras.
